(** * bid-crawer: crawl orchestration and the filter pipeline

    A shallow embedding of the Python sources
      - [src/models/bid_info.py]     (the record [BidInfo]),
      - [src/utils/helpers.py]       ([parse_amount], [is_date_in_range]),
      - [src/filter/data_filter.py]  ([DataFilter]),
      - [src/crawler/base_parser.py] ([BaseParser.fetch_list], [fetch_all]),
      - [src/crawler/engine.py]      ([CrawlerEngine]),
    together with the properties the specification states about them.

    Conventions.  A Python [str] is a list of Unicode code points, so
    that [len] counts characters as Python does.  A Python object that
    is mutated in place lives in a store and is named by a location.
    Every [except Exception] of the source is a match on [Raise]; the
    signals outside the [Exception] hierarchy (KeyboardInterrupt,
    SystemExit) are not modelled. *)

From Stdlib Require Import ZArith List Bool String Ascii Lia.
From Stdlib Require Import PrimFloat SpecFloat FloatOps.
From stdpp Require Import base decidable countable list gmap.

Local Open Scope Z_scope.

(* ===================================================================== *)
(** * Python strings                                                      *)
(* ===================================================================== *)

Module Py.

(** A code point, [0 <= c < 0x110000]. *)
Definition char : Type := Z.

(** A Python [str]. *)
Definition str : Type := list char.

(** Decoding of a UTF-8 byte sequence, used only to write literals:
    [u "..."] is the [str] a Python source literal denotes. *)
Fixpoint utf8_decode (fuel : nat) (bs : list Z) : str :=
  match fuel with
  | O => []
  | S fuel' =>
    match bs with
    | [] => []
    | b0 :: r0 =>
      if b0 <? 128 then b0 :: utf8_decode fuel' r0
      else if b0 <? 224 then
        match r0 with
        | b1 :: r1 =>
          ((b0 mod 32) * 64 + b1 mod 64) :: utf8_decode fuel' r1
        | _ => []
        end
      else if b0 <? 240 then
        match r0 with
        | b1 :: b2 :: r2 =>
          ((b0 mod 16) * 4096 + (b1 mod 64) * 64 + b2 mod 64)
            :: utf8_decode fuel' r2
        | _ => []
        end
      else
        match r0 with
        | b1 :: b2 :: b3 :: r3 =>
          ((b0 mod 8) * 262144 + (b1 mod 64) * 4096
             + (b2 mod 64) * 64 + b3 mod 64) :: utf8_decode fuel' r3
        | _ => []
        end
    end
  end.

Definition bytes_of_string (s : string) : list Z :=
  List.map (fun a => Z.of_N (N_of_ascii a)) (list_ascii_of_string s).

Definition u (s : string) : str :=
  let bs := bytes_of_string s in utf8_decode (List.length bs) bs.

(** A [str] can hold a lone surrogate (U+D800 to U+DFFF), which has no
    UTF-8 encoding: [s.encode('utf-8')] raises UnicodeEncodeError on
    it.  The strings of the pipeline are decoded response bodies and
    configuration text and hold none. *)
Definition is_surrogate (c : char) : bool := (55296 <=? c) && (c <=? 57343).

Definition encodable (s : str) : bool :=
  List.forallb (fun c => negb (is_surrogate c)) s.

(** The bytes of [s.encode('utf-8')] for an [encodable] string.  On a
    string that is not [encodable] the source raises; the model leaves
    that case out and gives the three-byte form of the surrogate. *)
Definition utf8_encode_char (c : char) : list Z :=
  if c <? 128 then [c]
  else if c <? 2048 then [192 + c / 64; 128 + c mod 64]
  else if c <? 65536 then
    [224 + c / 4096; 128 + (c / 64) mod 64; 128 + c mod 64]
  else
    [240 + c / 262144; 128 + (c / 4096) mod 64;
     128 + (c / 64) mod 64; 128 + c mod 64].

Definition encode_utf8 (s : str) : list Z :=
  List.concat (List.map utf8_encode_char s).

(** [x in s] for strings: substring test. *)
Fixpoint is_prefix (p s : str) : bool :=
  match p, s with
  | [], _ => true
  | _ :: _, [] => false
  | a :: p', b :: s' => (a =? b) && is_prefix p' s'
  end.

Fixpoint contains (s sub : str) : bool :=
  is_prefix sub s
  || match s with
     | [] => false
     | _ :: s' => contains s' sub
     end.

(** Truth value of a [str]: the empty string is falsy. *)
Definition truthy_str (s : str) : bool :=
  match s with [] => false | _ :: _ => true end.

(** Truth value of an [Optional[str]]. *)
Definition truthy_ostr (o : option str) : bool :=
  match o with None => false | Some s => truthy_str s end.

(** [len(s)]. *)
Definition len {A} (l : list A) : Z := Z.of_nat (List.length l).

End Py.

(* ===================================================================== *)
(** * hashlib.md5                                                         *)
(* ===================================================================== *)

Module MD5.

Definition w32 (x : Z) : Z := x mod 4294967296.

Definition rotl (x n : Z) : Z :=
  w32 (Z.lor (Z.shiftl x n) (Z.shiftr x (32 - n))).

Definition not32 (x : Z) : Z := 4294967295 - x.

Definition shifts : list Z :=
  [7; 12; 17; 22; 7; 12; 17; 22; 7; 12; 17; 22; 7; 12; 17; 22;
   5; 9; 14; 20; 5; 9; 14; 20; 5; 9; 14; 20; 5; 9; 14; 20;
   4; 11; 16; 23; 4; 11; 16; 23; 4; 11; 16; 23; 4; 11; 16; 23;
   6; 10; 15; 21; 6; 10; 15; 21; 6; 10; 15; 21; 6; 10; 15; 21].

(** [K i = floor (2^32 * abs (sin (i + 1)))]. *)
Definition K : list Z :=
  [3614090360; 3905402710; 606105819; 3250441966; 4118548399; 1200080426;
   2821735955; 4249261313; 1770035416; 2336552879; 4294925233; 2304563134;
   1804603682; 4254626195; 2792965006; 1236535329; 4129170786; 3225465664;
   643717713; 3921069994; 3593408605; 38016083; 3634488961; 3889429448;
   568446438; 3275163606; 4107603335; 1163531501; 2850285829; 4243563512;
   1735328473; 2368359562; 4294588738; 2272392833; 1839030562; 4259657740;
   2763975236; 1272893353; 4139469664; 3200236656; 681279174; 3936430074;
   3572445317; 76029189; 3654602809; 3873151461; 530742520; 3299628645;
   4096336452; 1126891415; 2878612391; 4237533241; 1700485571; 2399980690;
   4293915773; 2240044497; 1873313359; 4264355552; 2734768916; 1309151649;
   4149444226; 3174756917; 718787259; 3951481745].

Definition nthZ (l : list Z) (i : Z) : Z := List.nth (Z.to_nat i) l 0.

(** Padding: a 0x80 byte, zeros up to 56 modulo 64, then the bit length
    as a 64-bit little-endian integer. *)
Fixpoint le_bytes (n : nat) (x : Z) : list Z :=
  match n with
  | O => []
  | S n' => (x mod 256) :: le_bytes n' (x / 256)
  end.

Definition pad (msg : list Z) : list Z :=
  let l := Z.of_nat (List.length msg) in
  let zeros := (55 - l) mod 64 in
  msg ++ [128] ++ List.repeat 0 (Z.to_nat zeros)
      ++ le_bytes 8 ((8 * l) mod 18446744073709551616).

Fixpoint words (n : nat) (bs : list Z) : list Z :=
  match n with
  | O => []
  | S n' =>
    match bs with
    | b0 :: b1 :: b2 :: b3 :: r =>
      (b0 + 256 * b1 + 65536 * b2 + 16777216 * b3) :: words n' r
    | _ => []
    end
  end.

Definition round (M : list Z) (st : Z * Z * Z * Z) (i : Z) : Z * Z * Z * Z :=
  let '(A, B, C, D) := st in
  let '(F, g) :=
    if i <? 16 then (Z.lor (Z.land B C) (Z.land (not32 B) D), i)
    else if i <? 32 then
      (Z.lor (Z.land D B) (Z.land (not32 D) C), (5 * i + 1) mod 16)
    else if i <? 48 then (Z.lxor B (Z.lxor C D), (3 * i + 5) mod 16)
    else (Z.lxor C (Z.lor B (not32 D)), (7 * i) mod 16) in
  let F' := w32 (F + A + nthZ K i + nthZ M g) in
  (D, w32 (B + rotl F' (nthZ shifts i)), B, C).

Definition block (st : Z * Z * Z * Z) (chunk : list Z) : Z * Z * Z * Z :=
  let M := words 16 chunk in
  let '(a0, b0, c0, d0) := st in
  let '(A, B, C, D) :=
    List.fold_left (round M) (List.map Z.of_nat (List.seq 0 64)) st in
  (w32 (a0 + A), w32 (b0 + B), w32 (c0 + C), w32 (d0 + D)).

Fixpoint blocks (n : nat) (st : Z * Z * Z * Z) (bs : list Z)
  : Z * Z * Z * Z :=
  match n with
  | O => st
  | S n' =>
    blocks n' (block st (List.firstn 64 bs)) (List.skipn 64 bs)
  end.

Definition digest (msg : list Z) : list Z :=
  let p := pad msg in
  let '(a, b, c, d) :=
    blocks (Nat.div (List.length p) 64)
           (1732584193, 4023233417, 2562383102, 271733878) p in
  le_bytes 4 a ++ le_bytes 4 b ++ le_bytes 4 c ++ le_bytes 4 d.

Definition hex_digit (n : Z) : Py.char :=
  if n <? 10 then 48 + n else 87 + n.

Definition hex (bs : list Z) : Py.str :=
  List.concat (List.map (fun b => [hex_digit (b / 16); hex_digit (b mod 16)]) bs).

(** [hashlib.md5(msg).hexdigest()]. *)
Definition hexdigest (msg : list Z) : Py.str := hex (digest msg).

End MD5.

(* ===================================================================== *)
(** * Python floats                                                       *)
(* ===================================================================== *)

(** A Python [float] is an IEEE 754 binary64 value: Rocq's primitive
    [float].  Products and quotients are [PrimFloat.mul] and
    [PrimFloat.div]; conversions from decimal text and [round] go
    through the exact arithmetic of [SpecFloat]. *)

Module PyFloat.

(** The double nearest to [n / d] (ties to even), for [n >= 0] and
    [d > 0], with sign [s]. *)
Definition of_ratio (s : bool) (n d : Z) : float :=
  match n, d with
  | Zpos pn, Zpos pd =>
    SF2Prim (SFdiv prec emax (S754_finite s pn 0) (S754_finite false pd 0))
  | _, _ => if s then neg_zero else zero
  end.

(** [float(text)] for a text of decimal digits with at most one point:
    [ip] are the digit values before the point, [fp] those after it. *)
Definition digits_value (ds : list Z) : Z :=
  List.fold_left (fun acc d => 10 * acc + d) ds 0.

Definition of_decimal (ip fp : list Z) : float :=
  of_ratio false (digits_value (ip ++ fp)) (10 ^ Z.of_nat (List.length fp)).

(** Truth value of a float: zero (of either sign) is falsy, every other
    value, NaN included, is truthy. *)
Definition truthy (x : float) : bool := negb (PrimFloat.is_zero x).

(** [n], the integer nearest to [m * 2^e * 100], ties to even. *)
Definition scale100 (m : positive) (e : Z) : Z :=
  if 0 <=? e then Zpos m * 2 ^ e * 100
  else
    let num := Zpos m * 100 in
    let den := 2 ^ (- e) in
    let q := num / den in
    let r := num mod den in
    if den <? 2 * r then q + 1
    else if den =? 2 * r then (if Z.even q then q else q + 1)
    else q.

(** [round(x, 2)]: the exact value of [x] is rounded half-even to two
    decimals and that decimal is converted back to the nearest double;
    NaN and the infinities round to themselves. *)
Definition round2 (x : float) : float :=
  match Prim2SF x with
  | S754_finite s m e => of_ratio s (scale100 m e) 100
  | _ => x
  end.

End PyFloat.

(* ===================================================================== *)
(** * The [re] character classes used by the helpers                      *)
(* ===================================================================== *)

Module Re.

(** Code points of the zero digit of every decimal-digit block (general
    category Nd, Unicode 14.0 as shipped with CPython 3.11); the nine
    code points after each are the digits one to nine. *)
Definition Nd_zeros : list Z :=
  [48; 1632; 1776; 1984; 2406; 2534; 2662; 2790; 2918; 3046; 3174; 3302;
   3430; 3558; 3664; 3792; 3872; 4160; 4240; 6112; 6160; 6470; 6608; 6784;
   6800; 6992; 7088; 7232; 7248; 42528; 43216; 43264; 43472; 43504; 43600;
   44016; 65296; 66720; 68912; 69734; 69872; 69942; 70096; 70384; 70736;
   70864; 71248; 71360; 71472; 71904; 72016; 72784; 73040; 73120; 92768;
   92864; 93008; 120782; 120792; 120802; 120812; 120822; 123200; 123632;
   125264; 130032].

(** The value of a decimal digit, [None] for any other character. *)
Definition digit_value (c : Py.char) : option Z :=
  match List.find (fun z => (z <=? c) && (c <? z + 10)) Nd_zeros with
  | Some z => Some (c - z)
  | None => None
  end.

(** [\d] on a [str] pattern. *)
Definition is_digit (c : Py.char) : bool :=
  match digit_value c with Some _ => true | None => false end.

(** [\s] on a [str] pattern. *)
Definition is_space (c : Py.char) : bool :=
  ((9 <=? c) && (c <=? 13)) || ((28 <=? c) && (c <=? 32))
  || (c =? 133) || (c =? 160) || (c =? 5760)
  || ((8192 <=? c) && (c <=? 8202))
  || (c =? 8232) || (c =? 8233) || (c =? 8239) || (c =? 8287)
  || (c =? 12288).

End Re.

(* ===================================================================== *)
(** * src/utils/helpers.py: parse_amount                                  *)
(* ===================================================================== *)

Module Helpers.

Import Py.

(** The unit characters and separators of the source, by code point. *)
Definition c_yi : char := 20159.      (* 亿 *)
Definition c_wan : char := 19975.     (* 万 *)
Definition c_qian : char := 21315.    (* 千 *)
Definition c_yuan : char := 20803.    (* 元 *)
Definition c_comma : char := 44.      (* , *)
Definition c_fwcomma : char := 65292. (* ， *)
Definition c_dot : char := 46.        (* . *)

(** [c in s] for a one-character needle. *)
Definition has (c : char) (s : str) : bool := List.existsb (Z.eqb c) s.

(** [re.sub(r'[,，\s]', '', s)]. *)
Definition strip_separators (s : str) : str :=
  List.filter
    (fun c => negb ((c =? c_comma) || (c =? c_fwcomma) || Re.is_space c)) s.

(** The class [[\d.]]. *)
Definition is_num_char (c : char) : bool := Re.is_digit c || (c =? c_dot).

(** [re.search(r'([\d.]+)', s)]: the leftmost, longest run of digits
    and points, [None] when there is none. *)
Fixpoint take_run (s : str) : str :=
  match s with
  | c :: s' => if is_num_char c then c :: take_run s' else []
  | [] => []
  end.

Fixpoint search_number (s : str) : option str :=
  match s with
  | [] => None
  | c :: s' => if is_num_char c then Some (c :: take_run s')
               else search_number s'
  end.

(** [float(t)] for [t] made of digits and points only: the digits
    before a point, then those after it; [None] stands for ValueError
    (no digit at all, or more than one point). *)
Fixpoint read_digits (s : str) : list Z * str :=
  match s with
  | c :: s' =>
    match Re.digit_value c with
    | Some d => let '(ds, r) := read_digits s' in (d :: ds, r)
    | None => ([], s)
    end
  | [] => ([], [])
  end.

Definition float_of_str (t : str) : option float :=
  let '(ip, r) := read_digits t in
  match r with
  | [] => match ip with
          | [] => None
          | _ :: _ => Some (PyFloat.of_decimal ip [])
          end
  | c :: r' =>
    if c =? c_dot then
      let '(fp, r'') := read_digits r' in
      match r'', ip ++ fp with
      | [], _ :: _ => Some (PyFloat.of_decimal ip fp)
      | _, _ => None
      end
    else None
  end.

(** The unit conversion of [parse_amount], to ten-thousands (万). *)
Definition convert_unit (s : str) (value : float) : float :=
  if has c_yi s then (value * 10000)%float
  else if has c_wan s then value
  else if has c_qian s then (value / 10)%float
  else if has c_yuan s && negb (has c_wan s) && negb (has c_yi s)
       then (value / 10000)%float
  else value.

Definition parse_amount (amount_str : str) : option float :=
  if negb (truthy_str amount_str) then None
  else
    let amount_str := strip_separators amount_str in
    match search_number amount_str with
    | None => None
    | Some group1 =>
      match float_of_str group1 with
      | None => None
      | Some value => Some (PyFloat.round2 (convert_unit amount_str value))
      end
    end.

End Helpers.

(* ===================================================================== *)
(** * Exceptions, datetime                                                *)
(* ===================================================================== *)

(** A raised exception, by class name. *)
Inductive exn : Type := Exn (cls : string).

(** The outcome of a call that may raise. *)
Inductive res (A : Type) : Type :=
| Ok (a : A)
| Raise (e : exn).
Arguments Ok {A} a.
Arguments Raise {A} e.

Module DateTime.

(** A naive [datetime.datetime]. *)
Record datetime : Type := mk_datetime {
  year : Z; month : Z; day : Z;
  hour : Z; minute : Z; second : Z; microsecond : Z
}.

(** [datetime(y, m, d)]: midnight of that day. *)
Definition date (y m d : Z) : datetime := mk_datetime y m d 0 0 0 0.

Definition is_leap (y : Z) : bool :=
  (y mod 4 =? 0) && (negb (y mod 100 =? 0) || (y mod 400 =? 0)).

Definition days_before_year (y : Z) : Z :=
  let y1 := y - 1 in y1 * 365 + y1 / 4 - y1 / 100 + y1 / 400.

Definition days_before_month (y m : Z) : Z :=
  List.nth (Z.to_nat (m - 1))
           [0; 31; 59; 90; 120; 151; 181; 212; 243; 273; 304; 334] 0
  + (if (2 <? m) && is_leap y then 1 else 0).

(** [d.toordinal()]: day 1 is 0001-01-01. *)
Definition toordinal (d : datetime) : Z :=
  days_before_year (year d) + days_before_month (year d) (month d) + day d.

(** Microsecond of the day. *)
Definition time_of_day (d : datetime) : Z :=
  ((hour d * 60 + minute d) * 60 + second d) * 1000000 + microsecond d.

Definition max_ordinal : Z := 3652059. (* 9999-12-31 *)

(** Decimal digits of a non-negative number, padded with zeros to
    [width] digits. *)
Fixpoint digits_rev (fuel : nat) (n : Z) : list Z :=
  match fuel with
  | O => []
  | S fuel' => if n <? 10 then [48 + n]
               else (48 + n mod 10) :: digits_rev fuel' (n / 10)
  end.

Definition zero_pad (width : nat) (n : Z) : Py.str :=
  let ds := List.rev (digits_rev 20 n) in
  List.repeat 48 (width - List.length ds) ++ ds.

(** [d.strftime('%Y%m%d')] as CPython computes it with the C library
    of Linux: the month and the day on two digits, the year as a plain
    decimal number, so on fewer than four digits below the year 1000. *)
Definition strftime_Ymd (d : datetime) : Py.str :=
  zero_pad 1 (year d) ++ zero_pad 2 (month d) ++ zero_pad 2 (day d).

(** [a >= now - timedelta(days=days)].  The subtraction raises
    OverflowError when [days] exceeds the range of a timedelta or the
    result leaves the years 1..9999; it keeps the time of day, so the
    comparison is on (ordinal, time of day). *)
Definition ge_minus_days (a now : datetime) (days : Z) : res bool :=
  if 999999999 <? Z.abs days then Raise (Exn "OverflowError")
  else
    let o := toordinal now - days in
    if (o <? 1) || (max_ordinal <? o) then Raise (Exn "OverflowError")
    else Ok ((o <? toordinal a)
             || ((o =? toordinal a)
                 && (time_of_day now <=? time_of_day a))).

End DateTime.

(* ===================================================================== *)
(** * src/models/bid_info.py                                              *)
(* ===================================================================== *)

Module Model.

Import Py DateTime.

(** One entry of the configured industry list: a dict read with
    [.get('name', '')], [.get('keywords', [])], [.get('enabled', True)];
    [None] is a missing key. *)
Record IndustryConfig : Type := {
  ic_name : option str;
  ic_keywords : option (list str);
  ic_enabled : option bool
}.

Record BidInfo : Type := {
  title : str;
  url : str;
  source : str;
  bid_no : option str;
  purchaser : option str;
  agency : option str;
  publish_date : option datetime;
  deadline : option datetime;
  budget : option float;
  contact : option str;
  address : option str;
  industry : option str;
  matched_keywords : list str;
  crawl_time : datetime;
  content_hash : option str
}.

(** The three attribute assignments of the methods below. *)
Definition set_matched_keywords (b : BidInfo) (v : list str) : BidInfo :=
  {| title := title b; url := url b; source := source b;
     bid_no := bid_no b; purchaser := purchaser b; agency := agency b;
     publish_date := publish_date b; deadline := deadline b;
     budget := budget b; contact := contact b; address := address b;
     industry := industry b; matched_keywords := v;
     crawl_time := crawl_time b; content_hash := content_hash b |}.

Definition set_industry (b : BidInfo) (v : option str) : BidInfo :=
  {| title := title b; url := url b; source := source b;
     bid_no := bid_no b; purchaser := purchaser b; agency := agency b;
     publish_date := publish_date b; deadline := deadline b;
     budget := budget b; contact := contact b; address := address b;
     industry := v; matched_keywords := matched_keywords b;
     crawl_time := crawl_time b; content_hash := content_hash b |}.

Definition set_content_hash (b : BidInfo) (v : option str) : BidInfo :=
  {| title := title b; url := url b; source := source b;
     bid_no := bid_no b; purchaser := purchaser b; agency := agency b;
     publish_date := publish_date b; deadline := deadline b;
     budget := budget b; contact := contact b; address := address b;
     industry := industry b; matched_keywords := matched_keywords b;
     crawl_time := crawl_time b; content_hash := v |}.

(** [BidInfo.is_valid]. *)
Definition is_valid (self : BidInfo) : bool :=
  if negb (truthy_str (title self)) || negb (truthy_str (url self))
     || negb (truthy_str (source self)) then false
  else if (len (title self) <? 5) || (500 <? len (title self)) then false
  else true.

(** The string [calculate_hash] digests. *)
Definition unique_str (self : BidInfo) : str :=
  title self
  ++ match publish_date self with
     | Some d => u "_" ++ strftime_Ymd d
     | None => []
     end
  ++ (if truthy_ostr (purchaser self)
      then u "_" ++ default [] (purchaser self) else []).

(** [BidInfo.calculate_hash]: returns the digest and stores it in
    [content_hash]. *)
Definition calculate_hash (self : BidInfo) : str * BidInfo :=
  let hash_value := MD5.hexdigest (encode_utf8 (unique_str self)) in
  (hash_value, set_content_hash self (Some hash_value)).

Section CaseFolding.

(** [str.lower], the case mapping of the Python runtime. *)
Variable lower : str -> str.

(** The inner loop of [match_keywords]: the keywords whose lower-case
    form occurs in the lower-case title, in list order. *)
Definition matching (title_lower : str) (keywords : list str) : list str :=
  List.filter (fun keyword => contains title_lower (lower keyword)) keywords.

(** [BidInfo.match_keywords]. *)
Definition match_keywords (self : BidInfo) (keywords : list str)
  : bool * BidInfo :=
  match keywords with
  | [] => (false, self)
  | _ :: _ =>
    let title_lower := lower (title self) in
    let matched := matching title_lower keywords in
    match matched with
    | _ :: _ => (true, set_matched_keywords self matched)
    | [] => (false, self)
    end
  end.

(** The scan of [classify_industry]: the name of the first industry one
    of whose keywords occurs in the purchaser. *)
Fixpoint classify_scan (purchaser_lower : str)
         (industries : list IndustryConfig) : option str :=
  match industries with
  | [] => None
  | industry_config :: rest =>
    let industry_name := default [] (ic_name industry_config) in
    let industry_keywords := default [] (ic_keywords industry_config) in
    if List.existsb (fun keyword => contains purchaser_lower (lower keyword))
                    industry_keywords
    then Some industry_name
    else classify_scan purchaser_lower rest
  end.

(** [BidInfo.classify_industry]. *)
Definition classify_industry (self : BidInfo)
           (industries : list IndustryConfig) : option str * BidInfo :=
  match industries with
  | [] => (None, self)
  | _ :: _ =>
    let purchaser_lower :=
      lower (if truthy_ostr (purchaser self)
             then default [] (purchaser self) else []) in
    match classify_scan purchaser_lower industries with
    | Some industry_name =>
      (Some industry_name, set_industry self (Some industry_name))
    | None => (None, self)
    end
  end.

End CaseFolding.

(** A case mapping for concrete runs: A..Z to a..z, every other code
    point unchanged.  It agrees with [str.lower] on text made of ASCII
    and of caseless (CJK) characters. *)
Definition ascii_lower (s : str) : str :=
  List.map (fun c => if (65 <=? c) && (c <=? 90) then c + 32 else c) s.

End Model.

(* ===================================================================== *)
(** * Numbers of the configuration                                        *)
(* ===================================================================== *)

(** A configured threshold is a YAML number: an [int] or a [float].
    Python compares a float with an int by exact value. *)
Module Num.

Inductive number : Type :=
| Int (z : Z)
| Float (x : float).

(** Exact comparison of a float with an integer; [None] for NaN. *)
Definition float_compare_Z (x : float) (z : Z) : option comparison :=
  match Prim2SF x with
  | S754_nan => None
  | S754_infinity s => Some (if s then Lt else Gt)
  | S754_zero _ => Some (0 ?= z)
  | S754_finite s m e =>
    let v := if s then Zneg m else Zpos m in
    if 0 <=? e then Some (v * 2 ^ e ?= z) else Some (v ?= z * 2 ^ (- e))
  end.

(** [x < n] for a float [x]. *)
Definition float_lt (x : float) (n : number) : bool :=
  match n with
  | Int z => match float_compare_Z x z with Some Lt => true | _ => false end
  | Float y => PrimFloat.ltb x y
  end.

(** [x > n] for a float [x]. *)
Definition float_gt (x : float) (n : number) : bool :=
  match n with
  | Int z => match float_compare_Z x z with Some Gt => true | _ => false end
  | Float y => PrimFloat.ltb y x
  end.

(** [n > 0]. *)
Definition positive (n : number) : bool :=
  match n with
  | Int z => 0 <? z
  | Float y => PrimFloat.ltb 0 y
  end.

End Num.

(* ===================================================================== *)
(** * src/config/config_manager.py: the accessors the core reads          *)
(* ===================================================================== *)

Module Config.

Import Py Model.

(** One entry of [websites]; [None] is a missing key. *)
Record Website : Type := {
  w_name : option str;
  w_parser : option str;
  w_enabled : option bool
}.

(** The value under [tech_keywords]: a dict from category to a value
    (a list of keywords, or [None] for anything that is not a list), a
    plain list, or some other value. *)
Inductive TechKeywords : Type :=
| KwDict (categories : list (str * option (list str)))
| KwList (keywords : list str)
| KwOther.

(** The loaded configuration, defaults merged; an [option] field is
    a key that may be missing. *)
Record ConfigManager : Type := {
  websites : list Website;
  tech_keywords : TechKeywords;
  industries : list IndustryConfig;
  filters_date_range : option Z;
  filters_min_amount : option Num.number;
  filters_max_amount : option Num.number;
  crawler_max_pages : option Z
}.

(** [get_websites]: the enabled sites, in configuration order. *)
Definition get_websites (self : ConfigManager) : list Website :=
  List.filter (fun site => default false (w_enabled site)) (websites self).

(** [get_keywords]: the flattened keyword list. *)
Definition get_keywords (self : ConfigManager) : list str :=
  match tech_keywords self with
  | KwDict categories =>
    List.concat (List.map (fun '(_, kws) => default [] kws) categories)
  | KwList keywords => keywords
  | KwOther => []
  end.

(** [get_industries]: the enabled industries, in configuration order. *)
Definition get_industries (self : ConfigManager) : list IndustryConfig :=
  List.filter (fun ind => default true (ic_enabled ind)) (industries self).

End Config.

(* ===================================================================== *)
(** * src/filter/data_filter.py                                           *)
(* ===================================================================== *)

Module Filter.

Import Py DateTime Model Config.

(** A [BidInfo] object is named by its location in the store. *)
Definition loc : Type := nat.

(** The mutable state a [filter] call works on: the store of record
    objects, the [_seen_hashes] set of the instance, and the number of
    clock readings made so far. *)
Record state : Type := mk_state {
  heap : loc -> BidInfo;
  seen_hashes : gset str;
  ticks : nat
}.

Definition store (h : loc -> BidInfo) (l : loc) (b : BidInfo)
  : loc -> BidInfo :=
  fun l' => if Nat.eqb l' l then b else h l'.

Definition set_obj (st : state) (l : loc) (b : BidInfo) : state :=
  mk_state (store (heap st) l b) (seen_hashes st) (ticks st).

(** The attributes of a [DataFilter] besides [_seen_hashes]. *)
Record DataFilter : Type := {
  config : ConfigManager;
  date_range : Z;
  min_amount : Num.number;
  max_amount : Num.number
}.

(** [DataFilter.__init__]: thresholds with their defaults 7, 0, 0. *)
Definition init (cfg : ConfigManager) : DataFilter :=
  {| config := cfg;
     date_range := default 7 (filters_date_range cfg);
     min_amount := default (Num.Int 0) (filters_min_amount cfg);
     max_amount := default (Num.Int 0) (filters_max_amount cfg) |}.

(** The [stats] dict of [filter]. *)
Record Stats : Type := mk_stats {
  s_total : Z; s_invalid : Z; s_duplicate : Z; s_no_keywords : Z;
  s_out_of_date : Z; s_out_of_amount : Z; s_passed : Z
}.

(** Where the body of the loop leaves an item. *)
Inductive outcome : Type :=
| Invalid | Duplicate | NoKeywords | OutOfDate | OutOfAmount | Passed.

Definition count (o : outcome) (s : Stats) : Stats :=
  match o with
  | Invalid => mk_stats (s_total s) (s_invalid s + 1) (s_duplicate s)
      (s_no_keywords s) (s_out_of_date s) (s_out_of_amount s) (s_passed s)
  | Duplicate => mk_stats (s_total s) (s_invalid s) (s_duplicate s + 1)
      (s_no_keywords s) (s_out_of_date s) (s_out_of_amount s) (s_passed s)
  | NoKeywords => mk_stats (s_total s) (s_invalid s) (s_duplicate s)
      (s_no_keywords s + 1) (s_out_of_date s) (s_out_of_amount s) (s_passed s)
  | OutOfDate => mk_stats (s_total s) (s_invalid s) (s_duplicate s)
      (s_no_keywords s) (s_out_of_date s + 1) (s_out_of_amount s) (s_passed s)
  | OutOfAmount => mk_stats (s_total s) (s_invalid s) (s_duplicate s)
      (s_no_keywords s) (s_out_of_date s) (s_out_of_amount s + 1) (s_passed s)
  | Passed => mk_stats (s_total s) (s_invalid s) (s_duplicate s)
      (s_no_keywords s) (s_out_of_date s) (s_out_of_amount s) (s_passed s + 1)
  end.

Section Runtime.

(** [str.lower] and the clock: [now n] is what the [n]-th call of
    [datetime.now()] returns. *)
Variable lower : str -> str.
Variable now : nat -> datetime.

(** [helpers.is_date_in_range]; its [if not date] guard never fires, a
    datetime being truthy. *)
Definition is_date_in_range (date : datetime) (days : Z) (st : state)
  : res bool * state :=
  let now_ := now (ticks st) in
  let st' := mk_state (heap st) (seen_hashes st) (S (ticks st)) in
  (ge_minus_days date now_ days, st').

(** [DataFilter._check_duplicate]: [true] when the item is new. *)
Definition _check_duplicate (self : DataFilter) (item : loc) (st : state)
  : bool * state :=
  let '(hash_value, obj) := calculate_hash (heap st item) in
  let st1 := set_obj st item obj in
  if decide (hash_value ∈ seen_hashes st1) then (false, st1)
  else (true, mk_state (heap st1) ({[hash_value]} ∪ seen_hashes st1)
                       (ticks st1)).

(** [DataFilter._match_keywords]. *)
Definition _match_keywords (self : DataFilter) (item : loc) (st : state)
  : bool * state :=
  match get_keywords (config self) with
  | [] => (true, st)
  | keywords =>
    let '(r, obj) := match_keywords lower (heap st item) keywords in
    (r, set_obj st item obj)
  end.

(** [DataFilter._check_date_range]. *)
Definition _check_date_range (self : DataFilter) (item : loc) (st : state)
  : res bool * state :=
  if date_range self <=? 0 then (Ok true, st)
  else match publish_date (heap st item) with
       | None => (Ok true, st)
       | Some d => is_date_in_range d (date_range self) st
       end.

(** [DataFilter._check_amount_range]; [if not item.budget] holds for a
    missing budget and for a budget of zero. *)
Definition _check_amount_range (self : DataFilter) (item : BidInfo) : bool :=
  match budget item with
  | None => true
  | Some b =>
    if negb (PyFloat.truthy b) then true
    else if Num.positive (min_amount self) && Num.float_lt b (min_amount self)
    then false
    else if Num.positive (max_amount self) && Num.float_gt b (max_amount self)
    then false
    else true
  end.

(** [DataFilter._classify_industry]. *)
Definition _classify_industry (self : DataFilter) (item : loc) (st : state)
  : state :=
  match get_industries (config self) with
  | [] => st
  | industries =>
    set_obj st item (snd (classify_industry lower (heap st item) industries))
  end.

(** The body of the [for item in items] loop: the stages in order, each
    [continue] returning the stage that rejected the item. *)
Definition filter_item (self : DataFilter) (item : loc) (st : state)
  : res outcome * state :=
  if negb (is_valid (heap st item)) then (Ok Invalid, st)
  else
    let '(fresh, st1) := _check_duplicate self item st in
    if negb fresh then (Ok Duplicate, st1)
    else
      let '(matched, st2) := _match_keywords self item st1 in
      if negb matched then (Ok NoKeywords, st2)
      else
        match _check_date_range self item st2 with
        | (Raise e, st3) => (Raise e, st3)
        | (Ok false, st3) => (Ok OutOfDate, st3)
        | (Ok true, st3) =>
          if negb (_check_amount_range self (heap st3 item))
          then (Ok OutOfAmount, st3)
          else (Ok Passed, _classify_industry self item st3)
        end.

Fixpoint filter_loop (self : DataFilter) (items : list loc)
         (result : list loc) (stats : Stats) (st : state)
  : res (list loc * Stats) * state :=
  match items with
  | [] => (Ok (result, stats), st)
  | item :: rest =>
    match filter_item self item st with
    | (Raise e, st') => (Raise e, st')
    | (Ok o, st') =>
      filter_loop self rest
                  (match o with Passed => result ++ [item] | _ => result end)
                  (count o stats) st'
    end
  end.

(** [DataFilter.filter]; the counters are only reported in the log. *)
Definition filter (self : DataFilter) (items : list loc) (st : state)
  : res (list loc) * state :=
  match items with
  | [] => (Ok [], st)
  | _ :: _ =>
    match filter_loop self items []
                      (mk_stats (len items) 0 0 0 0 0 0) st with
    | (Ok (result, _), st') => (Ok result, st')
    | (Raise e, st') => (Raise e, st')
    end
  end.

(** [DataFilter.reset]. *)
Definition reset (st : state) : state :=
  mk_state (heap st) ∅ (ticks st).

(** The outcomes of the items of one [filter] call, in order, up to and
    including the first that raises. *)
Fixpoint outcomes (self : DataFilter) (items : list loc) (st : state)
  : list (res outcome) :=
  match items with
  | [] => []
  | item :: rest =>
    match filter_item self item st with
    | (Raise e, _) => [Raise e]
    | (Ok o, st') => Ok o :: outcomes self rest st'
    end
  end.

End Runtime.

(** The fingerprint the dedup stage computes for a record. *)
Definition fingerprint_of (b : BidInfo) : str := fst (calculate_hash b).

(** Two versions of a record that differ at most in the attributes the
    filter assigns ([content_hash], [matched_keywords], [industry]). *)
Definition same_key (b b' : BidInfo) : Prop :=
  title b = title b' /\ url b = url b' /\ source b = source b'
  /\ publish_date b = publish_date b' /\ purchaser b = purchaser b'
  /\ budget b = budget b'.

(** How a state may evolve while [item] is processed: every object
    keeps its key attributes, only [item] is assigned to, and the set
    of seen fingerprints only grows. *)
Definition evolves (item : loc) (st st' : state) : Prop :=
  (forall l, same_key (heap st' l) (heap st l))
  /\ (forall l, l <> item -> heap st' l = heap st l)
  /\ seen_hashes st ⊆ seen_hashes st'.

(** The records a [filter] call hands back: none when it raised. *)
Definition accepted (r : res (list loc)) : list loc :=
  match r with
  | Ok result => result
  | Raise _ => []
  end.

(** The result of a [filter] call read off the outcomes of its items:
    the items that passed, or the exception an item raised. *)
Fixpoint collect (items : list loc) (os : list (res outcome))
  : res (list loc) :=
  match items, os with
  | item :: rest, Ok o :: os' =>
    match collect rest os' with
    | Ok acc => Ok (match o with Passed => item :: acc | _ => acc end)
    | Raise e => Raise e
    end
  | _, Raise e :: _ => Raise e
  | _, _ => Ok []
  end.

End Filter.

(* ===================================================================== *)
(** * src/crawler/base_parser.py                                          *)
(* ===================================================================== *)

Module Crawler.

Import Py DateTime Model Config.

Inductive level : Type := DEBUG | INFO | WARNING | ERROR.

(** The log records of the crawler, one constructor per message of the
    source, carrying the values the message formats. *)
Inductive message : Type :=
| HttpGet (url : str)                          (* GET {url} *)
| HttpFailed (url : str) (e : exn)             (* 请求失败 / 请求超时 *)
| FetchingPage (page : Z) (url : str)          (* 正在获取第 {page} 页 *)
| PageFetchFailed (url : str)                  (* 获取页面失败 *)
| ParsedItems (n : Z)                          (* 解析到 {n} 条数据 *)
| CreateFailed (e : exn)                       (* 创建BidInfo失败 *)
| FetchListFailed (e : exn)                    (* 获取列表页失败 *)
| PageEmpty (page : Z)                         (* 第 {page} 页无数据，停止采集 *)
| Collected (n : Z)                            (* 已采集 {n} 条数据 *)
| PageError (page : Z) (e : exn)               (* 采集第 {page} 页时出错 *)
| ParserNotFound (parser_name : str)           (* 未找到解析器 *)
| CrawlStart (website_name : str) (max_pages : Z) (* 开始采集网站 *)
| CrawlDone (website_name : str) (n : Z)       (* {name} 采集完成 *)
| CrawlFailed (website_name : str) (e : exn)   (* 采集网站失败 *)
| NoWebsites                                   (* 没有启用的网站 *)
| NoKeywords                                   (* 没有配置关键词 *)
| CrawlAllStart (websites keywords : Z)        (* 开始采集，共 ... *)
| RunningTotal (n : Z)                         (* 当前总计 *)
| WebsiteException (website_name : str) (e : exn) (* 采集网站异常 *)
| CrawlAllDone (n : Z)                         (* 所有网站采集完成 *)
| RegisterStart (websites : Z)                 (* 开始注册解析器 *)
| NoParserConfigured (website_name : str)      (* 网站未配置解析器 *)
| ParserClassMissing (parser_name : str)       (* 未找到解析器 *)
| Registered (parser_name website_name : str)  (* 注册解析器成功 *)
| RegisterFailed (parser_name : str) (e : exn). (* 注册解析器失败 *)

(** What the crawler acts on: the URLs requested so far (oldest first),
    the log, and the number of clock readings made so far. *)
Record world : Type := mk_world {
  requests : list str;
  log : list (level * message);
  clock : nat
}.

Definition emit (lv : level) (m : message) (w : world) : world :=
  mk_world (requests w) (log w ++ [(lv, m)]) (clock w).

(** One dict of the list [parse_list] returns: the keyword arguments
    [BidInfo] accepts ([None] is a missing key or a [None] value) and
    the keys it does not accept. *)
Record RawItem : Type := {
  r_title : option str;
  r_url : option str;
  r_bid_no : option str;
  r_purchaser : option str;
  r_agency : option str;
  r_publish_date : option datetime;
  r_deadline : option datetime;
  r_budget : option float;
  r_contact : option str;
  r_address : option str;
  r_industry : option str;
  r_matched_keywords : option (list str);
  r_crawl_time : option datetime;
  r_content_hash : option str;
  r_other_keys : list str
}.

(** What a subclass of [BaseParser] provides: the site name of its
    configuration and the two abstract methods. *)
Record Site : Type := {
  name : str;
  get_list_url : Z -> list str -> res str;
  parse_list : str -> res (list RawItem)
}.

Section Environment.

(** The network: [http earlier url] is the decoded body the GET of
    [url] returns after the requests [earlier], or the exception the
    client raises.  The clock is as in the filter. *)
Variable http : list str -> str -> res str.
Variable now : nat -> datetime.

(** [HttpClient.get]. *)
Definition http_get (url : str) (w : world) : res str * world :=
  let w1 := emit DEBUG (HttpGet url)
                 (mk_world (requests w ++ [url]) (log w) (clock w)) in
  match http (requests w) url with
  | Ok text => (Ok text, w1)
  | Raise e => (Raise e, emit ERROR (HttpFailed url e) w1)
  end.

(** The construction of a [BidInfo] from the entries of [item] as
    keyword arguments, after [item['source'] = self.name]: TypeError on
    a key that is not a field; [crawl_time] defaults to the clock. *)
Definition make_bid_info (self : Site) (item : RawItem) (w : world)
  : res BidInfo * world :=
  match r_other_keys item with
  | _ :: _ => (Raise (Exn "TypeError"), w)
  | [] =>
    let '(ct, w') :=
      match r_crawl_time item with
      | Some t => (t, w)
      | None => (now (clock w),
                 mk_world (requests w) (log w) (S (clock w)))
      end in
    (Ok {| title := default [] (r_title item);
           url := default [] (r_url item);
           source := name self;
           bid_no := r_bid_no item; purchaser := r_purchaser item;
           agency := r_agency item; publish_date := r_publish_date item;
           deadline := r_deadline item; budget := r_budget item;
           contact := r_contact item; address := r_address item;
           industry := r_industry item;
           matched_keywords := default [] (r_matched_keywords item);
           crawl_time := ct; content_hash := r_content_hash item |}, w')
  end.

(** The conversion loop of [fetch_list]. *)
Fixpoint convert_items (self : Site) (items : list RawItem)
         (bid_infos : list BidInfo) (w : world) : list BidInfo * world :=
  match items with
  | [] => (bid_infos, w)
  | item :: rest =>
    if negb (truthy_ostr (r_title item)) || negb (truthy_ostr (r_url item))
    then convert_items self rest bid_infos w
    else
      match make_bid_info self item w with
      | (Ok bid_info, w') =>
        convert_items self rest (bid_infos ++ [bid_info]) w'
      | (Raise e, w') =>
        convert_items self rest bid_infos (emit WARNING (CreateFailed e) w')
      end
  end.

(** [BaseParser.fetch_list]. *)
Definition fetch_list (self : Site) (page : Z) (keywords : list str)
           (w : world) : res (list BidInfo) * world :=
  match get_list_url self page keywords with
  | Raise e => (Ok [], emit ERROR (FetchListFailed e) w)
  | Ok url =>
    let w1 := emit INFO (FetchingPage page url) w in
    match http_get url w1 with
    | (Raise e, w2) => (Ok [], emit ERROR (FetchListFailed e) w2)
    | (Ok html, w2) =>
      if negb (truthy_str html)
      then (Ok [], emit WARNING (PageFetchFailed url) w2)
      else
        match parse_list self html with
        | Raise e => (Ok [], emit ERROR (FetchListFailed e) w2)
        | Ok items =>
          let w3 := emit INFO (ParsedItems (len items)) w2 in
          let '(bid_infos, w4) := convert_items self items [] w3 in
          (Ok bid_infos, w4)
        end
    end
  end.

End Environment.

(** The [fetch_list] method as [fetch_all] calls it: a subclass may
    override it. *)
Definition fetch_list_method : Type :=
  Z -> list str -> world -> res (list BidInfo) * world.

(** The loop of [fetch_all]: [n] pages remain, [page] is the next. *)
Fixpoint fetch_all_loop (fetch_list : fetch_list_method)
         (keywords : list str) (n : nat) (page : Z)
         (all_items : list BidInfo) (w : world) : list BidInfo * world :=
  match n with
  | O => (all_items, w)
  | S n' =>
    match fetch_list page keywords w with
    | (Ok [], w1) => (all_items, emit INFO (PageEmpty page) w1)
    | (Ok items, w1) =>
      let all_items' := all_items ++ items in
      fetch_all_loop fetch_list keywords n' (page + 1) all_items'
                     (emit INFO (Collected (len all_items')) w1)
    | (Raise e, w1) =>
      fetch_all_loop fetch_list keywords n' (page + 1) all_items
                     (emit ERROR (PageError page e) w1)
    end
  end.

(** [BaseParser.fetch_all]: pages [range(1, max_pages + 1)]. *)
Definition fetch_all (fetch_list : fetch_list_method)
           (keywords : list str) (max_pages : Z) (w : world)
  : list BidInfo * world :=
  fetch_all_loop fetch_list keywords (Z.to_nat max_pages) 1 [] w.

(** The calls of [fetch_list] the loop makes, in order: the page and
    what the call returned. *)
Fixpoint fetch_trace (fetch_list : fetch_list_method)
         (keywords : list str) (n : nat) (page : Z)
         (all_items : list BidInfo) (w : world)
  : list (Z * res (list BidInfo)) :=
  match n with
  | O => []
  | S n' =>
    match fetch_list page keywords w with
    | (Ok [], _) => [(page, Ok [])]
    | (Ok items, w1) =>
      let all_items' := all_items ++ items in
      (page, Ok items)
        :: fetch_trace fetch_list keywords n' (page + 1) all_items'
             (emit INFO (Collected (len all_items')) w1)
    | (Raise e, w1) =>
      (page, Raise e)
        :: fetch_trace fetch_list keywords n' (page + 1) all_items
             (emit ERROR (PageError page e) w1)
    end
  end.

(** The items of a call that returned; none for a call that raised. *)
Definition accepted_items (r : res (list BidInfo)) : list BidInfo :=
  match r with
  | Ok items => items
  | Raise _ => []
  end.

End Crawler.

(* ===================================================================== *)
(** * src/crawler/engine.py                                               *)
(* ===================================================================== *)

Module Engine.

Import Py DateTime Model Config Crawler.

(** A parser object as the engine uses it: its [fetch_all] method,
    which a subclass may override and which may raise. *)
Record Parser : Type := {
  fetch_all_method :
    list str -> Z -> world -> res (list BidInfo) * world
}.

(** A parser that inherits [fetch_list] and [fetch_all] from
    [BaseParser]. *)
Definition base_parser (http : list str -> str -> res str)
           (now : nat -> datetime) (site : Site) : Parser :=
  {| fetch_all_method := fun keywords max_pages w =>
       let '(items, w') :=
         fetch_all (fetch_list http now site) keywords max_pages w in
       (Ok items, w') |}.

(** The attributes of a [CrawlerEngine]. *)
Record CrawlerEngine : Type := {
  config : ConfigManager;
  parsers : gmap str Parser
}.

(** The loop of [_register_parsers]; [parser_classes] maps a parser
    name to the constructor of its class. *)
Fixpoint register_loop (parser_classes : gmap str (Website -> res Parser))
         (websites : list Website) (parsers : gmap str Parser) (w : world)
  : gmap str Parser * world :=
  match websites with
  | [] => (parsers, w)
  | website :: rest =>
    let parser_name := default [] (w_parser website) in
    let website_name := default [] (w_name website) in
    if negb (truthy_str parser_name)
    then register_loop parser_classes rest parsers
                       (emit WARNING (NoParserConfigured website_name) w)
    else
      match parser_classes !! parser_name with
      | None =>
        register_loop parser_classes rest parsers
                      (emit WARNING (ParserClassMissing parser_name) w)
      | Some parser_class =>
        match parser_class website with
        | Ok parser =>
          register_loop parser_classes rest
                        (<[parser_name := parser]> parsers)
                        (emit INFO (Registered parser_name website_name) w)
        | Raise e =>
          register_loop parser_classes rest parsers
                        (emit ERROR (RegisterFailed parser_name e) w)
        end
      end
  end.

(** [CrawlerEngine.__init__]. *)
Definition init (parser_classes : gmap str (Website -> res Parser))
           (cfg : ConfigManager) (w : world) : CrawlerEngine * world :=
  let websites := get_websites cfg in
  let '(parsers, w') :=
    register_loop parser_classes websites ∅
                  (emit INFO (RegisterStart (len websites)) w) in
  ({| config := cfg; parsers := parsers |}, w').

(** [CrawlerEngine.crawl_website]. *)
Definition crawl_website (self : CrawlerEngine) (website : Website)
           (keywords : list str) (max_pages : option Z) (w : world)
  : res (list BidInfo) * world :=
  let parser_name := default [] (w_parser website) in
  let website_name := default [] (w_name website) in
  match parsers self !! parser_name with
  | None => (Ok [], emit ERROR (ParserNotFound parser_name) w)
  | Some parser =>
    let max_pages :=
      match max_pages with
      | Some m => m
      | None => default 10 (crawler_max_pages (config self))
      end in
    let w1 := emit INFO (CrawlStart website_name max_pages) w in
    match fetch_all_method parser keywords max_pages w1 with
    | (Ok items, w2) =>
      (Ok items, emit INFO (CrawlDone website_name (len items)) w2)
    | (Raise e, w2) => (Ok [], emit ERROR (CrawlFailed website_name e) w2)
    end
  end.

(** The per-website call inside [crawl_all]. *)
Definition crawl_website_method : Type :=
  Website -> list str -> option Z -> world -> res (list BidInfo) * world.

(** The loop of [crawl_all]. *)
Fixpoint crawl_loop (crawl_website : crawl_website_method)
         (websites : list Website) (keywords : list str)
         (max_pages : option Z) (all_items : list BidInfo) (w : world)
  : list BidInfo * world :=
  match websites with
  | [] => (all_items, w)
  | website :: rest =>
    match crawl_website website keywords max_pages w with
    | (Ok items, w1) =>
      let all_items' := all_items ++ items in
      crawl_loop crawl_website rest keywords max_pages all_items'
                 (emit INFO (RunningTotal (len all_items')) w1)
    | (Raise e, w1) =>
      crawl_loop crawl_website rest keywords max_pages all_items
                 (emit ERROR
                       (WebsiteException (default [] (w_name website)) e) w1)
    end
  end.

(** [crawl_all] over a given per-website call. *)
Definition crawl_all_with (crawl_website : crawl_website_method)
           (cfg : ConfigManager) (max_pages : option Z) (w : world)
  : list BidInfo * world :=
  let websites := get_websites cfg in
  let keywords := get_keywords cfg in
  match websites with
  | [] => ([], emit WARNING NoWebsites w)
  | _ :: _ =>
    match keywords with
    | [] => ([], emit WARNING NoKeywords w)
    | _ :: _ =>
      let w1 := emit INFO (CrawlAllStart (len websites) (len keywords)) w in
      let '(all_items, w2) :=
        crawl_loop crawl_website websites keywords max_pages [] w1 in
      (all_items, emit INFO (CrawlAllDone (len all_items)) w2)
    end
  end.

(** [CrawlerEngine.crawl_all]. *)
Definition crawl_all (self : CrawlerEngine) (max_pages : option Z)
           (w : world) : list BidInfo * world :=
  crawl_all_with (crawl_website self) (config self) max_pages w.

(** What each website of the loop contributed, in order: the items of
    a call that returned, nothing for a call that raised. *)
Fixpoint contributions (crawl_website : crawl_website_method)
         (websites : list Website) (keywords : list str)
         (max_pages : option Z) (all_items : list BidInfo) (w : world)
  : list (list BidInfo) :=
  match websites with
  | [] => []
  | website :: rest =>
    match crawl_website website keywords max_pages w with
    | (Ok items, w1) =>
      let all_items' := all_items ++ items in
      items :: contributions crawl_website rest keywords max_pages all_items'
                 (emit INFO (RunningTotal (len all_items')) w1)
    | (Raise e, w1) =>
      [] :: contributions crawl_website rest keywords max_pages all_items
                 (emit ERROR
                       (WebsiteException (default [] (w_name website)) e) w1)
    end
  end.

End Engine.

(* ===================================================================== *)
(** * Notions used to state what a [filter] call leaves behind            *)
(* ===================================================================== *)

Module FilterNotions.

Import Py Model Filter.

(** The sum of the six outcome counters of the [stats] dict. *)
Definition counted (s : Stats) : Z :=
  s_invalid s + s_duplicate s + s_no_keywords s + s_out_of_date s
  + s_out_of_amount s + s_passed s.

(** A record whose fingerprint is in the set and stored on it. *)
Definition settled (st : state) (l : loc) : Prop :=
  is_valid (heap st l) = true
  /\ fingerprint_of (heap st l) ∈ seen_hashes st
  /\ content_hash (heap st l) = Some (fingerprint_of (heap st l)).

(** What an accepted record carries when [filter] returns, [b] being
    the record before the call, [b'] after it and [seen] the set of
    fingerprints before the call: it was valid, new and within the
    amount window; it has its fingerprint, the keywords that occur in
    its title (when keywords are configured) and the first configured
    industry one of whose keywords occurs in its purchaser (its
    previous industry when there is none). *)
Definition accepted_as (lower : str -> str) (self : DataFilter)
           (seen : gset str) (b b' : BidInfo) : Prop :=
  let occurs := fun k => contains (lower (title b)) (lower k) in
  is_valid b = true
  /\ (fingerprint_of b ∉ seen)
  /\ _check_amount_range self b = true
  /\ content_hash b' = Some (fingerprint_of b)
  /\ matched_keywords b'
     = match Config.get_keywords (config self) with
       | [] => matched_keywords b
       | kws => List.filter occurs kws
       end
  /\ (Config.get_keywords (config self) <> [] ->
      List.filter occurs (Config.get_keywords (config self)) <> [])
  /\ industry b'
     = match classify_scan lower (lower (default [] (purchaser b)))
                           (Config.get_industries (config self)) with
       | Some n => Some n
       | None => industry b
       end.

(** Whether one of the keywords of an industry occurs in a lower-cased
    purchaser: the test of the inner loop of [classify_industry]. *)
Definition industry_hit (lower : str -> str) (purchaser_lower : str)
           (ic : IndustryConfig) : bool :=
  List.existsb (fun keyword => contains purchaser_lower (lower keyword))
               (default [] (ic_keywords ic)).

(** The time fields of a [datetime] are within their ranges. *)
Definition valid_time (d : DateTime.datetime) : Prop :=
  0 <= DateTime.hour d < 24 /\ 0 <= DateTime.minute d < 60
  /\ 0 <= DateTime.second d < 60 /\ 0 <= DateTime.microsecond d < 1000000.

(** Microseconds from the start of day 0 of the calendar. *)
Definition micros (d : DateTime.datetime) : Z :=
  DateTime.toordinal d * 86400000000 + DateTime.time_of_day d.

(** The verdict of the loop body read off a record, the set of seen
    fingerprints and one clock reading. *)
Definition keywords_ok (lower : str -> str) (self : DataFilter)
           (b : BidInfo) : bool :=
  match Config.get_keywords (config self) with
  | [] => true
  | kws =>
    match List.filter
            (fun k => contains (lower (title b)) (lower k)) kws with
    | [] => false
    | _ :: _ => true
    end
  end.

Definition date_ok (self : DataFilter) (b : BidInfo)
           (now_ : DateTime.datetime) : res bool :=
  if date_range self <=? 0 then Ok true
  else match publish_date b with
       | None => Ok true
       | Some d => DateTime.ge_minus_days d now_ (date_range self)
       end.

Definition verdict (lower : str -> str) (self : DataFilter) (b : BidInfo)
           (seen : gset str) (now_ : DateTime.datetime) : res outcome :=
  if negb (is_valid b) then Ok Invalid
  else if decide (fingerprint_of b ∈ seen) then Ok Duplicate
  else if negb (keywords_ok lower self b) then Ok NoKeywords
  else match date_ok self b now_ with
       | Raise e => Raise e
       | Ok false => Ok OutOfDate
       | Ok true =>
         if negb (_check_amount_range self b) then Ok OutOfAmount
         else Ok Passed
       end.

End FilterNotions.

(* ===================================================================== *)
(** * src/utils/helpers.py: text helpers                                  *)
(* ===================================================================== *)

Module Text.

Import Py.

(** [re.sub(r'\s+', ' ', text)]: every maximal run of whitespace
    becomes one space; [in_run] tells that the previous character was
    whitespace. *)
Fixpoint collapse_from (in_run : bool) (s : str) : str :=
  match s with
  | [] => []
  | c :: s' =>
    if Re.is_space c
    then (if in_run then collapse_from true s'
          else 32 :: collapse_from true s')
    else c :: collapse_from false s'
  end.

Definition collapse (s : str) : str := collapse_from false s.

(** [s.lstrip()], [s.rstrip()], [s.strip()]: whitespace is what
    [str.isspace] accepts, the same characters as [\s]. *)
Fixpoint lstrip (s : str) : str :=
  match s with
  | [] => []
  | c :: s' => if Re.is_space c then lstrip s' else s
  end.

Fixpoint rstrip (s : str) : str :=
  match s with
  | [] => []
  | c :: s' =>
    match rstrip s' with
    | [] => if Re.is_space c then [] else [c]
    | r => c :: r
    end
  end.

Definition strip (s : str) : str := rstrip (lstrip s).

(** [helpers.clean_text]. *)
Definition clean_text (text : str) : str :=
  if negb (truthy_str text) then []
  else strip (collapse text).

(** [text[:n]]: a negative bound counts from the end. *)
Definition slice_to (text : str) (n : Z) : str :=
  if 0 <=? n then List.firstn (Z.to_nat n) text
  else List.firstn (Z.to_nat (len text + n)) text.

(** [helpers.truncate_text]. *)
Definition truncate_text (text : str) (max_length : Z) (suffix : str) : str :=
  if negb (truthy_str text) || (len text <=? max_length) then text
  else slice_to text max_length ++ suffix.

Section CaseFolding.

Variable lower : str -> str.

(** [helpers.extract_keywords_from_text]. *)
Definition extract_keywords_from_text (text : str) (keyword_list : list str)
  : list str :=
  if negb (truthy_str text) then []
  else
    match keyword_list with
    | [] => []
    | _ :: _ =>
      let text_lower := lower text in
      List.filter (fun keyword => contains text_lower (lower keyword))
                  keyword_list
    end.

End CaseFolding.

(** Every whitespace character of [s] is a single space that does not
    follow another one ([prev] tells that a space precedes [s]). *)
Fixpoint single_spaced (prev : bool) (s : str) : bool :=
  match s with
  | [] => true
  | c :: s' =>
    if Re.is_space c then (c =? 32) && negb prev && single_spaced true s'
    else single_spaced false s'
  end.

(** The last character of [s] is whitespace. *)
Fixpoint ends_with_space (s : str) : bool :=
  match s with
  | [] => false
  | [c] => Re.is_space c
  | _ :: s' => ends_with_space s'
  end.

(** Text as [clean_text] leaves it: words separated by single spaces,
    no whitespace at either end. *)
Definition tidy (s : str) : bool :=
  single_spaced true s && negb (ends_with_space s).

End Text.

(* ===================================================================== *)
(** * Statistics: DataFilter.get_statistics and the report's counts       *)
(* ===================================================================== *)

Module Statistics.

Import Py DateTime Model.

(** A Python dict with [str] keys, in insertion order. *)
Definition dict (V : Type) : Type := list (str * V).

(** [d.get(k, dflt)]. *)
Fixpoint dict_get {V : Type} (d : dict V) (k : str) (dflt : V) : V :=
  match d with
  | [] => dflt
  | (k', v) :: d' => if decide (k' = k) then v else dict_get d' k dflt
  end.

(** [d[k] = v]: an existing key keeps its place, a new key goes last. *)
Fixpoint dict_set {V : Type} (d : dict V) (k : str) (v : V) : dict V :=
  match d with
  | [] => [(k, v)]
  | (k', v') :: d' =>
    if decide (k' = k) then (k, v) :: d' else (k', v') :: dict_set d' k v
  end.

(** [d[k] = d.get(k, 0) + 1]. *)
Definition incr (d : dict Z) (k : str) : dict Z :=
  dict_set d k (dict_get d k 0 + 1).

(** [d.strftime('%Y-%m-%d')], the year as in [strftime_Ymd]. *)
Definition strftime_Y_m_d (d : datetime) : str :=
  zero_pad 1 (year d) ++ u "-" ++ zero_pad 2 (month d) ++ u "-"
  ++ zero_pad 2 (day d).

(** The dict [get_statistics] returns. *)
Record Stats : Type := mk_stats {
  total : Z;
  by_source : dict Z;
  by_industry : dict Z;
  by_date : dict Z;
  keywords : dict Z
}.

(** [item.source or '未知'] and [item.industry or '其他']. *)
Definition source_or_unknown (item : BidInfo) : str :=
  if truthy_str (source item) then source item else u "未知".

Definition industry_or_other (item : BidInfo) : str :=
  if truthy_ostr (industry item) then default [] (industry item)
  else u "其他".

(** The body of the loop of [get_statistics]. *)
Definition count_item (stats : Stats) (item : BidInfo) : Stats :=
  mk_stats
    (total stats)
    (incr (by_source stats) (source_or_unknown item))
    (incr (by_industry stats) (industry_or_other item))
    (match publish_date item with
     | Some d => incr (by_date stats) (strftime_Y_m_d d)
     | None => by_date stats
     end)
    (List.fold_left incr (matched_keywords item) (keywords stats)).

(** [DataFilter.get_statistics]. *)
Definition get_statistics (items : list BidInfo) : Stats :=
  List.fold_left count_item items (mk_stats (len items) [] [] [] []).

(** [ReportGenerator._group_by_source]. *)
Definition _group_by_source (items : list BidInfo) : dict Z :=
  List.fold_left (fun stats item => incr stats (source_or_unknown item))
                 items [].

(** The sum of the counts of a dict. *)
Definition dict_sum (d : dict Z) : Z :=
  List.fold_right (fun kv acc => snd kv + acc) 0 d.

End Statistics.

(* ===================================================================== *)
(** * Sample data                                                         *)
(* ===================================================================== *)

Module Sample.

Import Py DateTime Model Config.

(** A record with the given title, purchaser and budget, published on
    15 January 2024 by source A. *)
Definition bid (t p : string) (b : option float) : BidInfo :=
  {| title := u t; url := u "http://a.example/1"; source := u "A";
     bid_no := None; purchaser := Some (u p); agency := None;
     publish_date := Some (date 2024 1 15); deadline := None;
     budget := b; contact := None; address := None; industry := None;
     matched_keywords := []; crawl_time := date 2024 1 16;
     content_hash := None |}.

(** The same announcement found under a second URL. *)
Definition bid_other_url (t p : string) (b : option float) : BidInfo :=
  {| title := u t; url := u "http://a.example/2"; source := u "A";
     bid_no := None; purchaser := Some (u p); agency := None;
     publish_date := Some (date 2024 1 15); deadline := None;
     budget := b; contact := None; address := None; industry := None;
     matched_keywords := []; crawl_time := date 2024 1 17;
     content_hash := None |}.

(** A store holding the given records at locations 0, 1, ...; every
    other location holds a copy of the first. *)
Definition heap_of (first : BidInfo) (others : list BidInfo)
  : Filter.loc -> BidInfo :=
  fun l => List.nth l (first :: others) first.

(** A configuration with the given keywords and lower amount bound, a
    window of seven days, no industries and no websites. *)
Definition cfg (keywords : list str) (min_amount : Num.number)
  : ConfigManager :=
  {| websites := []; tech_keywords := KwList keywords; industries := [];
     filters_date_range := Some 7; filters_min_amount := Some min_amount;
     filters_max_amount := None; crawler_max_pages := None |}.

(** A clock that reads 18 January 2024 at every call. *)
Definition clock (n : nat) : datetime := date 2024 1 18.

(** A fresh filter state over a store. *)
Definition fresh (h : Filter.loc -> BidInfo) : Filter.state :=
  Filter.mk_state h ∅ 0.

(** Four candidates: an announcement, the same announcement under a
    second URL, a record whose title is too short to be valid, and an
    announcement in English. *)
Definition store4 : Filter.loc -> BidInfo :=
  heap_of (bid "道路工程招标公告" "市政局" None)
          [bid_other_url "道路工程招标公告" "市政局" None;
           bid "abc" "x" None;
           bid "Road Maintenance Tender" "City Council" (Some 120%float)].

(** A filter on the keywords 招标 and tender, with no amount bound. *)
Definition filter4 : Filter.DataFilter :=
  Filter.init (cfg [u "招标"; u "tender"] (Num.Int 0)).

(** A source whose list pages are [http://a.example/list?page=N] and
    whose parser finds one announcement on every page it is given. *)
Definition list_url (page : Z) : str :=
  u "http://a.example/list?page=" ++ zero_pad 1 page.

Definition raw_item : Crawler.RawItem :=
  {| Crawler.r_title := Some (u "道路工程招标公告");
     Crawler.r_url := Some (u "http://a.example/1");
     Crawler.r_bid_no := None; Crawler.r_purchaser := Some (u "市政局");
     Crawler.r_agency := None;
     Crawler.r_publish_date := Some (date 2024 1 15);
     Crawler.r_deadline := None; Crawler.r_budget := None;
     Crawler.r_contact := None; Crawler.r_address := None;
     Crawler.r_industry := None; Crawler.r_matched_keywords := None;
     Crawler.r_crawl_time := None; Crawler.r_content_hash := None;
     Crawler.r_other_keys := [] |}.



(** A network on which page 2 comes back without any list item, for a
    parser that finds an announcement only where there is one. *)
Definition http_page2_empty (earlier : list str) (url : str) : res str :=
  if decide (url = list_url 2) then Ok (u "<ul></ul>")
  else Ok (u "<ul><li>...</li></ul>").

Definition site_b : Crawler.Site :=
  {| Crawler.name := u "B";
     Crawler.get_list_url := fun page _ => Ok (list_url page);
     Crawler.parse_list := fun html =>
       if decide (html = u "<ul></ul>") then Ok [] else Ok [raw_item] |}.

(** The world before anything was requested or logged. *)
Definition world0 : Crawler.world := Crawler.mk_world [] [] 0.


(** Two enabled websites, the first served by a parser whose
    [fetch_all] raises, the second by a parser of source B. *)
Definition website (n p : string) : Website :=
  {| w_name := Some (u n); w_parser := Some (u p); w_enabled := Some true |}.

Definition cfg_sites (keywords : list str) : ConfigManager :=
  {| websites := [website "A" "a"; website "B" "b"];
     tech_keywords := KwList keywords; industries := [];
     filters_date_range := None; filters_min_amount := None;
     filters_max_amount := None; crawler_max_pages := Some 2 |}.

Definition parser_raising : Engine.Parser :=
  {| Engine.fetch_all_method :=
       fun _ _ w => (Raise (Exn "RuntimeError"), w) |}.

Definition engine (keywords : list str) : Engine.CrawlerEngine :=
  {| Engine.config := cfg_sites keywords;
     Engine.parsers :=
       <[u "a" := parser_raising]>
         (<[u "b" := Engine.base_parser http_page2_empty clock site_b]> ∅) |}.

End Sample.

(* ===================================================================== *)
(** * The specification's reading of the fingerprint                      *)
(* ===================================================================== *)

Module Spec.

Import Py DateTime.

(** The title, then ["_"] and the publication date in the format
    [fmt] only when the date is set, then ["_"] and the purchaser only
    when the purchaser is non-empty. *)
Definition text_with (fmt : datetime -> str) (title : str)
           (publish_date : option datetime) (purchaser : option str) : str :=
  let with_date :=
    match publish_date with
    | Some d => title ++ u "_" ++ fmt d
    | None => title
    end in
  match purchaser with
  | Some (c :: p) => with_date ++ u "_" ++ (c :: p)
  | _ => with_date
  end.

(** A date as YYYYMMDD: four digits of year, two of month, two of
    day. *)
Definition yyyymmdd (d : datetime) : str :=
  zero_pad 4 (year d) ++ zero_pad 2 (month d) ++ zero_pad 2 (day d).

(** The text the specification digests, with the date as YYYYMMDD. *)
Definition fingerprint_text : str -> option datetime -> option str -> str :=
  text_with yyyymmdd.

(** The fingerprint: the MD5 hex digest of that text in UTF-8. *)
Definition fingerprint (title : str) (publish_date : option datetime)
           (purchaser : option str) : str :=
  MD5.hexdigest (encode_utf8 (fingerprint_text title publish_date purchaser)).

End Spec.

(* ===================================================================== *)
(** * More sample data                                                    *)
(* ===================================================================== *)

Module SampleMore.

Import Py DateTime Model Config.

Definition industry (n : string) (kw : list string) (enabled : option bool)
  : IndustryConfig :=
  {| ic_name := Some (u n); ic_keywords := Some (List.map u kw);
     ic_enabled := enabled |}.

(** Three industries: a disabled one that would match any 局, then
    市政, then a catch-all for 局. *)
Definition industries3 : list IndustryConfig :=
  [industry "行政" ["局"%string] (Some false);
   industry "市政" ["市政"%string; "城管"%string] None;
   industry "政府" ["局"%string] (Some true)].

Definition cfg_industries : ConfigManager :=
  {| websites := []; tech_keywords := KwList [u "招标"];
     industries := industries3;
     filters_date_range := Some 7; filters_min_amount := None;
     filters_max_amount := None; crawler_max_pages := None |}.

(** A filter whose date window is switched off. *)
Definition cfg_no_window : ConfigManager :=
  {| websites := []; tech_keywords := KwList [u "招标"; u "tender"];
     industries := industries3;
     filters_date_range := Some 0; filters_min_amount := None;
     filters_max_amount := None; crawler_max_pages := None |}.

(** A clock that advances by one day at every reading. *)
Definition ticking (n : nat) : datetime := date 2024 1 (18 + Z.of_nat n).

(** A table of parser classes that knows the parser name [a] only. *)
Definition parser_classes : gmap str (Website -> res Engine.Parser) :=
  {[ u "a" := fun _ : Website =>
       Ok (Engine.base_parser Sample.http_page2_empty Sample.clock
                              Sample.site_b) ]}.

(** An announcement dated 1 January 999, as [parse_date] reads it from
    the text 0999-01-01. *)
Definition bid_year_999 : BidInfo :=
  {| title := u "道路工程招标"; url := u "http://a.example/1"; source := u "A";
     bid_no := None; purchaser := Some (u "市政局"); agency := None;
     publish_date := Some (date 999 1 1); deadline := None;
     budget := None; contact := None; address := None; Model.industry := None;
     matched_keywords := []; crawl_time := date 2024 1 16;
     content_hash := None |}.


End SampleMore.

(* ===================================================================== *)
(** * Checks of the runtime model against CPython                         *)
(* ===================================================================== *)

Example md5_empty :
  MD5.hexdigest [] = Py.u "d41d8cd98f00b204e9800998ecf8427e".
Proof. vm_compute. reflexivity. Qed.

Example md5_abc :
  MD5.hexdigest (Py.encode_utf8 (Py.u "abc"))
  = Py.u "900150983cd24fb0d6963f7d28e17f72".
Proof. vm_compute. reflexivity. Qed.

Example md5_cjk :
  MD5.hexdigest (Py.encode_utf8 (Py.u "道路工程招标_20240115_市政局"))
  = Py.u "1dd13b3265bb9d52760ef2a9ac69e805".
Proof. vm_compute. reflexivity. Qed.

Example c_units :
  [Helpers.c_yi; Helpers.c_wan; Helpers.c_qian; Helpers.c_yuan;
   Helpers.c_fwcomma] = Py.u "亿万千元，".
Proof. reflexivity. Qed.

Example strftime_example :
  DateTime.strftime_Ymd (DateTime.date 2024 1 15) = Py.u "20240115".
Proof. reflexivity. Qed.

Example toordinal_example :
  DateTime.toordinal (DateTime.date 9999 12 31) = DateTime.max_ordinal
  /\ DateTime.toordinal (DateTime.date 2024 1 15) = 738900.
Proof. split; reflexivity. Qed.

(** [float("0.1")], [float("2.675")], [round(2.675, 2)] (the double
    below 2.675 rounds down) and [round(0.125, 2)] (a tie, to even). *)
Example float_examples :
  PyFloat.of_decimal [0] [1] = 0x1.999999999999ap-4%float
  /\ PyFloat.of_decimal [2] [6; 7; 5] = 0x1.5666666666666p+1%float
  /\ PyFloat.round2 0x1.5666666666666p+1%float = 0x1.55c28f5c28f5cp+1%float
  /\ PyFloat.round2 0.125%float = 0x1.eb851eb851eb8p-4%float.
Proof. vm_compute. repeat split; reflexivity. Qed.

(* ===================================================================== *)
(** * The record: fingerprint                                             *)
(* ===================================================================== *)

Section Fingerprint.

Import Py DateTime Model.

Lemma zero_pad_2 (n : Z) :
  0 <= n < 100 -> List.length (zero_pad 2 n) = 2%nat.
Proof.
  intros H. unfold zero_pad. cbn [digits_rev].
  destruct (Z.ltb_spec n 10); [reflexivity |].
  assert (n / 10 < 10) by (apply Z.div_lt_upper_bound; lia).
  destruct (Z.ltb_spec (n / 10) 10); [reflexivity | lia].
Qed.

Lemma zero_pad_4 (n : Z) :
  0 <= n < 10000 -> List.length (zero_pad 4 n) = 4%nat.
Proof.
  intros H. unfold zero_pad. cbn [digits_rev].
  destruct (Z.ltb_spec n 10); [reflexivity |].
  destruct (Z.ltb_spec (n / 10) 10); [reflexivity |].
  destruct (Z.ltb_spec (n / 10 / 10) 10); [reflexivity |].
  assert (n / 10 / 10 / 10 < 10).
  { repeat (apply Z.div_lt_upper_bound; [lia |]). lia. }
  destruct (Z.ltb_spec (n / 10 / 10 / 10) 10); [reflexivity | lia].
Qed.

Lemma digits_rev_long (fuel : nat) (n : Z) :
  1000 <= n -> (4 <= List.length (digits_rev (4 + fuel) n))%nat.
Proof.
  intros H. cbn [digits_rev Nat.add].
  destruct (Z.ltb_spec n 10); [lia |].
  assert (100 <= n / 10) by (apply Z.div_le_lower_bound; lia).
  destruct (Z.ltb_spec (n / 10) 10); [lia |].
  assert (10 <= n / 10 / 10) by (apply Z.div_le_lower_bound; lia).
  destruct (Z.ltb_spec (n / 10 / 10) 10); [lia |].
  destruct (n / 10 / 10 / 10 <? 10); cbn [List.length]; lia.
Qed.

(** From the year 1000 on the year needs no padding to four digits. *)
Lemma zero_pad_year (n : Z) : 1000 <= n -> zero_pad 4 n = zero_pad 1 n.
Proof.
  intros H. unfold zero_pad.
  pose proof (digits_rev_long 16 n H) as Hlen.
  change (4 + 16)%nat with 20%nat in Hlen.
  rewrite length_rev.
  replace (4 - _)%nat with 0%nat by lia.
  replace (1 - _)%nat with 0%nat by lia. reflexivity.
Qed.

(** From the year 1000 on the date part of the fingerprint text is
    YYYYMMDD, eight digits. *)
Lemma strftime_Ymd_yyyymmdd (d : datetime) :
  1000 <= year d -> strftime_Ymd d = Spec.yyyymmdd d.
Proof.
  intros Hy. unfold strftime_Ymd, Spec.yyyymmdd.
  now rewrite zero_pad_year.
Qed.

Lemma yyyymmdd_length (d : datetime) :
  1 <= year d <= 9999 -> 1 <= month d <= 12 -> 1 <= day d <= 31 ->
  List.length (Spec.yyyymmdd d) = 8%nat.
Proof.
  intros Hy Hm Hd. unfold Spec.yyyymmdd.
  rewrite !length_app, zero_pad_4, !zero_pad_2 by lia. reflexivity.
Qed.

Lemma unique_str_spec (self : BidInfo) :
  unique_str self
  = Spec.text_with strftime_Ymd (title self) (publish_date self)
                   (purchaser self).
Proof.
  unfold unique_str, Spec.text_with.
  destruct (publish_date self) as [d|], (purchaser self) as [[|c p]|];
    cbn [truthy_ostr truthy_str default]; rewrite ?app_nil_r, <- ?app_assoc;
    reflexivity.
Qed.

Lemma calculate_hash_value (self : BidInfo) :
  fst (calculate_hash self)
  = MD5.hexdigest
      (encode_utf8 (Spec.text_with strftime_Ymd (title self)
                                   (publish_date self) (purchaser self))).
Proof.
  unfold calculate_hash. cbn [fst]. now rewrite unique_str_spec.
Qed.

(** [calculate_hash] assigns [content_hash] and nothing else. *)
Lemma calculate_hash_object (self : BidInfo) :
  snd (calculate_hash self)
  = set_content_hash self (Some (fst (calculate_hash self))).
Proof. reflexivity. Qed.

(** C3 as stated fails for a date before the year 1000: the record
    dated 1 January 999 is digested with the date text 9990101, on
    seven digits, so its value is not the MD5 hex digest of the text
    that carries the date as YYYYMMDD, 09990101. *)
Lemma calculate_hash_year_999 :
  let self := SampleMore.bid_year_999 in
  unique_str self = u "道路工程招标_9990101_市政局"
  /\ Spec.fingerprint_text (title self) (publish_date self) (purchaser self)
     = u "道路工程招标_09990101_市政局"
  /\ fst (calculate_hash self) = u "c74792ebbaec47807550580f2576a6e9"
  /\ Spec.fingerprint (title self) (publish_date self) (purchaser self)
     = u "89726e0a1d8e493a378bfacfa567f631"
  /\ fst (calculate_hash self)
     <> Spec.fingerprint (title self) (publish_date self) (purchaser self).
Proof.
  cbn zeta.
  assert (H1 : fst (calculate_hash SampleMore.bid_year_999)
               = u "c74792ebbaec47807550580f2576a6e9")
    by (vm_compute; reflexivity).
  assert (H2 : Spec.fingerprint (title SampleMore.bid_year_999)
                 (publish_date SampleMore.bid_year_999)
                 (purchaser SampleMore.bid_year_999)
               = u "89726e0a1d8e493a378bfacfa567f631")
    by (vm_compute; reflexivity).
  split; [vm_compute; reflexivity |].
  split; [vm_compute; reflexivity |].
  split; [exact H1 |]. split; [exact H2 |].
  rewrite H1, H2. vm_compute. discriminate.
Qed.

(** C3, as amended.  For a record whose text can be encoded,
    [calculate_hash] is a function of title, publication date and
    purchaser alone: two records that agree on the three get the same
    value; a second call on the record the first call left behind
    returns the same value again; the value is the MD5 hex digest of
    the title, followed by ["_"] and the date as [strftime] prints it
    only when the date is set, followed by ["_"] and the purchaser only
    when the purchaser is non-empty; and when the date is unset or of
    the year 1000 or later, that date text is YYYYMMDD. *)
Theorem calculate_hash_idempotent (self other : BidInfo) :
  encodable (unique_str self) = true ->
  title other = title self ->
  publish_date other = publish_date self ->
  purchaser other = purchaser self ->
  fst (calculate_hash other) = fst (calculate_hash self)
  /\ fst (calculate_hash (snd (calculate_hash self)))
     = fst (calculate_hash self)
  /\ fst (calculate_hash self)
     = MD5.hexdigest
         (encode_utf8
            (Spec.text_with strftime_Ymd (title self) (publish_date self)
                            (purchaser self)))
  /\ ((forall d, publish_date self = Some d -> 1000 <= year d) ->
      fst (calculate_hash self)
      = MD5.hexdigest
          (encode_utf8
             (Spec.fingerprint_text (title self) (publish_date self)
                                    (purchaser self)))).
Proof.
  intros _ Ht Hd Hp. split; [| split; [| split]].
  - rewrite !calculate_hash_value. now rewrite Ht, Hd, Hp.
  - rewrite !calculate_hash_value. reflexivity.
  - apply calculate_hash_value.
  - intros Hy. rewrite calculate_hash_value.
    unfold Spec.fingerprint_text, Spec.text_with.
    destruct (publish_date self) as [d |]; [| reflexivity].
    now rewrite strftime_Ymd_yyyymmdd by now apply Hy.
Qed.

Lemma calculate_hash_idempotent_witness :
  let self := Sample.bid "道路工程招标" "市政局" None in
  let other := Sample.bid_other_url "道路工程招标" "市政局" None in
  url other <> url self
  /\ fst (calculate_hash other) = fst (calculate_hash self)
  /\ fst (calculate_hash (snd (calculate_hash self)))
     = fst (calculate_hash self)
  /\ Spec.fingerprint_text (title self) (publish_date self) (purchaser self)
     = u "道路工程招标_20240115_市政局"
  /\ fst (calculate_hash self) = u "1dd13b3265bb9d52760ef2a9ac69e805".
Proof.
  intros self other.
  destruct (calculate_hash_idempotent self other) as (H1 & H2 & _ & H4);
    [vm_compute; reflexivity | reflexivity | reflexivity | reflexivity |].
  split; [discriminate |].
  split; [exact H1 |]. split; [exact H2 |].
  split; [vm_compute; reflexivity |].
  etransitivity.
  - apply H4. intros d Hd. injection Hd as <-. vm_compute. discriminate.
  - vm_compute. reflexivity.
Defined.

End Fingerprint.

(* ===================================================================== *)
(** * The filter: keyword stage and amount stage                          *)
(* ===================================================================== *)

Section Stages.

Import Py DateTime Model Config Filter.


Lemma store_same (h : loc -> BidInfo) (l : loc) (b : BidInfo) :
  store h l b l = b.
Proof. unfold store. now rewrite Nat.eqb_refl. Qed.

Lemma store_other (h : loc -> BidInfo) (l l' : loc) (b : BidInfo) :
  l' <> l -> store h l b l' = h l'.
Proof.
  intros H. unfold store. destruct (Nat.eqb_spec l' l); congruence.
Qed.




(** The amount stage passes a record without budget, and one whose
    budget is zero. *)
Lemma amount_stage_falsy (self : DataFilter) (item : BidInfo) :
  (budget item = None -> _check_amount_range self item = true)
  /\ (forall b, budget item = Some b -> PyFloat.truthy b = false ->
                _check_amount_range self item = true).
Proof.
  unfold _check_amount_range. split.
  - now intros ->.
  - intros b -> Hb. now rewrite Hb.
Qed.

(** C8 as stated fails: a record whose budget is 0 is passed although
    the configured minimum 10 is positive and above the budget. *)
Lemma amount_stage_zero_budget_passes :
  let self := Filter.init (Sample.cfg [] (Num.Int 10)) in
  let item := Sample.bid "道路养护工程招标公告" "市政局" (Some 0%float) in
  budget item = Some 0%float
  /\ Num.positive (min_amount self) = true
  /\ Num.float_lt 0%float (min_amount self) = true
  /\ _check_amount_range self item = true
  /\ ~ (_check_amount_range self item = false
        <-> (Num.positive (min_amount self) = true
             /\ Num.float_lt 0%float (min_amount self) = true)
            \/ (Num.positive (max_amount self) = true
                /\ Num.float_gt 0%float (max_amount self) = true)).
Proof.
  cbn zeta. repeat split; try (vm_compute; reflexivity).
  intros [_ H]. discriminate H. left. split; vm_compute; reflexivity.
Qed.

(** C8, amended.  The amount stage passes every record that has no
    budget or a budget of zero; a record with a non-zero budget [b] is
    rejected exactly when the minimum is positive and [b] is below it,
    or the maximum is positive and [b] is above it. *)
Theorem amount_stage (self : DataFilter) (item : BidInfo) :
  (budget item = None -> _check_amount_range self item = true)
  /\ (forall b, budget item = Some b -> PyFloat.truthy b = false ->
                _check_amount_range self item = true)
  /\ (forall b, budget item = Some b -> PyFloat.truthy b = true ->
        (_check_amount_range self item = false
         <-> (Num.positive (min_amount self) = true
              /\ Num.float_lt b (min_amount self) = true)
             \/ (Num.positive (max_amount self) = true
                 /\ Num.float_gt b (max_amount self) = true))).
Proof.
  destruct (amount_stage_falsy self item) as [H1 H2].
  split; [exact H1 |]. split; [exact H2 |].
  intros b Hb Ht. unfold _check_amount_range. rewrite Hb, Ht. cbn [negb].
  destruct (Num.positive (min_amount self)),
           (Num.float_lt b (min_amount self)),
           (Num.positive (max_amount self)),
           (Num.float_gt b (max_amount self)); cbn [andb];
    split; try reflexivity; try discriminate;
    try (intros _; (left; split; reflexivity) || (right; split; reflexivity));
    intros [[? ?] | [? ?]]; discriminate.
Qed.

Lemma amount_stage_witness :
  let self := Filter.init (Sample.cfg [] (Num.Int 10)) in
  let none := Sample.bid "道路养护工程招标公告" "市政局" None in
  let zero := Sample.bid "道路养护工程招标公告" "市政局" (Some 0%float) in
  let five := Sample.bid "道路养护工程招标公告" "市政局" (Some 5%float) in
  _check_amount_range self none = true
  /\ _check_amount_range self zero = true
  /\ _check_amount_range self five = false.
Proof.
  intros self none zero five.
  destruct (amount_stage self none) as (Hn & _).
  destruct (amount_stage self zero) as (_ & Hz & _).
  destruct (amount_stage self five) as (_ & _ & Hf).
  split; [apply Hn; reflexivity |].
  split; [apply (Hz 0%float); reflexivity |].
  apply (Hf 5%float); [reflexivity | reflexivity |].
  left. split; vm_compute; reflexivity.
Defined.

End Stages.

(* ===================================================================== *)
(** * helpers.parse_amount                                                *)
(* ===================================================================== *)

Section Amounts.

Import Py Helpers.

(** Removing the separators removes no other character. *)
Lemma has_strip_separators (c : char) (s : str) :
  c <> c_comma -> c <> c_fwcomma -> Re.is_space c = false ->
  has c (strip_separators s) = has c s.
Proof.
  intros H1 H2 H3. unfold has, strip_separators.
  induction s as [|a s IH]; [reflexivity |].
  cbn [List.filter List.existsb].
  destruct (Z.eqb_spec c a) as [<- | Hne].
  - destruct (Z.eqb_spec c c_comma); [contradiction |].
    destruct (Z.eqb_spec c c_fwcomma); [contradiction |].
    rewrite H3. cbn [orb negb List.existsb]. now rewrite Z.eqb_refl.
  - destruct (negb _); cbn [List.existsb]; [| exact IH].
    destruct (Z.eqb_spec c a); [contradiction |]. exact IH.
Qed.

Lemma has_strip_units (s : str) :
  has c_yi (strip_separators s) = has c_yi s
  /\ has c_wan (strip_separators s) = has c_wan s
  /\ has c_qian (strip_separators s) = has c_qian s
  /\ has c_yuan (strip_separators s) = has c_yuan s.
Proof.
  repeat split; apply has_strip_separators;
    (discriminate || reflexivity).
Qed.

(** What [parse_amount] returns once a number has been read. *)
Lemma parse_amount_read (s g : str) (v : float) :
  s <> [] ->
  search_number (strip_separators s) = Some g ->
  float_of_str g = Some v ->
  parse_amount s
  = Some (PyFloat.round2 (convert_unit (strip_separators s) v)).
Proof.
  intros Hs Hg Hv. unfold parse_amount.
  destruct s as [|c s]; [contradiction |]. cbn [truthy_str negb].
  now rewrite Hg, Hv.
Qed.

(** C9 as stated fails: "5千元" carries 元 and neither 万 nor 亿, yet
    its value 5 is divided by 10, not by 10000. *)
Lemma parse_amount_qian_yuan :
  let s := u "5千元" in
  has c_yuan s = true /\ has c_wan s = false /\ has c_yi s = false
  /\ search_number (strip_separators s) = Some (u "5")
  /\ float_of_str (u "5") = Some 5%float
  /\ parse_amount s = Some 0.5%float
  /\ PyFloat.round2 (5 / 10000)%float = 0%float
  /\ parse_amount s <> Some (PyFloat.round2 (5 / 10000)%float).
Proof.
  cbn zeta. repeat split; try (vm_compute; reflexivity).
  intros H.
  apply (f_equal (fun o => match o with
                           | Some x => PrimFloat.is_zero x
                           | None => false
                           end)) in H.
  vm_compute in H. discriminate H.
Qed.

(** C9, amended.  [parse_amount] returns 15000.0 for "1.5亿元" and 5.0 for
    "50000元".  When it reads the number [v] from a text, the result is
    [v * 10000] for a text with 亿, [v / 10000] for a text with 元 and
    none of 亿, 万, 千, and [v / 10] for a text with 千 and neither 亿
    nor 万; in each case rounded to two decimals. *)
Theorem parse_amount_units :
  parse_amount (u "1.5亿元") = Some 15000%float
  /\ parse_amount (u "50000元") = Some 5%float
  /\ forall (s g : str) (v : float),
      s <> [] ->
      search_number (strip_separators s) = Some g ->
      float_of_str g = Some v ->
      (has c_yi s = true ->
       parse_amount s = Some (PyFloat.round2 (v * 10000)%float))
      /\ (has c_yuan s = true -> has c_yi s = false ->
          has c_wan s = false -> has c_qian s = false ->
          parse_amount s = Some (PyFloat.round2 (v / 10000)%float))
      /\ (has c_qian s = true -> has c_yi s = false ->
          has c_wan s = false ->
          parse_amount s = Some (PyFloat.round2 (v / 10)%float)).
Proof.
  split; [vm_compute; reflexivity |].
  split; [vm_compute; reflexivity |].
  intros s g v Hs Hg Hv.
  rewrite (parse_amount_read s g v Hs Hg Hv). unfold convert_unit.
  destruct (has_strip_units s) as (-> & -> & -> & ->).
  repeat split.
  - now intros ->.
  - now intros -> -> -> ->.
  - now intros -> -> ->.
Qed.

Lemma parse_amount_units_witness :
  parse_amount (u "2.5亿") = Some 25000%float
  /\ parse_amount (u "1,200元") = Some 0x1.eb851eb851eb8p-4%float
  /\ parse_amount (u "5千元") = Some 0.5%float.
Proof.
  destruct parse_amount_units as (_ & _ & H).
  destruct (H (u "2.5亿") (u "2.5") 2.5%float) as (H1 & _);
    [discriminate | reflexivity | reflexivity |].
  destruct (H (u "1,200元") (u "1200") 1200%float) as (_ & H2 & _);
    [discriminate | reflexivity | reflexivity |].
  destruct (H (u "5千元") (u "5") 5%float) as (_ & _ & H3);
    [discriminate | reflexivity | reflexivity |].
  rewrite H1, H2, H3 by reflexivity.
  repeat split; vm_compute; reflexivity.
Defined.

End Amounts.

(* ===================================================================== *)
(** * The filter: what one item does to the state                         *)
(* ===================================================================== *)

Section FilterItem.

Import Py DateTime Model Config Filter.

Variable lower : str -> str.
Variable now : nat -> datetime.
Variable self : DataFilter.

Lemma same_key_refl (b : BidInfo) : same_key b b.
Proof. unfold same_key. tauto. Qed.

Lemma same_key_trans (a b c : BidInfo) :
  same_key a b -> same_key b c -> same_key a c.
Proof. unfold same_key. intuition congruence. Qed.

Lemma same_key_valid (b b' : BidInfo) :
  same_key b b' -> is_valid b = is_valid b'.
Proof.
  intros (Ht & Hu & Hs & _). unfold is_valid. now rewrite Ht, Hu, Hs.
Qed.

Lemma same_key_fingerprint (b b' : BidInfo) :
  same_key b b' -> fingerprint_of b = fingerprint_of b'.
Proof.
  intros (Ht & _ & _ & Hd & Hp & _). unfold fingerprint_of.
  rewrite !calculate_hash_value. now rewrite Ht, Hd, Hp.
Qed.

Lemma evolves_refl (item : loc) (st : state) : evolves item st st.
Proof.
  unfold evolves. split; [| split]; auto using same_key_refl.
Qed.

Lemma evolves_trans (item : loc) (a b c : state) :
  evolves item a b -> evolves item b c -> evolves item a c.
Proof.
  intros (K1 & F1 & S1) (K2 & F2 & S2). split; [| split].
  - intros l. eapply same_key_trans; [apply K2 | apply K1].
  - intros l Hl. now rewrite F2, F1.
  - now transitivity (seen_hashes b).
Qed.

Lemma evolves_set_obj (item : loc) (st : state) (b : BidInfo) :
  same_key b (heap st item) -> evolves item st (set_obj st item b).
Proof.
  intros Hk. unfold evolves, set_obj. cbn [heap seen_hashes].
  split; [| split].
  - intros l. unfold store. destruct (Nat.eqb_spec l item) as [-> |];
      [exact Hk | apply same_key_refl].
  - intros l Hl. now apply store_other.
  - reflexivity.
Qed.

(** The dedup stage: the object gets its [content_hash], the
    fingerprint is in the set afterwards, and the answer tells whether
    it was there before. *)
Lemma check_duplicate_spec (item : loc) (st : state) :
  let h := fingerprint_of (heap st item) in
  let r := _check_duplicate self item st in
  (fst r = true <-> h ∉ seen_hashes st)
  /\ seen_hashes (snd r) = {[h]} ∪ seen_hashes st
  /\ heap (snd r) = store (heap st) item
                          (set_content_hash (heap st item) (Some h))
  /\ ticks (snd r) = ticks st.
Proof.
  cbn zeta. unfold _check_duplicate, fingerprint_of, calculate_hash.
  cbn [fst snd set_obj seen_hashes heap ticks].
  destruct (decide (_ ∈ seen_hashes st)) as [Hin | Hnin];
    cbn [fst snd seen_hashes heap ticks].
  - repeat split; try discriminate; try reflexivity.
    + intros Hn. contradiction.
    + symmetry. apply subseteq_union_1_L.
      now apply singleton_subseteq_l.
  - repeat split; try reflexivity; auto.
Qed.

Lemma check_duplicate_evolves (item : loc) (st : state) :
  evolves item st (snd (_check_duplicate self item st)).
Proof.
  destruct (check_duplicate_spec item st) as (_ & Hs & Hh & _).
  unfold evolves. rewrite Hs, Hh. split; [| split].
  - intros l. unfold store. destruct (Nat.eqb_spec l item) as [-> |];
      [| apply same_key_refl].
    unfold same_key. cbn. tauto.
  - intros l Hl. now apply store_other.
  - apply union_subseteq_r.
Qed.

Lemma match_keywords_evolves (item : loc) (st : state) :
  evolves item st (snd (_match_keywords lower self item st))
  /\ seen_hashes (snd (_match_keywords lower self item st)) = seen_hashes st.
Proof.
  unfold _match_keywords.
  destruct (get_keywords (config self)) as [|k ks];
    [split; [apply evolves_refl | reflexivity] |].
  destruct (match_keywords lower (heap st item) (k :: ks)) as [r obj] eqn:E.
  cbn [snd]. split; [| reflexivity].
  apply evolves_set_obj. unfold match_keywords in E.
  destruct (matching lower _ (k :: ks)); inversion E; subst;
    [apply same_key_refl |].
  unfold same_key. cbn. tauto.
Qed.

Lemma check_date_range_evolves (item : loc) (st : state) :
  evolves item st (snd (_check_date_range now self item st))
  /\ seen_hashes (snd (_check_date_range now self item st)) = seen_hashes st
  /\ heap (snd (_check_date_range now self item st)) = heap st.
Proof.
  unfold _check_date_range.
  destruct (date_range self <=? 0);
    [split; [apply evolves_refl | split; reflexivity] |].
  destruct (publish_date (heap st item));
    [| split; [apply evolves_refl | split; reflexivity]].
  unfold is_date_in_range. cbn [snd heap seen_hashes].
  split; [| split; reflexivity].
  unfold evolves. cbn [heap seen_hashes].
  split; [| split]; auto using same_key_refl.
Qed.

Lemma classify_industry_evolves (item : loc) (st : state) :
  evolves item st (_classify_industry lower self item st)
  /\ seen_hashes (_classify_industry lower self item st) = seen_hashes st.
Proof.
  unfold _classify_industry.
  destruct (get_industries (config self)) as [|i is_];
    [split; [apply evolves_refl | reflexivity] |].
  split; [| reflexivity].
  apply evolves_set_obj. unfold classify_industry.
  destruct (classify_scan lower _ (i :: is_)); cbn [snd];
    [| apply same_key_refl].
  unfold same_key. cbn. tauto.
Qed.

(** One pass of the loop body. *)
Lemma filter_item_spec (item : loc) (st : state) :
  let r := filter_item lower now self item st in
  let h := fingerprint_of (heap st item) in
  evolves item st (snd r)
  /\ (is_valid (heap st item) = false -> r = (Ok Invalid, st))
  /\ (is_valid (heap st item) = true ->
      seen_hashes (snd r) = {[h]} ∪ seen_hashes st
      /\ (h ∈ seen_hashes st -> fst r = Ok Duplicate)
      /\ (h ∉ seen_hashes st ->
          fst r <> Ok Duplicate /\ fst r <> Ok Invalid)).
Proof.
  cbn zeta. unfold filter_item.
  destruct (is_valid (heap st item)) eqn:Hv; cbn [negb].
  2:{ split; [apply evolves_refl |]. split; [reflexivity | discriminate]. }
  pose proof (check_duplicate_spec item st) as (Hfresh & Hseen1 & _).
  pose proof (check_duplicate_evolves item st) as Hev1.
  destruct (_check_duplicate self item st) as [fresh st1].
  cbn [fst snd] in Hfresh, Hseen1, Hev1.
  destruct fresh; cbn [negb].
  2:{ cbn [fst snd]. split; [exact Hev1 |]. split; [discriminate |].
      intros _. split; [exact Hseen1 |]. split; [reflexivity |].
      intros Hn. apply Hfresh in Hn. discriminate Hn. }
  assert (Hnew : fingerprint_of (heap st item) ∉ seen_hashes st)
    by now apply Hfresh.
  pose proof (match_keywords_evolves item st1) as (Hev2 & Hseen2).
  destruct (_match_keywords lower self item st1) as [matched st2].
  cbn [fst snd] in Hev2, Hseen2.
  assert (Hev12 : evolves item st st2) by (eapply evolves_trans; eauto).
  destruct matched; cbn [negb].
  2:{ cbn [fst snd]. split; [exact Hev12 |]. split; [discriminate |].
      intros _. split; [congruence |].
      split; [intros; contradiction | split; discriminate]. }
  pose proof (check_date_range_evolves item st2) as (Hev3 & Hseen3 & _).
  destruct (_check_date_range now self item st2) as [[[|] | e] st3];
    cbn [fst snd] in Hev3, Hseen3.
  - assert (Hev13 : evolves item st st3) by (eapply evolves_trans; eauto).
    destruct (_check_amount_range self (heap st3 item)); cbn [negb fst snd].
    + pose proof (classify_industry_evolves item st3) as (Hev4 & Hseen4).
      split; [eapply evolves_trans; eauto |]. split; [discriminate |].
      intros _. split; [congruence |].
      split; [intros; contradiction | split; discriminate].
    + split; [exact Hev13 |]. split; [discriminate |].
      intros _. split; [congruence |].
      split; [intros; contradiction | split; discriminate].
  - cbn [fst snd]. split; [eapply evolves_trans; eauto |].
    split; [discriminate |]. intros _. split; [congruence |].
    split; [intros; contradiction | split; discriminate].
  - cbn [fst snd]. split; [eapply evolves_trans; eauto |].
    split; [discriminate |]. intros _. split; [congruence |].
    split; [intros; contradiction | split; discriminate].
Qed.

End FilterItem.

(* ===================================================================== *)
(** * The filter: one call                                                *)
(* ===================================================================== *)

Section FilterLoop.

Import Py DateTime Model Config Filter.

Variable lower : str -> str.
Variable now : nat -> datetime.
Variable self : DataFilter.

Local Abbreviation item_step := (filter_item lower now self).
Local Abbreviation loop := (filter_loop lower now self).
Local Abbreviation trace := (outcomes lower now self).

(** [filter] is its loop, also on the empty list. *)
Lemma filter_as_loop (items : list loc) (st : state) :
  Filter.filter lower now self items st
  = match loop items [] (mk_stats (len items) 0 0 0 0 0 0) st with
    | (Ok (result, _), st') => (Ok result, st')
    | (Raise e, st') => (Raise e, st')
    end.
Proof. destruct items; reflexivity. Qed.

(** The loop returns what the outcomes of its items dictate. *)
Lemma loop_collect (items : list loc) :
  forall result stats st,
    match collect items (trace items st) with
    | Ok acc => exists stats',
        fst (loop items result stats st) = Ok (result ++ acc, stats')
    | Raise e => fst (loop items result stats st) = Raise e
    end.
Proof.
  induction items as [|item rest IH]; intros result stats st.
  - cbn. exists stats. now rewrite app_nil_r.
  - cbn [filter_loop outcomes].
    destruct (item_step item st) as [[o | e] st1]; [| reflexivity].
    cbn [collect].
    specialize (IH (match o with Passed => result ++ [item] | _ => result end)
                   (count o stats) st1).
    destruct (collect rest (trace rest st1)) as [acc | e]; [| exact IH].
    destruct IH as [stats' IH]. exists stats'. rewrite IH.
    destruct o; try reflexivity. now rewrite <- app_assoc.
Qed.

Lemma filter_collect (items : list loc) (st : state) :
  fst (Filter.filter lower now self items st) = collect items (trace items st).
Proof.
  rewrite filter_as_loop.
  pose proof (loop_collect items [] (mk_stats (len items) 0 0 0 0 0 0) st) as H.
  destruct (collect items (trace items st)) as [acc | e].
  - destruct H as [stats' H].
    destruct (loop items [] _ st) as [[[r s] | e] st']; cbn in *;
      congruence.
  - destruct (loop items [] _ st) as [[[r s] | e'] st']; cbn in *;
      congruence.
Qed.

(** The state the loop leaves does not depend on the accumulators. *)
Lemma loop_state (items : list loc) :
  forall result stats result' stats' st,
    snd (loop items result stats st) = snd (loop items result' stats' st).
Proof.
  induction items as [|item rest IH]; intros; cbn [filter_loop];
    [reflexivity |].
  destruct (item_step item st) as [[o | e] st1]; [apply IH | reflexivity].
Qed.

Lemma filter_state (items : list loc) (st : state) result stats :
  snd (Filter.filter lower now self items st)
  = snd (loop items result stats st).
Proof.
  rewrite filter_as_loop.
  rewrite (loop_state items result stats [] (mk_stats (len items) 0 0 0 0 0 0)).
  now destruct (loop items [] _ st) as [[[r s] | e] st'].
Qed.

(** What a whole pass does to the state. *)
Lemma loop_invariant (items : list loc) :
  forall result stats st,
    let r := loop items result stats st in
    (forall l, same_key (heap (snd r) l) (heap st l))
    /\ seen_hashes st ⊆ seen_hashes (snd r)
    /\ (forall l, is_valid (heap st l) = false \/ ~ List.In l items ->
                  heap (snd r) l = heap st l)
    /\ (forall h, h ∈ seen_hashes (snd r) ->
          h ∈ seen_hashes st
          \/ exists l, List.In l items /\ is_valid (heap st l) = true
                       /\ fingerprint_of (heap st l) = h)
    /\ (forall out, fst r = Ok out ->
          forall l, List.In l items -> is_valid (heap st l) = true ->
                    fingerprint_of (heap st l) ∈ seen_hashes (snd r)).
Proof.
  induction items as [|item rest IH]; intros result stats st; cbn zeta.
  - cbn [filter_loop fst snd].
    split; [intros; apply same_key_refl |]. split; [reflexivity |].
    split; [reflexivity |]. split; [now left |]. intros _ _ l [].
  - cbn [filter_loop].
    pose proof (filter_item_spec lower now self item st)
      as ((K1 & F1 & S1) & Hinv & Hval).
    destruct (item_step item st) as [[o | e] st1] eqn:E;
      cbn [fst snd] in K1, F1, S1, Hinv, Hval.
    + specialize (IH (match o with Passed => result ++ [item] | _ => result end)
                     (count o stats) st1).
      cbn zeta in IH. destruct IH as (K & S & F & N & A).
      set (r := loop rest _ _ st1) in *.
      split; [| split; [| split; [| split]]].
      * intros l. eapply same_key_trans; [apply K | apply K1].
      * now transitivity (seen_hashes st1).
      * intros l Hl.
        assert (H1 : heap st1 l = heap st l).
        { destruct (Nat.eq_dec l item) as [-> | Hne]; [| now apply F1].
          destruct Hl as [Hl | Hl]; [| exfalso; apply Hl; now left].
          specialize (Hinv Hl). now inversion Hinv. }
        rewrite <- H1. apply F. destruct Hl as [Hl | Hl].
        -- left. now rewrite H1.
        -- right. intros Hin. apply Hl. now right.
      * intros h Hh. destruct (N h Hh) as [Hh1 | (l & Hin & Hv & Hf)].
        -- destruct (is_valid (heap st item)) eqn:Hv.
           ++ destruct (Hval eq_refl) as (Hs & _). rewrite Hs in Hh1.
              apply elem_of_union in Hh1 as [Hh1 | Hh1]; [| now left].
              apply elem_of_singleton in Hh1. right. exists item.
              split; [now left |]. now split.
           ++ specialize (Hinv eq_refl). inversion Hinv; subst. now left.
        -- right. exists l. split; [now right |].
           rewrite <- (same_key_valid _ _ (K1 l)).
           rewrite <- (same_key_fingerprint _ _ (K1 l)). now split.
      * intros out Hout l [<- | Hin] Hv.
        -- destruct (Hval Hv) as (Hs & _). apply S. rewrite Hs.
           apply elem_of_union_l. now apply elem_of_singleton.
        -- rewrite <- (same_key_fingerprint _ _ (K1 l)).
           apply (A out Hout l Hin).
           now rewrite (same_key_valid _ _ (K1 l)).
    + cbn [fst snd]. split; [exact K1 |]. split; [exact S1 |].
      split; [| split; [| discriminate]].
      * intros l Hl.
        destruct (Nat.eq_dec l item) as [-> | Hne]; [| now apply F1].
        destruct Hl as [Hl | Hl]; [| exfalso; apply Hl; now left].
        specialize (Hinv Hl). discriminate Hinv.
      * intros h Hh. destruct (is_valid (heap st item)) eqn:Hv.
        -- destruct (Hval eq_refl) as (Hs & _). rewrite Hs in Hh.
           apply elem_of_union in Hh as [Hh | Hh]; [| now left].
           apply elem_of_singleton in Hh. right. exists item.
           split; [now left |]. now split.
        -- specialize (Hinv eq_refl). discriminate Hinv.
Qed.

(** A record that passes was valid and new. *)
Lemma passed_was_new (item : loc) (st : state) :
  fst (item_step item st) = Ok Passed ->
  is_valid (heap st item) = true
  /\ fingerprint_of (heap st item) ∉ seen_hashes st.
Proof.
  intros Hp.
  pose proof (filter_item_spec lower now self item st) as (_ & Hinv & Hval).
  cbn zeta in Hinv, Hval.
  destruct (is_valid (heap st item)) eqn:Hv.
  - split; [reflexivity |]. intros Hin.
    destruct (Hval eq_refl) as (_ & Hdup & _). rewrite (Hdup Hin) in Hp.
    discriminate Hp.
  - rewrite (Hinv eq_refl) in Hp. discriminate Hp.
Qed.

(** Within one pass the accepted records have distinct fingerprints,
    none of them seen before the pass. *)
Lemma loop_accepts_new (items : list loc) :
  forall result stats st out stats',
    fst (loop items result stats st) = Ok (out, stats') ->
    exists acc,
      out = result ++ acc
      /\ NoDup (List.map (fun l => fingerprint_of (heap st l)) acc)
      /\ forall l, List.In l acc ->
           List.In l items /\ fingerprint_of (heap st l) ∉ seen_hashes st.
Proof.
  induction items as [|item rest IH]; intros result stats st out stats' H.
  - cbn in H. inversion H; subst. exists []. rewrite app_nil_r.
    split; [reflexivity |]. split; [constructor | intros l []].
  - cbn [filter_loop] in H.
    pose proof (filter_item_spec lower now self item st)
      as ((K1 & F1 & S1) & Hinv & Hval).
    pose proof (passed_was_new item st) as Hnew.
    destruct (item_step item st) as [[o | e] st1] eqn:E;
      cbn [fst snd] in *; [| discriminate H].
    destruct (IH _ _ _ _ _ H) as (acc & Hout & Hnd & Hacc).
    assert (Hfp : forall l, fingerprint_of (heap st1 l)
                            = fingerprint_of (heap st l))
      by (intros l; apply same_key_fingerprint, K1).
    assert (Hrest : forall l, List.In l acc ->
              List.In l (item :: rest)
              /\ fingerprint_of (heap st l) ∉ seen_hashes st).
    { intros l Hl. destruct (Hacc l Hl) as [Hin Hn]. split; [now right |].
      rewrite <- Hfp. intros Hs. apply Hn. now apply S1. }
    assert (Hmap : List.map (fun l => fingerprint_of (heap st l)) acc
                   = List.map (fun l => fingerprint_of (heap st1 l)) acc)
      by (apply List.map_ext; intros; now rewrite Hfp).
    destruct o; try (exists acc; split; [exact Hout |];
                     split; [now rewrite Hmap | exact Hrest]).
    destruct (Hnew eq_refl) as [Hv Hn].
    destruct (Hval Hv) as (Hs & _).
    exists (item :: acc). split; [now rewrite Hout, <- app_assoc |].
    split.
    + cbn [List.map]. rewrite Hmap. constructor; [| exact Hnd].
      intros Hin. apply list_elem_of_In, List.in_map_iff in Hin
        as (l & Hl & Hlin).
      destruct (Hacc l Hlin) as [_ Hnot]. apply Hnot. rewrite Hs, Hl.
      apply elem_of_union_l. now apply elem_of_singleton.
    + intros l [<- | Hl]; [| now apply Hrest].
      split; [now left | exact Hn].
Qed.

(** A pass over records all of which are invalid or already seen
    accepts nothing: each is rejected at validity or at dedup. *)
Lemma loop_all_seen (items : list loc) :
  forall result stats st,
    (forall l, List.In l items -> is_valid (heap st l) = true ->
               fingerprint_of (heap st l) ∈ seen_hashes st) ->
    (exists stats', fst (loop items result stats st) = Ok (result, stats'))
    /\ trace items st
       = List.map (fun l => Ok (if is_valid (heap st l)
                                then Duplicate else Invalid)) items.
Proof.
  induction items as [|item rest IH]; intros result stats st Hall.
  - split; [now exists stats | reflexivity].
  - cbn [filter_loop outcomes List.map].
    pose proof (filter_item_spec lower now self item st)
      as ((K1 & F1 & S1) & Hinv & Hval).
    cbn zeta in Hinv, Hval.
    assert (Ho : fst (item_step item st)
                 = Ok (if is_valid (heap st item) then Duplicate else Invalid)).
    { destruct (is_valid (heap st item)) eqn:Hv.
      - destruct (Hval eq_refl) as (_ & Hdup & _). apply Hdup.
        apply Hall; [now left | exact Hv].
      - now rewrite (Hinv eq_refl). }
    destruct (item_step item st) as [ro st1]. cbn [fst snd] in *. subst ro.
    assert (Hall1 : forall l, List.In l rest -> is_valid (heap st1 l) = true ->
                      fingerprint_of (heap st1 l) ∈ seen_hashes st1).
    { intros l Hl Hv. rewrite (same_key_fingerprint _ _ (K1 l)).
      apply S1, Hall; [now right |].
      now rewrite <- (same_key_valid _ _ (K1 l)). }
    assert (Hmap : List.map (fun l => Ok (if is_valid (heap st1 l)
                                          then Duplicate else Invalid)) rest
                   = List.map (fun l => Ok (if is_valid (heap st l)
                                            then Duplicate else Invalid)) rest)
      by (apply List.map_ext; intros l;
          now rewrite (same_key_valid _ _ (K1 l))).
    destruct (IH (match (if is_valid (heap st item) then Duplicate else Invalid)
                  with Passed => result ++ [item] | _ => result end)
                 (count (if is_valid (heap st item) then Duplicate else Invalid)
                        stats) st1 Hall1) as [[stats' Hr] Htr].
    split.
    + exists stats'. rewrite Hr. now destruct (is_valid (heap st item)).
    + now rewrite Htr, Hmap.
Qed.

(** In any pass, a valid record whose fingerprint is already in the
    set when the pass starts is rejected at the dedup stage, and an
    invalid one at the validity stage. *)
Lemma trace_rejects (items : list loc) :
  forall st i l o,
    items !! i = Some l ->
    trace items st !! i = Some o ->
    (is_valid (heap st l) = false -> o = Ok Invalid)
    /\ (is_valid (heap st l) = true ->
        fingerprint_of (heap st l) ∈ seen_hashes st -> o = Ok Duplicate).
Proof.
  induction items as [|item rest IH]; intros st i l o Hi Ho;
    [discriminate Hi |].
  cbn [outcomes] in Ho.
  pose proof (filter_item_spec lower now self item st)
    as ((K1 & F1 & S1) & Hinv & Hval).
  cbn zeta in Hinv, Hval.
  destruct i as [|i]; cbn in Hi.
  - inversion Hi; subst l. split.
    + intros Hv. rewrite (Hinv Hv) in Ho. cbn in Ho. congruence.
    + intros Hv Hs. destruct (Hval Hv) as (_ & Hdup & _).
      specialize (Hdup Hs).
      destruct (item_step item st) as [[o0 | e] st1]; cbn [fst] in Hdup;
        cbn in Ho; congruence.
  - destruct (item_step item st) as [[o0 | e] st1]; cbn [fst snd] in *;
      [| discriminate Ho].
    change ((Ok o0 :: trace rest st1) !! S i) with (trace rest st1 !! i) in Ho.
    destruct (IH st1 i l o Hi Ho) as [H1 H2]. split.
    + intros Hv. apply H1. now rewrite (same_key_valid _ _ (K1 l)).
    + intros Hv Hs. apply H2.
      * now rewrite (same_key_valid _ _ (K1 l)).
      * rewrite (same_key_fingerprint _ _ (K1 l)). now apply S1.
Qed.

(** A pass over invalid records only leaves the state as it was. *)
Lemma loop_all_invalid (items : list loc) :
  forall result stats st,
    (forall l, List.In l items -> is_valid (heap st l) = false) ->
    exists stats', loop items result stats st = (Ok (result, stats'), st).
Proof.
  induction items as [|item rest IH]; intros result stats st Hall.
  - now exists stats.
  - cbn [filter_loop].
    pose proof (filter_item_spec lower now self item st) as (_ & Hinv & _).
    cbn zeta in Hinv. rewrite (Hinv (Hall item (or_introl eq_refl))).
    apply IH. intros l Hl. apply Hall. now right.
Qed.

End FilterLoop.

(* ===================================================================== *)
(** * The filter: validity before dedup, and dedup across two passes      *)
(* ===================================================================== *)

Section FilterClaims.

Import Py DateTime Model Config Filter.

(** C2.  A record that is not valid is rejected at the validity stage
    with the state untouched: its fingerprint is not computed (its
    object, [content_hash] included, is left as it was), nothing is
    added to [_seen_hashes], and no later stage runs on it.  After a
    [filter] call every new entry of [_seen_hashes] is the fingerprint
    of a valid record of the input; a call on invalid records only
    returns the empty list and leaves the state as it was.  The call
    returns the records whose outcome is [Passed]. *)
Theorem invalid_skips_dedup (lower : str -> str) (now : nat -> datetime)
        (self : DataFilter) (items : list loc) (st : state) :
  let r := Filter.filter lower now self items st in
  (forall l st0, is_valid (heap st0 l) = false ->
                 filter_item lower now self l st0 = (Ok Invalid, st0))
  /\ (forall i l o, items !! i = Some l -> is_valid (heap st l) = false ->
                    outcomes lower now self items st !! i = Some o ->
                    o = Ok Invalid)
  /\ (forall l, is_valid (heap st l) = false -> heap (snd r) l = heap st l)
  /\ (forall h, h ∈ seen_hashes (snd r) ->
        h ∈ seen_hashes st
        \/ exists l, List.In l items /\ is_valid (heap st l) = true
                     /\ fingerprint_of (heap st l) = h)
  /\ ((forall l, List.In l items -> is_valid (heap st l) = false) ->
      r = (Ok [], st))
  /\ fst r = collect items (outcomes lower now self items st).
Proof.
  cbn zeta. rewrite filter_collect.
  rewrite (filter_state lower now self items st
                        [] (mk_stats (len items) 0 0 0 0 0 0)).
  pose proof (loop_invariant lower now self items
                             [] (mk_stats (len items) 0 0 0 0 0 0) st)
    as (_ & _ & F & N & _).
  split; [| split; [| split; [| split; [| split]]]]; [| | | | | reflexivity].
  - intros l st0 Hv.
    now apply (filter_item_spec lower now self l st0).
  - intros i l o Hi Hv Ho.
    now apply (trace_rejects lower now self items st i l o Hi Ho).
  - intros l Hv. apply F. now left.
  - exact N.
  - intros Hall. rewrite filter_as_loop.
    destruct (loop_all_invalid lower now self items
                [] (mk_stats (len items) 0 0 0 0 0 0) st Hall) as [s' ->].
    reflexivity.
Qed.

Lemma invalid_skips_dedup_witness :
  let st := Sample.fresh Sample.store4 in
  is_valid (heap st 2%nat) = false
  /\ filter_item ascii_lower Sample.clock Sample.filter4 2%nat st
     = (Ok Invalid, st)
  /\ Filter.filter ascii_lower Sample.clock Sample.filter4 [2%nat] st
     = (Ok [], st)
  /\ content_hash
       (heap (snd (Filter.filter ascii_lower Sample.clock Sample.filter4
                                 [0; 2; 3]%nat st)) 2%nat) = None.
Proof.
  intros st.
  assert (Hv : is_valid (heap st 2%nat) = false) by reflexivity.
  destruct (invalid_skips_dedup ascii_lower Sample.clock Sample.filter4
                                [2%nat] st) as (H1 & _ & _ & _ & H5 & _).
  destruct (invalid_skips_dedup ascii_lower Sample.clock Sample.filter4
                                [0; 2; 3]%nat st) as (_ & _ & H3 & _).
  split; [exact Hv |]. split; [exact (H1 2%nat st Hv) |].
  split; [apply H5; intros l [<- | []]; exact Hv |].
  rewrite (H3 2%nat Hv). reflexivity.
Defined.

(** C1.  The same list is fed twice through one filter instance, the
    second call starting in the state the first one left.  Over both
    calls together the returned records have pairwise distinct
    fingerprints.  In the second call a valid record whose fingerprint
    is in [_seen_hashes] after the first call is rejected at the dedup
    stage.  When the first call returned, the second returns the empty
    list, every valid record being rejected at dedup and every invalid
    one at validity. *)
Theorem dedup_across_passes (lower : str -> str) (now : nat -> datetime)
        (self : DataFilter) (items : list loc) (st0 : state) :
  let run1 := Filter.filter lower now self items st0 in
  let st1 := snd run1 in
  let run2 := Filter.filter lower now self items st1 in
  let fp := fun l => fingerprint_of (heap st0 l) in
  List.NoDup (List.map fp (accepted (fst run1) ++ accepted (fst run2)))
  /\ (forall i l o,
        items !! i = Some l -> is_valid (heap st0 l) = true ->
        fp l ∈ seen_hashes st1 ->
        outcomes lower now self items st1 !! i = Some o ->
        o = Ok Duplicate)
  /\ (forall acc, fst run1 = Ok acc ->
        fst run2 = Ok []
        /\ outcomes lower now self items st1
           = List.map (fun l => Ok (if is_valid (heap st0 l)
                                    then Duplicate else Invalid)) items).
Proof.
  cbn zeta.
  set (s0 := mk_stats (len items) 0 0 0 0 0 0).
  pose proof (loop_invariant lower now self items [] s0 st0)
    as (K & S & _ & _ & A).
  cbn zeta in K, S, A.
  rewrite <- (filter_state lower now self items st0 [] s0) in K, S, A.
  set (st1 := snd (Filter.filter lower now self items st0)) in *.
  assert (Hfp : forall l, fingerprint_of (heap st1 l)
                          = fingerprint_of (heap st0 l))
    by (intros l; apply same_key_fingerprint, K).
  assert (Hval : forall l, is_valid (heap st1 l) = is_valid (heap st0 l))
    by (intros l; apply same_key_valid, K).
  assert (Hnodup : forall st out,
            fst (Filter.filter lower now self items st) = Ok out ->
            NoDup (List.map (fun l => fingerprint_of (heap st l)) out)).
  { intros st out Hout. rewrite filter_as_loop in Hout. fold s0 in Hout.
    destruct (filter_loop lower now self items [] s0 st)
      as [[[r s] | e] st'] eqn:E; cbn in Hout; [| discriminate].
    inversion Hout; subst r.
    destruct (loop_accepts_new lower now self items [] s0 st out s)
      as (acc & Hacc & Hnd & _); [now rewrite E |].
    cbn in Hacc. now subst acc. }
  assert (Hsecond : forall acc,
            fst (Filter.filter lower now self items st0) = Ok acc ->
            fst (Filter.filter lower now self items st1) = Ok []
            /\ outcomes lower now self items st1
               = List.map (fun l => Ok (if is_valid (heap st0 l)
                                        then Duplicate else Invalid)) items).
  { intros acc Hacc.
    assert (Hall : forall l, List.In l items -> is_valid (heap st1 l) = true ->
                     fingerprint_of (heap st1 l) ∈ seen_hashes st1).
    { intros l Hin Hv. rewrite Hfp. rewrite filter_as_loop in Hacc.
      fold s0 in Hacc.
      destruct (filter_loop lower now self items [] s0 st0)
        as [[[r s] | e] st'] eqn:E; cbn in Hacc; [| discriminate].
      apply (A (r, s)); [reflexivity | exact Hin | now rewrite <- Hval]. }
    destruct (loop_all_seen lower now self items [] s0 st1 Hall)
      as [[s' Hr] Htr].
    split.
    - rewrite filter_as_loop. fold s0.
      destruct (filter_loop lower now self items [] s0 st1)
        as [[[r s] | e] st']; cbn in *; congruence.
    - rewrite Htr. apply List.map_ext. intros l. now rewrite Hval. }
  split; [| split].
  - apply NoDup_ListNoDup.
    destruct (fst (Filter.filter lower now self items st0)) as [acc1 | e] eqn:E1.
    + destruct (Hsecond acc1 eq_refl) as [-> _]. cbn [accepted].
      rewrite app_nil_r. now apply (Hnodup st0).
    + cbn [accepted app].
      destruct (fst (Filter.filter lower now self items st1))
        as [acc2 | e2] eqn:E2; cbn [accepted]; [| constructor].
      rewrite <- (List.map_ext _ _ Hfp). now apply (Hnodup st1).
  - intros i l o Hi Hv Hs Ho.
    apply (trace_rejects lower now self items st1 i l o Hi Ho).
    + now rewrite Hval.
    + now rewrite Hfp.
  - exact Hsecond.
Qed.

Lemma dedup_across_passes_witness :
  let items := [0; 1; 2; 3]%nat in
  let st0 := Sample.fresh Sample.store4 in
  let run1 := Filter.filter ascii_lower Sample.clock Sample.filter4
                            items st0 in
  let run2 := Filter.filter ascii_lower Sample.clock Sample.filter4
                            items (snd run1) in
  fst run1 = Ok [0; 3]%nat
  /\ fst run2 = Ok []
  /\ outcomes ascii_lower Sample.clock Sample.filter4 items (snd run1)
     = [Ok Duplicate; Ok Duplicate; Ok Invalid; Ok Duplicate]
  /\ (forall o,
        outcomes ascii_lower Sample.clock Sample.filter4 items (snd run1)
          !! 1%nat = Some o -> o = Ok Duplicate).
Proof.
  intros items st0 run1 run2. subst run2 run1.
  pose proof (dedup_across_passes ascii_lower Sample.clock Sample.filter4
                                  items st0) as (_ & Hdup & Hsec).
  set (st1 := snd (Filter.filter ascii_lower Sample.clock Sample.filter4
                                 items st0)) in *.
  assert (H1 : fst (Filter.filter ascii_lower Sample.clock Sample.filter4
                                  items st0) = Ok [0; 3]%nat)
    by (vm_compute; reflexivity).
  destruct (Hsec _ H1) as [H2 Htr].
  split; [exact H1 |]. split; [exact H2 |]. split; [exact Htr |].
  intros o Ho.
  apply (Hdup 1%nat 1%nat o); [reflexivity | reflexivity | | exact Ho].
  cbn beta. apply (bool_decide_unpack _). vm_compute. exact I.
Defined.

End FilterClaims.

(* ===================================================================== *)
(** * The fetch-all driver                                                *)
(* ===================================================================== *)

Section Pagination.

Import Py DateTime Model Config Crawler.

(** The items a call of [fetch_list] contributed. *)
Local Abbreviation payload :=
  (fun pr : Z * res (list BidInfo) =>
     match snd pr with Ok items => items | Raise _ => [] end).

Lemma fetch_trace_length fl keywords (n : nat) :
  forall page all_items w,
    (List.length (fetch_trace fl keywords n page all_items w) <= n)%nat.
Proof.
  induction n as [|n IH]; intros page all_items w; cbn [fetch_trace];
    [reflexivity |].
  destruct (fl page keywords w) as [[[|b items] | e] w1]; cbn [List.length].
  - lia.
  - specialize (IH (page + 1) (all_items ++ b :: items)
                   (emit INFO (Collected (len (all_items ++ b :: items))) w1)).
    lia.
  - specialize (IH (page + 1) all_items (emit ERROR (PageError page e) w1)).
    lia.
Qed.

Lemma fetch_trace_pages fl keywords (n : nat) :
  forall page all_items w i p r,
    fetch_trace fl keywords n page all_items w !! i = Some (p, r) ->
    p = page + Z.of_nat i /\ (i < n)%nat.
Proof.
  induction n as [|n IH]; intros page all_items w i p r H;
    cbn [fetch_trace] in H; [discriminate H |].
  destruct (fl page keywords w) as [[[|b items] | e] w1].
  - destruct i as [|i]; [| discriminate H]. inversion H. lia.
  - destruct i as [|i]; [inversion H; lia |].
    apply IH in H. lia.
  - destruct i as [|i]; [inversion H; lia |].
    apply IH in H. lia.
Qed.

Lemma fetch_trace_stops fl keywords (n : nat) :
  forall page all_items w i p,
    fetch_trace fl keywords n page all_items w !! i = Some (p, Ok []) ->
    List.length (fetch_trace fl keywords n page all_items w) = S i.
Proof.
  induction n as [|n IH]; intros page all_items w i p H;
    cbn [fetch_trace] in *; [discriminate H |].
  destruct (fl page keywords w) as [[[|b items] | e] w1].
  - destruct i as [|i]; [reflexivity | discriminate H].
  - destruct i as [|i]; [discriminate H |].
    cbn [List.length]. f_equal. now apply (IH _ _ _ i p).
  - destruct i as [|i]; [discriminate H |].
    cbn [List.length]. f_equal. now apply (IH _ _ _ i p).
Qed.

Lemma fetch_all_loop_items fl keywords (n : nat) :
  forall page all_items w,
    fst (fetch_all_loop fl keywords n page all_items w)
    = all_items
      ++ List.concat
           (List.map payload (fetch_trace fl keywords n page all_items w)).
Proof.
  induction n as [|n IH]; intros page all_items w;
    cbn [fetch_all_loop fetch_trace].
  - cbn. now rewrite app_nil_r.
  - destruct (fl page keywords w) as [[[|b items] | e] w1].
    + cbn. now rewrite app_nil_r.
    + rewrite IH. cbn [List.map List.concat snd]. now rewrite <- app_assoc.
    + rewrite IH. reflexivity.
Qed.


Variable http : list str -> str -> res str.
Variable now : nat -> datetime.
Variable site : Site.

Lemma convert_items_requests (items : list RawItem) :
  forall bid_infos w,
    requests (snd (convert_items now site items bid_infos w)) = requests w.
Proof.
  induction items as [|item rest IH]; intros bid_infos w;
    cbn [convert_items]; [reflexivity |].
  destruct (negb _ || negb _); [apply IH |].
  unfold make_bid_info.
  destruct (r_other_keys item); [| now rewrite IH].
  destruct (r_crawl_time item); now rewrite IH.
Qed.

(** [BaseParser.fetch_list] never raises, and issues at most one
    request. *)
Lemma fetch_list_total (page : Z) (keywords : list str) (w : world) :
  (exists items, fst (fetch_list http now site page keywords w) = Ok items)
  /\ (List.length (requests (snd (fetch_list http now site page keywords w)))
      <= S (List.length (requests w)))%nat.
Proof.
  unfold fetch_list.
  destruct (get_list_url site page keywords) as [url | e];
    [| split; [now exists [] | cbn; lia]].
  unfold http_get. cbn [emit requests log clock].
  destruct (http (requests w) url) as [html | e].
  - destruct (truthy_str html); cbn [negb].
    + destruct (parse_list site html) as [items | e].
      * destruct (convert_items now site items [] _) as [bid_infos w4] eqn:E.
        split; [now exists bid_infos |]. cbn [snd].
        change w4 with (snd (bid_infos, w4)). rewrite <- E.
        rewrite convert_items_requests. cbn. rewrite length_app. cbn. lia.
      * split; [now exists [] |]. cbn. rewrite length_app. cbn. lia.
    + split; [now exists [] |]. cbn. rewrite length_app. cbn. lia.
  - split; [now exists [] |]. cbn. rewrite length_app. cbn. lia.
Qed.

(** A page whose request or whose parse raises comes back from
    [fetch_list] as an empty page, with an error in the log. *)
Lemma fetch_list_failure (page : Z) (keywords : list str) (w : world)
      (url : str) :
  get_list_url site page keywords = Ok url ->
  (forall e, http (requests w) url = Raise e ->
     exists w', fetch_list http now site page keywords w
                = (Ok [], emit ERROR (FetchListFailed e) w'))
  /\ (forall html e, http (requests w) url = Ok html ->
        truthy_str html = true -> parse_list site html = Raise e ->
        exists w', fetch_list http now site page keywords w
                   = (Ok [], emit ERROR (FetchListFailed e) w')).
Proof.
  intros Hurl. unfold fetch_list, http_get. rewrite Hurl.
  cbn [emit requests log clock]. split.
  - intros e ->. eauto.
  - intros html e -> Ht ->. rewrite Ht. cbn [negb]. eauto.
Qed.

Lemma fetch_all_loop_requests (keywords : list str) (n : nat) :
  forall page all_items w,
    (List.length
       (requests (snd (fetch_all_loop (fetch_list http now site) keywords
                                      n page all_items w)))
     <= List.length (requests w)
        + List.length (fetch_trace (fetch_list http now site) keywords
                                   n page all_items w))%nat.
Proof.
  induction n as [|n IH]; intros page all_items w;
    cbn [fetch_all_loop fetch_trace]; [cbn; lia |].
  pose proof (fetch_list_total page keywords w) as [_ Hreq].
  destruct (fetch_list http now site page keywords w)
    as [[[|b items] | e] w1]; cbn [snd] in Hreq.
  - cbn. lia.
  - etransitivity; [apply IH |]. cbn [emit requests List.length]. lia.
  - etransitivity; [apply IH |]. cbn [emit requests List.length]. lia.
Qed.

End Pagination.

(** C5.  Whatever the source's [fetch_list] does, [fetch_all] calls it
    on pages 1, 2, ... in turn, at most [max_pages] times, and a call
    that returns no item is the last one: no call is made for the next
    page.  The result is the concatenation of what the calls returned.
    With the inherited [fetch_list] the driver issues at most one
    request per call, hence at most [max_pages] requests, and at most
    [k] when page [k] is empty. *)
Theorem pagination_stops (fl : Crawler.fetch_list_method)
        (keywords : list Py.str) (max_pages : Z) (w : Crawler.world) :
  let tr := Crawler.fetch_trace fl keywords (Z.to_nat max_pages) 1 [] w in
  (List.length tr <= Z.to_nat max_pages)%nat
  /\ (forall i p r, tr !! i = Some (p, r) ->
                    p = 1 + Z.of_nat i /\ 1 <= p <= max_pages)
  /\ (forall i p, tr !! i = Some (p, Ok []) -> List.length tr = S i)
  /\ fst (Crawler.fetch_all fl keywords max_pages w)
     = List.concat
         (List.map (fun pr : Z * res (list Model.BidInfo) =>
                      match snd pr with Ok items => items | Raise _ => [] end)
                   tr)
  /\ (forall http now site,
        fl = Crawler.fetch_list http now site ->
        (List.length
           (Crawler.requests
              (snd (Crawler.fetch_all fl keywords max_pages w)))
         <= List.length (Crawler.requests w) + List.length tr)%nat).
Proof.
  cbn zeta. split; [apply fetch_trace_length |].
  split; [| split; [| split]].
  - intros i p r H. apply fetch_trace_pages in H. lia.
  - intros i p H. now apply (fetch_trace_stops _ _ _ _ _ _ i p).
  - unfold Crawler.fetch_all. now rewrite fetch_all_loop_items.
  - intros http now site ->. unfold Crawler.fetch_all.
    apply fetch_all_loop_requests.
Qed.

Lemma pagination_stops_witness :
  let fl := Crawler.fetch_list Sample.http_page2_empty Sample.clock
                               Sample.site_b in
  let run := Crawler.fetch_all fl [Py.u "招标"] 5 Sample.world0 in
  List.length (Crawler.fetch_trace fl [Py.u "招标"] 5 1 [] Sample.world0)
  = 2%nat
  /\ Crawler.requests (snd run) = [Sample.list_url 1; Sample.list_url 2]
  /\ List.length (fst run) = 1%nat.
Proof.
  intros fl run.
  destruct (pagination_stops fl [Py.u "招标"] 5 Sample.world0)
    as (_ & _ & Hstop & _).
  split; [apply (Hstop 1%nat 2); vm_compute; reflexivity |].
  split; vm_compute; reflexivity.
Defined.

(* ===================================================================== *)
(** * The driver when a page fails                                        *)
(* ===================================================================== *)

Section FailedPage.

Import Py DateTime Model Config Crawler.








End FailedPage.

(* ===================================================================== *)
(** * The engine                                                          *)
(* ===================================================================== *)

Section EngineFacts.

Import Py DateTime Model Config Crawler Engine.

(** [crawl_website] never raises. *)
Lemma crawl_website_total (self : CrawlerEngine) (website : Website)
      (keywords : list str) (max_pages : option Z) (w : world) :
  exists items,
    fst (crawl_website self website keywords max_pages w) = Ok items.
Proof.
  unfold crawl_website.
  destruct (parsers self !! default [] (w_parser website)) as [parser |];
    [| now exists []].
  destruct (fetch_all_method parser keywords _ _) as [[items | e] w2];
    eauto.
Qed.

(** The loop of [crawl_all] appends to the records gathered so far
    what each website contributed, a website whose call raised
    contributing nothing; it visits every website. *)
Lemma crawl_loop_contributions (cw : crawl_website_method)
      (websites : list Website) (keywords : list str)
      (max_pages : option Z) :
  forall all_items w,
    fst (crawl_loop cw websites keywords max_pages all_items w)
    = all_items
      ++ List.concat (contributions cw websites keywords max_pages
                                    all_items w)
    /\ List.length (contributions cw websites keywords max_pages
                                  all_items w)
       = List.length websites.
Proof.
  induction websites as [|website rest IH]; intros all_items w;
    cbn [crawl_loop contributions].
  - cbn. now rewrite app_nil_r.
  - destruct (cw website keywords max_pages w) as [[items | e] w1].
    + destruct (IH (all_items ++ items)
                   (emit INFO (RunningTotal (len (all_items ++ items))) w1))
        as [H1 H2].
      rewrite H1. cbn [List.concat List.length]. rewrite H2.
      now rewrite <- app_assoc.
    + destruct (IH all_items
                   (emit ERROR (WebsiteException (default [] (w_name website))
                                                 e) w1)) as [H1 H2].
      rewrite H1. cbn [List.concat List.length app]. now rewrite H2.
Qed.

(** The contribution of the first website is what its call returned. *)
Lemma contributions_head (cw : crawl_website_method) (website : Website)
      (rest : list Website) (keywords : list str) (max_pages : option Z)
      (all_items : list BidInfo) (w : world) :
  contributions cw (website :: rest) keywords max_pages all_items w !! 0%nat
  = Some (accepted_items (fst (cw website keywords max_pages w))).
Proof.
  cbn [contributions].
  now destruct (cw website keywords max_pages w) as [[items | e] w1].
Qed.

End EngineFacts.

(** C7.  An exception out of a parser's [fetch_all] is turned by
    [crawl_website] into an empty result and an error in the log;
    [crawl_website] itself never raises.  In the loop of [crawl_all] a
    website whose call raises is logged and skipped, the records
    gathered so far are kept, and the loop goes on with the remaining
    websites.  [crawl_all] returns the concatenation, in the order of
    the enabled websites, of what each contributed. *)
Theorem source_failure_is_contained (self : Engine.CrawlerEngine) :
  (forall website keywords max_pages w parser e w2,
      Engine.parsers self !! default [] (Config.w_parser website)
      = Some parser ->
      Engine.fetch_all_method parser keywords
        (default (default 10 (Config.crawler_max_pages (Engine.config self)))
                 max_pages)
        (Crawler.emit Crawler.INFO
           (Crawler.CrawlStart (default [] (Config.w_name website))
              (default (default 10
                          (Config.crawler_max_pages (Engine.config self)))
                       max_pages)) w)
      = (Raise e, w2) ->
      Engine.crawl_website self website keywords max_pages w
      = (Ok [],
         Crawler.emit Crawler.ERROR
           (Crawler.CrawlFailed (default [] (Config.w_name website)) e) w2))
  /\ (forall website keywords max_pages w,
        exists items,
          fst (Engine.crawl_website self website keywords max_pages w)
          = Ok items)
  /\ (forall (cw : Engine.crawl_website_method) website rest keywords
             max_pages all_items w e w1,
        cw website keywords max_pages w = (Raise e, w1) ->
        Engine.crawl_loop cw (website :: rest) keywords max_pages all_items w
        = Engine.crawl_loop cw rest keywords max_pages all_items
            (Crawler.emit Crawler.ERROR
               (Crawler.WebsiteException (default [] (Config.w_name website))
                                         e) w1))
  /\ (forall (cw : Engine.crawl_website_method) websites keywords
             max_pages all_items w,
        fst (Engine.crawl_loop cw websites keywords max_pages all_items w)
        = all_items
          ++ List.concat (Engine.contributions cw websites keywords max_pages
                                               all_items w)
        /\ List.length (Engine.contributions cw websites keywords max_pages
                                             all_items w)
           = List.length websites)
  /\ (forall max_pages w,
        Config.get_websites (Engine.config self) <> [] ->
        Config.get_keywords (Engine.config self) <> [] ->
        fst (Engine.crawl_all self max_pages w)
        = List.concat
            (Engine.contributions
               (Engine.crawl_website self)
               (Config.get_websites (Engine.config self))
               (Config.get_keywords (Engine.config self)) max_pages []
               (Crawler.emit Crawler.INFO
                  (Crawler.CrawlAllStart
                     (Py.len (Config.get_websites (Engine.config self)))
                     (Py.len (Config.get_keywords (Engine.config self))))
                  w))).
Proof.
  split; [| split; [| split; [| split]]].
  - intros website keywords max_pages w parser e w2 Hp Hf.
    unfold Engine.crawl_website. rewrite Hp.
    destruct max_pages as [m |]; cbv [from_option id] in Hf |- *;
      now rewrite Hf.
  - intros. apply crawl_website_total.
  - intros cw website rest keywords max_pages all_items w e w1 H.
    cbn [Engine.crawl_loop]. now rewrite H.
  - intros. apply crawl_loop_contributions.
  - intros max_pages w Hw Hk.
    unfold Engine.crawl_all, Engine.crawl_all_with.
    destruct (Config.get_websites (Engine.config self)) as [|s ss] eqn:Es;
      [contradiction |].
    destruct (Config.get_keywords (Engine.config self)) as [|k ks] eqn:Ek;
      [contradiction |].
    pose proof (crawl_loop_contributions (Engine.crawl_website self)
                  (s :: ss) (k :: ks) max_pages []
                  (Crawler.emit Crawler.INFO
                     (Crawler.CrawlAllStart (Py.len (s :: ss))
                                            (Py.len (k :: ks))) w))
      as [H _].
    destruct (Engine.crawl_loop _ _ _ _ _ _) as [all_items w2].
    cbn [fst] in *. now rewrite H.
Qed.

Lemma source_failure_is_contained_witness :
  let self := Sample.engine [Py.u "招标"] in
  let run := Engine.crawl_all self None Sample.world0 in
  List.map Model.source (fst run) = [Py.u "B"]
  /\ fst (Engine.crawl_website self (Sample.website "A" "a") [Py.u "招标"]
                               None Sample.world0) = Ok []
  /\ List.In (Crawler.ERROR,
              Crawler.CrawlFailed (Py.u "A") (Exn "RuntimeError"))
             (Crawler.log (snd run)).
Proof.
  intros self run.
  destruct (source_failure_is_contained self) as (Hcatch & _ & _ & _ & Hall).
  split.
  - unfold run. rewrite Hall by discriminate. vm_compute. reflexivity.
  - split.
    + rewrite (Hcatch (Sample.website "A" "a") [Py.u "招标"] None
                      Sample.world0 Sample.parser_raising
                      (Exn "RuntimeError")
                      (Crawler.emit Crawler.INFO
                         (Crawler.CrawlStart (Py.u "A") 2) Sample.world0));
        reflexivity.
    + vm_compute. tauto.
Defined.

(** C10.  [crawl_all] returns the empty list, with one warning in the
    log and no request made, when no website is enabled or when the
    keyword list is empty; the outcome does not depend on the
    per-website call, which is never made.  The keyword stage of the
    filter, for its part, passes every record when the keyword list is
    empty. *)
Theorem no_keywords_no_crawl (self : Engine.CrawlerEngine)
        (max_pages : option Z) (w : Crawler.world) :
  (Config.get_websites (Engine.config self) = [] ->
   Engine.crawl_all self max_pages w
   = ([], Crawler.emit Crawler.WARNING Crawler.NoWebsites w))
  /\ (Config.get_websites (Engine.config self) <> [] ->
      Config.get_keywords (Engine.config self) = [] ->
      Engine.crawl_all self max_pages w
      = ([], Crawler.emit Crawler.WARNING Crawler.NoKeywords w))
  /\ (Config.get_keywords (Engine.config self) = [] ->
      fst (Engine.crawl_all self max_pages w) = []
      /\ Crawler.requests (snd (Engine.crawl_all self max_pages w))
         = Crawler.requests w
      /\ forall cw : Engine.crawl_website_method,
           Engine.crawl_all_with cw (Engine.config self) max_pages w
           = Engine.crawl_all self max_pages w)
  /\ (Config.get_keywords (Engine.config self) = [] ->
      forall lower (f : Filter.DataFilter) item st,
        Filter.config f = Engine.config self ->
        Filter._match_keywords lower f item st = (true, st)).
Proof.
  unfold Engine.crawl_all, Engine.crawl_all_with.
  split; [| split; [| split]].
  - now intros ->.
  - intros Hw ->.
    now destruct (Config.get_websites (Engine.config self)).
  - intros ->.
    destruct (Config.get_websites (Engine.config self));
      repeat split; reflexivity.
  - intros Hk lower f item st Hc. unfold Filter._match_keywords.
    now rewrite Hc, Hk.
Qed.

Lemma no_keywords_no_crawl_witness :
  let self := Sample.engine [] in
  Engine.crawl_all self None Sample.world0
  = ([], Crawler.mk_world [] [(Crawler.WARNING, Crawler.NoKeywords)] 0)
  /\ Config.get_websites (Engine.config self) <> [].
Proof.
  intros self.
  destruct (no_keywords_no_crawl self None Sample.world0) as (_ & H & _).
  split; [| discriminate].
  rewrite H; [reflexivity | discriminate | reflexivity].
Defined.

(* ===================================================================== *)
(** * The filter: what a call returns                                     *)
(* ===================================================================== *)

Section FilterResult.

Import Py DateTime Model Config Filter FilterNotions.

Variable lower : str -> str.
Variable now : nat -> datetime.
Variable self : DataFilter.

Lemma collect_sublist (items : list loc) :
  forall os acc, collect items os = Ok acc -> sublist acc items.
Proof.
  induction items as [|item rest IH]; intros os acc H.
  - destruct os as [|[o | e] os]; cbn in H; inversion H; constructor.
  - destruct os as [|[o | e] os]; cbn in H.
    + inversion H. apply sublist_nil_l.
    + destruct (collect rest os) as [acc' | e] eqn:E; [| discriminate H].
      specialize (IH os acc' E).
      destruct o; inversion H; subst;
        try (now apply sublist_cons); now apply sublist_skip.
    + discriminate H.
Qed.

(** The records [filter] returns are records of its input, in input
    order: nothing is invented, duplicated or reordered. *)
Theorem filter_returns_sublist (items : list loc) (st : state)
        (result : list loc) :
  fst (Filter.filter lower now self items st) = Ok result ->
  sublist result items.
Proof.
  rewrite filter_collect. apply collect_sublist.
Qed.

(** The counters of the loop add up: each item is counted once, under
    the stage that rejected it or under [passed], and [passed] counts
    the records returned. *)
Lemma loop_counts (items : list loc) :
  forall result stats st out stats' st',
    filter_loop lower now self items result stats st
    = (Ok (out, stats'), st') ->
    s_total stats' = s_total stats
    /\ counted stats' = counted stats + len items
    /\ s_passed stats' - s_passed stats = len out - len result.
Proof.
  induction items as [|item rest IH]; intros result stats st out stats' st' H;
    cbn [filter_loop] in H.
  - inversion H; subst. unfold len. cbn. lia.
  - destruct (filter_item lower now self item st) as [[o | e] st1];
      [| discriminate H].
    apply IH in H. destruct H as (Ht & Hc & Hp).
    unfold len in *. cbn [List.length]. rewrite Nat2Z.inj_succ.
    destruct o; unfold counted in *; cbn in *;
      rewrite ?length_app in *; cbn [List.length] in *; lia.
Qed.

Theorem filter_stats_add_up (items : list loc) (st : state)
        (out : list loc) (stats' : Stats) (st' : state) :
  filter_loop lower now self items [] (mk_stats (len items) 0 0 0 0 0 0) st
  = (Ok (out, stats'), st') ->
  s_total stats' = len items
  /\ s_invalid stats' + s_duplicate stats' + s_no_keywords stats'
     + s_out_of_date stats' + s_out_of_amount stats' + s_passed stats'
     = s_total stats'
  /\ s_passed stats' = len out
  /\ fst (Filter.filter lower now self items st) = Ok out.
Proof.
  intros H. pose proof (loop_counts _ _ _ _ _ _ _ H) as (Ht & Hc & Hp).
  unfold counted, len in *. cbn in *.
  repeat split; try lia.
  rewrite filter_as_loop. unfold len. now rewrite H.
Qed.

End FilterResult.

Lemma filter_returns_sublist_witness :
  sublist [0; 3]%nat [0; 1; 2; 3]%nat.
Proof.
  apply (filter_returns_sublist Model.ascii_lower Sample.clock Sample.filter4
           [0; 1; 2; 3]%nat (Sample.fresh Sample.store4)).
  vm_compute. reflexivity.
Defined.

Lemma filter_stats_add_up_witness :
  exists stats' st',
    Filter.filter_loop Model.ascii_lower Sample.clock Sample.filter4
      [0; 1; 2; 3]%nat [] (Filter.mk_stats 4 0 0 0 0 0 0)
      (Sample.fresh Sample.store4) = (Ok ([0; 3]%nat, stats'), st')
    /\ Filter.s_invalid stats' = 1 /\ Filter.s_duplicate stats' = 1
    /\ Filter.s_passed stats' = 2.
Proof.
  destruct (Filter.filter_loop Model.ascii_lower Sample.clock Sample.filter4
              [0; 1; 2; 3]%nat [] (Filter.mk_stats 4 0 0 0 0 0 0)
              (Sample.fresh Sample.store4)) as [r st'] eqn:E.
  assert (Hr : exists s, r = Ok ([0; 3]%nat, s)
                         /\ Filter.s_invalid s = 1 /\ Filter.s_duplicate s = 1).
  { apply (f_equal fst) in E. cbn [fst] in E. rewrite <- E.
    vm_compute. eexists. repeat split. }
  destruct Hr as (s & -> & Hi & Hd).
  exists s, st'. split; [reflexivity |].
  destruct (filter_stats_add_up Model.ascii_lower Sample.clock Sample.filter4
              [0; 1; 2; 3]%nat (Sample.fresh Sample.store4) [0; 3]%nat s st' E)
    as (_ & _ & Hp & _).
  split; [exact Hi |]. split; [exact Hd |]. exact Hp.
Defined.

(* ===================================================================== *)
(** * The filter: what an accepted record carries                         *)
(* ===================================================================== *)

Section FilterAccepted.

Import Py DateTime Model Config Filter FilterNotions.

Variable lower : str -> str.
Variable now : nat -> datetime.
Variable self : DataFilter.

Local Abbreviation item_step := (filter_item lower now self).
Local Abbreviation loop := (filter_loop lower now self).

Lemma check_duplicate_object (item : loc) (st : state) :
  heap (snd (_check_duplicate self item st)) item
  = set_content_hash (heap st item) (Some (fingerprint_of (heap st item))).
Proof.
  destruct (check_duplicate_spec self item st) as (_ & _ & -> & _).
  apply store_same.
Qed.

Lemma match_keywords_object (item : loc) (st : state) :
  let occurs := fun k => contains (lower (title (heap st item))) (lower k) in
  fst (_match_keywords lower self item st) = true ->
  heap (snd (_match_keywords lower self item st)) item
  = match get_keywords (config self) with
    | [] => heap st item
    | kws => set_matched_keywords (heap st item) (List.filter occurs kws)
    end
  /\ (get_keywords (config self) <> [] ->
      List.filter occurs (get_keywords (config self)) <> []).
Proof.
  cbn zeta. unfold _match_keywords.
  destruct (get_keywords (config self)) as [|k ks]; [now split |].
  destruct (match_keywords lower (heap st item) (k :: ks)) as [r obj] eqn:E.
  cbn [fst snd set_obj heap]. rewrite store_same. intros ->.
  unfold match_keywords, matching in E.
  set (hits := List.filter _ (k :: ks)) in *.
  destruct hits as [|m ms]; inversion E.
  split; [reflexivity | discriminate].
Qed.

Lemma classify_industry_object (item : loc) (st : state) :
  heap (_classify_industry lower self item st) item
  = match classify_scan lower
            (lower (default [] (purchaser (heap st item))))
            (get_industries (config self)) with
    | Some n => set_industry (heap st item) (Some n)
    | None => heap st item
    end.
Proof.
  unfold _classify_industry.
  destruct (get_industries (config self)) as [|i is_]; [reflexivity |].
  cbn [set_obj heap]. rewrite store_same. unfold classify_industry.
  destruct (purchaser (heap st item)) as [[|c p] |];
    cbn [truthy_ostr truthy_str from_option id];
    match goal with
    | |- context [classify_scan lower ?x ?y] =>
      destruct (classify_scan lower x y)
    end; reflexivity.
Qed.

Lemma check_amount_range_key (b b' : BidInfo) :
  same_key b b' -> _check_amount_range self b = _check_amount_range self b'.
Proof.
  intros (_ & _ & _ & _ & _ & Hb). unfold _check_amount_range.
  now rewrite Hb.
Qed.

(** What the stages leave on a record that passes all of them. *)
Lemma filter_item_passed (item : loc) (st : state) :
  fst (item_step item st) = Ok Passed ->
  let b := heap st item in
  let b' := heap (snd (item_step item st)) item in
  let occurs := fun k => contains (lower (title b)) (lower k) in
  is_valid b = true
  /\ (fingerprint_of b ∉ seen_hashes st)
  /\ _check_amount_range self b = true
  /\ content_hash b' = Some (fingerprint_of b)
  /\ matched_keywords b'
     = match get_keywords (config self) with
       | [] => matched_keywords b
       | kws => List.filter occurs kws
       end
  /\ (get_keywords (config self) <> [] ->
      List.filter occurs (get_keywords (config self)) <> [])
  /\ industry b'
     = match classify_scan lower (lower (default [] (purchaser b)))
                           (get_industries (config self)) with
       | Some n => Some n
       | None => industry b
       end.
Proof.
  intros H. pose proof (passed_was_new lower now self item st H) as [Hv Hn].
  cbn zeta. split; [exact Hv |]. split; [exact Hn |].
  revert H. unfold filter_item. rewrite Hv. cbn [negb].
  pose proof (check_duplicate_object item st) as Hb1.
  pose proof (check_duplicate_evolves now self item st) as (K1 & _ & _).
  destruct (_check_duplicate self item st) as [fresh st1].
  cbn [snd] in Hb1, K1.
  destruct fresh; cbn [negb]; [| discriminate].
  pose proof (match_keywords_object item st1) as Hb2.
  pose proof (match_keywords_evolves lower now self item st1) as ((K2 & _) & _).
  destruct (_match_keywords lower self item st1) as [matched st2].
  cbn [fst snd] in Hb2, K2.
  destruct matched; cbn [negb]; [| discriminate].
  destruct (Hb2 eq_refl) as [Hobj2 Hne]. clear Hb2.
  pose proof (check_date_range_evolves now self item st2) as (_ & _ & Hh3).
  destruct (_check_date_range now self item st2) as [[[|] | e] st3];
    cbn [snd] in Hh3; try discriminate.
  destruct (_check_amount_range self (heap st3 item)) eqn:Ha;
    cbn [negb fst snd]; [| discriminate].
  intros _.
  assert (Hk : same_key (heap st3 item) (heap st item)).
  { rewrite Hh3. eapply same_key_trans; [apply K2 | apply K1]. }
  split; [now rewrite <- (check_amount_range_key _ _ Hk) |].
  assert (Ht : title (heap st1 item) = title (heap st item))
    by (rewrite Hb1; reflexivity).
  rewrite Ht in Hne, Hobj2.
  rewrite classify_industry_object, Hh3, Hobj2.
  destruct (get_keywords (config self)) as [|k ks]; rewrite Hb1;
    cbn [purchaser set_content_hash set_matched_keywords];
    match goal with
    | |- context [classify_scan lower ?x ?y] =>
      destruct (classify_scan lower x y)
    end; cbn; repeat split; auto; congruence.
Qed.

Lemma filter_item_accepted_as (item : loc) (st : state) :
  fst (item_step item st) = Ok Passed ->
  accepted_as lower self (seen_hashes st) (heap st item)
              (heap (snd (item_step item st)) item).
Proof. apply filter_item_passed. Qed.

(** A settled record is not touched again. *)
Lemma settled_stable (l item : loc) (st : state) :
  settled st l ->
  heap (snd (item_step item st)) l = heap st l
  /\ settled (snd (item_step item st)) l.
Proof.
  intros (Hv & Hs & Hc).
  pose proof (filter_item_spec lower now self item st)
    as ((K1 & F1 & S1) & _ & _).
  assert (Hh : heap (snd (item_step item st)) l = heap st l).
  { destruct (Nat.eq_dec l item) as [-> | Hne]; [| now apply F1].
    unfold filter_item. rewrite Hv. cbn [negb].
    pose proof (check_duplicate_object item st) as Hb.
    destruct (check_duplicate_spec self item st) as (Hfresh & _).
    destruct (_check_duplicate self item st) as [fresh st1].
    cbn [fst snd] in *.
    destruct fresh; [exfalso; now apply Hfresh |]. cbn [negb snd].
    rewrite Hb. rewrite <- Hc. now destruct (heap st item). }
  split; [exact Hh |]. unfold settled. rewrite Hh.
  split; [exact Hv |]. split; [now apply S1 | exact Hc].
Qed.

Lemma loop_settled (l : loc) (items : list loc) :
  forall result stats st,
    settled st l ->
    heap (snd (loop items result stats st)) l = heap st l.
Proof.
  induction items as [|item rest IH]; intros result stats st Hs;
    cbn [filter_loop]; [reflexivity |].
  destruct (settled_stable l item st Hs) as [Hh Hs1].
  destruct (item_step item st) as [[o | e] st1]; cbn [snd] in *;
    [| exact Hh].
  now rewrite IH.
Qed.

Lemma loop_accepted_as (items : list loc) :
  forall result stats st out stats' st',
    loop items result stats st = (Ok (out, stats'), st') ->
    exists acc,
      out = result ++ acc
      /\ forall l, List.In l acc ->
           accepted_as lower self (seen_hashes st) (heap st l) (heap st' l).
Proof.
  induction items as [|item rest IH]; intros result stats st out stats' st' H;
    cbn [filter_loop] in H.
  - inversion H; subst. exists []. rewrite app_nil_r.
    split; [reflexivity | intros l []].
  - pose proof (filter_item_spec lower now self item st)
      as ((K1 & F1 & S1) & Hinv & Hval).
    pose proof (filter_item_accepted_as item st) as Hpass.
    cbn zeta in Hinv, Hval.
    destruct (item_step item st) as [[o | e] st1] eqn:E;
      cbn [fst snd] in *; [| discriminate H].
    destruct (IH _ _ _ _ _ _ H) as (acc & Hout & Hacc).
    assert (Hrest : forall l, List.In l acc ->
              accepted_as lower self (seen_hashes st) (heap st l)
                          (heap st' l)).
    { intros l Hl. specialize (Hacc l Hl).
      destruct Hacc as (Hv & Hn & Hrest).
      assert (Hne : l <> item).
      { intros ->. destruct (is_valid (heap st item)) eqn:Hvi.
        - destruct (Hval eq_refl) as (Hs & _). apply Hn. rewrite Hs.
          rewrite (same_key_fingerprint _ _ (K1 item)).
          apply elem_of_union_l. now apply elem_of_singleton.
        - specialize (Hinv eq_refl). inversion Hinv; subst. congruence. }
      rewrite (F1 l Hne) in Hv, Hn, Hrest.
      split; [exact Hv |]. split; [| exact Hrest].
      intros Hin. apply Hn. now apply S1. }
    destruct o; try (exists acc; split; [exact Hout | exact Hrest]).
    exists (item :: acc). split; [now rewrite Hout, <- app_assoc |].
    intros l [<- | Hl]; [| now apply Hrest].
    specialize (Hpass eq_refl).
    assert (Hs : settled st1 item).
    { destruct Hpass as (Hv & Hn & _ & Hc & _).
      destruct (Hval Hv) as (Hseen & _).
      unfold settled. rewrite (same_key_valid _ _ (K1 item)).
      rewrite (same_key_fingerprint _ _ (K1 item)).
      split; [exact Hv |]. split; [| exact Hc].
      rewrite Hseen. apply elem_of_union_l. now apply elem_of_singleton. }
    pose proof (loop_settled item rest (result ++ [item])
                             (count Passed stats) st1 Hs) as Hst.
    rewrite H in Hst. cbn [snd] in Hst. now rewrite Hst.
Qed.

(** Every record [filter] returns was valid, new and within the amount
    window when the call started, and leaves the call with its
    fingerprint in [content_hash], with the configured keywords that
    occur in its title in [matched_keywords] (at least one, when
    keywords are configured) and with the first enabled industry whose
    keyword occurs in its purchaser in [industry]; a record no industry
    matches keeps the industry it had. *)
Theorem filter_returns_finished_records (items : list loc) (st : state)
        (result : list loc) :
  fst (Filter.filter lower now self items st) = Ok result ->
  forall l, List.In l result ->
    accepted_as lower self (seen_hashes st) (heap st l)
                (heap (snd (Filter.filter lower now self items st)) l).
Proof.
  rewrite filter_as_loop.
  destruct (loop items [] (mk_stats (len items) 0 0 0 0 0 0) st)
    as [[[out stats'] | e] st'] eqn:E; cbn [fst snd]; [| discriminate].
  intros Hr l Hl. inversion Hr; subst out.
  destruct (loop_accepted_as items _ _ _ _ _ _ E) as (acc & Hacc & Hall).
  cbn in Hacc. subst acc. now apply Hall.
Qed.

End FilterAccepted.

Lemma filter_returns_finished_records_witness :
  let st := Sample.fresh Sample.store4 in
  let st' := snd (Filter.filter Model.ascii_lower Sample.clock Sample.filter4
                                [0; 1; 2; 3]%nat st) in
  Model.matched_keywords (Filter.heap st' 3%nat) = [Py.u "tender"]
  /\ Model.content_hash (Filter.heap st' 3%nat)
     = Some (Filter.fingerprint_of (Filter.heap st 3%nat)).
Proof.
  intros st st'.
  destruct (filter_returns_finished_records Model.ascii_lower Sample.clock
              Sample.filter4 [0; 1; 2; 3]%nat st [0; 3]%nat) with (l := 3%nat)
    as (_ & _ & _ & Hc & Hk & _).
  - vm_compute. reflexivity.
  - right. now left.
  - split; [| exact Hc]. unfold st'. rewrite Hk. vm_compute. reflexivity.
Defined.

(* ===================================================================== *)
(** * The filter: industry classification and the date window            *)
(* ===================================================================== *)

Section Classification.

Import Py DateTime Model Config Filter FilterNotions.

Variable lower : str -> str.

Lemma classify_scan_first (p : str) (pre post : list IndustryConfig)
      (ic : IndustryConfig) :
  (forall x, List.In x pre -> industry_hit lower p x = false) ->
  industry_hit lower p ic = true ->
  classify_scan lower p (pre ++ ic :: post) = Some (default [] (ic_name ic)).
Proof.
  intros Hpre Hic. induction pre as [|x pre IH]; cbn [app classify_scan].
  - unfold industry_hit in Hic. now rewrite Hic.
  - pose proof (Hpre x (or_introl eq_refl)) as Hx.
    unfold industry_hit in Hx. rewrite Hx.
    apply IH. intros y Hy. apply Hpre. now right.
Qed.

Lemma classify_scan_none (p : str) (industries : list IndustryConfig) :
  (forall x, List.In x industries -> industry_hit lower p x = false) ->
  classify_scan lower p industries = None.
Proof.
  intros H. induction industries as [|x rest IH]; [reflexivity |].
  cbn [classify_scan]. pose proof (H x (or_introl eq_refl)) as Hx.
  unfold industry_hit in Hx. rewrite Hx.
  apply IH. intros y Hy. apply H. now right.
Qed.

Lemma get_industries_split (cfg : ConfigManager)
      (pre post : list IndustryConfig) (ic : IndustryConfig) :
  industries cfg = pre ++ ic :: post ->
  default true (ic_enabled ic) = true ->
  get_industries cfg
  = List.filter (fun i => default true (ic_enabled i)) pre
    ++ ic :: List.filter (fun i => default true (ic_enabled i)) post.
Proof.
  intros Hc He. unfold get_industries. rewrite Hc, List.filter_app.
  cbn [List.filter]. now rewrite He.
Qed.

(** The industry stage stamps the name of the first enabled industry,
    in configured order, one of whose keywords (lower-cased) occurs in
    the lower-cased purchaser, and changes nothing else; a disabled
    industry is passed over; when no enabled industry matches, no
    record changes (the industry is not cleared). *)
Theorem classify_first_enabled_match (self : DataFilter) (item : loc)
        (st : state) :
  let p := lower (default [] (purchaser (heap st item))) in
  let enabled := fun i : IndustryConfig => default true (ic_enabled i) in
  let st' := _classify_industry lower self item st in
  (forall pre ic post,
      industries (config self) = pre ++ ic :: post ->
      (forall x, List.In x pre -> enabled x = true ->
                 industry_hit lower p x = false) ->
      enabled ic = true -> industry_hit lower p ic = true ->
      heap st' item
      = set_industry (heap st item) (Some (default [] (ic_name ic))))
  /\ ((forall x, List.In x (industries (config self)) -> enabled x = true ->
                 industry_hit lower p x = false) ->
      forall l, heap st' l = heap st l)
  /\ (forall l, l <> item -> heap st' l = heap st l)
  /\ seen_hashes st' = seen_hashes st /\ ticks st' = ticks st.
Proof.
  cbn zeta. split; [| split; [| split]].
  - intros pre ic post Hc Hpre He Hic.
    rewrite classify_industry_object.
    rewrite (get_industries_split _ _ _ _ Hc He).
    rewrite classify_scan_first; [reflexivity | | exact Hic].
    intros x Hx. apply List.filter_In in Hx as [Hx Hen]. now apply Hpre.
  - intros Hall l.
    destruct (Nat.eq_dec l item) as [-> | Hne].
    + rewrite classify_industry_object.
      rewrite classify_scan_none; [reflexivity |].
      intros x Hx. unfold get_industries in Hx.
      apply List.filter_In in Hx as [Hx Hen]. now apply Hall.
    + unfold _classify_industry.
      destruct (get_industries (config self)); [reflexivity |].
      cbn [set_obj heap]. now apply store_other.
  - intros l Hne. unfold _classify_industry.
    destruct (get_industries (config self)); [reflexivity |].
    cbn [set_obj heap]. now apply store_other.
  - unfold _classify_industry.
    destruct (get_industries (config self)); split; reflexivity.
Qed.

End Classification.

Lemma classify_first_enabled_match_witness :
  let self := Filter.init SampleMore.cfg_industries in
  let st := Sample.fresh Sample.store4 in
  Model.industry
    (Filter.heap (Filter._classify_industry Model.ascii_lower self 0%nat st)
                 0%nat)
  = Some (Py.u "市政").
Proof.
  intros self st.
  destruct (classify_first_enabled_match Model.ascii_lower self 0%nat st)
    as (H & _).
  rewrite (H [SampleMore.industry "行政" ["局"%string] (Some false)]
             (SampleMore.industry "市政" ["市政"%string; "城管"%string] None)
             [SampleMore.industry "政府" ["局"%string] (Some true)]).
  - reflexivity.
  - reflexivity.
  - intros x [<- | []] He. discriminate He.
  - reflexivity.
  - vm_compute. reflexivity.
Defined.

Section DateWindow.

Import Py DateTime Model Config Filter FilterNotions.

Lemma time_of_day_range (d : datetime) :
  valid_time d -> 0 <= time_of_day d < 86400000000.
Proof. unfold valid_time, time_of_day. lia. Qed.

(** [a >= now - timedelta(days)] compares instants: the record is in
    the window exactly when it is not older than [days] days, to the
    microsecond and inclusive; outside the range of [timedelta] or of
    the calendar the subtraction raises OverflowError. *)
Lemma ge_minus_days_instants (a now_ : datetime) (days : Z) :
  valid_time a -> valid_time now_ ->
  ge_minus_days a now_ days
  = if (999999999 <? Z.abs days)
       || (toordinal now_ - days <? 1)
       || (max_ordinal <? toordinal now_ - days)
    then Raise (Exn "OverflowError")
    else Ok (micros now_ - days * 86400000000 <=? micros a).
Proof.
  intros Ha Hn. apply time_of_day_range in Ha, Hn.
  unfold ge_minus_days, micros.
  destruct (999999999 <? Z.abs days); [reflexivity |]. cbn [orb].
  destruct ((toordinal now_ - days <? 1)
            || (max_ordinal <? toordinal now_ - days)); [reflexivity |].
  f_equal.
  destruct (Z.ltb_spec (toordinal now_ - days) (toordinal a)).
  - cbn [orb]. symmetry. apply Z.leb_le. lia.
  - cbn [orb]. destruct (Z.eqb_spec (toordinal now_ - days) (toordinal a)).
    + cbn [andb].
      destruct (Z.leb_spec (time_of_day now_) (time_of_day a));
        symmetry; [apply Z.leb_le | apply Z.leb_gt]; lia.
    + cbn [andb]. symmetry. apply Z.leb_gt. lia.
Qed.

(** The date stage passes every record, without reading the clock,
    when the configured window is zero or negative, and passes a record
    without publication date; otherwise it reads the clock once and
    passes the record exactly when it was published no more than
    [date_range] days before that instant. *)
Theorem date_stage (now : nat -> datetime) (self : DataFilter) (item : loc)
        (st : state) :
  (date_range self <= 0 -> _check_date_range now self item st = (Ok true, st))
  /\ (publish_date (heap st item) = None ->
      _check_date_range now self item st = (Ok true, st))
  /\ (forall d,
        0 < date_range self -> publish_date (heap st item) = Some d ->
        valid_time d -> valid_time (now (ticks st)) ->
        date_range self < toordinal (now (ticks st)) <= max_ordinal ->
        _check_date_range now self item st
        = (Ok (micros (now (ticks st)) - date_range self * 86400000000
               <=? micros d),
           mk_state (heap st) (seen_hashes st) (S (ticks st)))).
Proof.
  unfold _check_date_range. split; [| split].
  - intros H. apply Z.leb_le in H. now rewrite H.
  - intros ->. now destruct (date_range self <=? 0).
  - intros d Hr Hd Hvd Hvn Hrange.
    apply Z.leb_gt in Hr. rewrite Hr, Hd. unfold is_date_in_range.
    rewrite (ge_minus_days_instants _ _ _ Hvd Hvn).
    apply Z.leb_gt in Hr.
    assert (H1 : (999999999 <? Z.abs (date_range self)) = false).
    { apply Z.ltb_ge. unfold max_ordinal in Hrange. lia. }
    assert (H2 : (toordinal (now (ticks st)) - date_range self <? 1) = false)
      by (apply Z.ltb_ge; lia).
    assert (H3 : (max_ordinal <? toordinal (now (ticks st)) - date_range self)
                 = false) by (apply Z.ltb_ge; lia).
    now rewrite H1, H2, H3.
Qed.

End DateWindow.

Lemma date_stage_witness :
  let self := Filter.init (Sample.cfg [] (Num.Int 0)) in
  let h := Sample.heap_of
             (Sample.bid "道路工程招标公告" "市政局" None)
             [Sample.bid_other_url "道路工程招标公告" "市政局" None] in
  let at_noon : nat -> DateTime.datetime :=
    fun _ => DateTime.mk_datetime 2024 1 22 12 0 0 0 in
  fst (Filter._check_date_range Sample.clock self 0%nat (Sample.fresh h))
  = Ok true
  /\ fst (Filter._check_date_range
            (fun _ => DateTime.date 2024 1 22) self 0%nat (Sample.fresh h))
     = Ok true
  /\ fst (Filter._check_date_range at_noon self 0%nat (Sample.fresh h))
     = Ok false.
Proof.
  intros self h at_noon.
  destruct (date_stage Sample.clock self 0%nat (Sample.fresh h))
    as (_ & _ & H1).
  destruct (date_stage (fun _ => DateTime.date 2024 1 22) self 0%nat
                       (Sample.fresh h)) as (_ & _ & H2).
  destruct (date_stage at_noon self 0%nat (Sample.fresh h)) as (_ & _ & H3).
  rewrite (H1 (DateTime.date 2024 1 15)), (H2 (DateTime.date 2024 1 15)),
          (H3 (DateTime.date 2024 1 15));
    try reflexivity; try (vm_compute; intuition discriminate).
Defined.

(* ===================================================================== *)
(** * The filter: what a verdict depends on, and reset                    *)
(* ===================================================================== *)

Section Verdict.

Import Py DateTime Model Config Filter FilterNotions.

Variable lower : str -> str.
Variable now : nat -> datetime.
Variable self : DataFilter.

Local Abbreviation item_step := (filter_item lower now self).
Local Abbreviation loop := (filter_loop lower now self).

Lemma match_keywords_verdict (item : loc) (st : state) :
  fst (_match_keywords lower self item st)
  = keywords_ok lower self (heap st item).
Proof.
  unfold _match_keywords, keywords_ok.
  destruct (get_keywords (config self)) as [|k ks]; [reflexivity |].
  unfold match_keywords, matching.
  now destruct (List.filter _ (k :: ks)).
Qed.

Lemma check_date_range_verdict (item : loc) (st : state) :
  fst (_check_date_range now self item st)
  = date_ok self (heap st item) (now (ticks st)).
Proof.
  unfold _check_date_range, date_ok.
  destruct (date_range self <=? 0); [reflexivity |].
  now destruct (publish_date (heap st item)).
Qed.

Lemma keywords_ok_key (b b' : BidInfo) :
  same_key b b' -> keywords_ok lower self b = keywords_ok lower self b'.
Proof. intros (Ht & _). unfold keywords_ok. now rewrite Ht. Qed.

Lemma date_ok_key (b b' : BidInfo) (t : datetime) :
  same_key b b' -> date_ok self b t = date_ok self b' t.
Proof.
  intros (_ & _ & _ & Hd & _). unfold date_ok. now rewrite Hd.
Qed.

Lemma verdict_key (b b' : BidInfo) (seen : gset str) (t : datetime) :
  same_key b b' -> verdict lower self b seen t = verdict lower self b' seen t.
Proof.
  intros Hk. unfold verdict.
  rewrite (same_key_valid _ _ Hk), (same_key_fingerprint _ _ Hk),
          (keywords_ok_key _ _ Hk), (date_ok_key _ _ t Hk),
          (check_amount_range_key self _ _ Hk).
  reflexivity.
Qed.

(** The verdict on an item is a function of its title, URL, source,
    publication date, purchaser and budget, of the set of seen
    fingerprints and of the clock reading: it depends neither on the
    [matched_keywords], [industry] and [content_hash] an earlier call
    left on the record nor on any other record. *)
Theorem verdict_depends_on_key (item : loc) (st : state) :
  fst (item_step item st)
  = verdict lower self (heap st item) (seen_hashes st) (now (ticks st))
  /\ forall st2 : state,
      same_key (heap st2 item) (heap st item) ->
      seen_hashes st2 = seen_hashes st ->
      now (ticks st2) = now (ticks st) ->
      fst (item_step item st2) = fst (item_step item st).
Proof.
  assert (H : forall s, fst (item_step item s)
                = verdict lower self (heap s item) (seen_hashes s)
                          (now (ticks s))).
  { intros s. unfold filter_item, verdict.
    destruct (is_valid (heap s item)) eqn:Hv; cbn [negb]; [| reflexivity].
    pose proof (check_duplicate_spec self item s) as (Hfresh & _ & _ & Ht1).
    pose proof (check_duplicate_evolves now self item s) as (K1 & _ & _).
    destruct (_check_duplicate self item s) as [fresh s1].
    cbn [fst snd] in Hfresh, Ht1, K1.
    destruct (decide (fingerprint_of (heap s item) ∈ seen_hashes s))
      as [Hin | Hnin].
    - destruct fresh; [exfalso; now apply Hfresh | reflexivity].
    - destruct fresh; [| exfalso; apply Hfresh in Hnin; discriminate].
      cbn [negb].
      pose proof (match_keywords_verdict item s1) as Hk.
      pose proof (match_keywords_evolves lower now self item s1)
        as ((K2 & _) & _).
      assert (Ht2 : ticks (snd (_match_keywords lower self item s1))
                    = ticks s1).
      { unfold _match_keywords.
        destruct (get_keywords (config self)); [reflexivity |].
        now destruct (match_keywords lower (heap s1 item) _). }
      destruct (_match_keywords lower self item s1) as [matched s2].
      cbn [fst snd] in Hk, K2, Ht2.
      rewrite (keywords_ok_key _ _ (K1 item)) in Hk. rewrite <- Hk.
      destruct matched; cbn [negb]; [| reflexivity].
      pose proof (check_date_range_verdict item s2) as Hd.
      pose proof (check_date_range_evolves now self item s2) as (_ & _ & Hh3).
      destruct (_check_date_range now self item s2) as [r s3].
      cbn [fst snd] in Hd, Hh3.
      rewrite Ht2, Ht1 in Hd.
      assert (K12 : same_key (heap s2 item) (heap s item))
        by (eapply same_key_trans; [apply K2 | apply K1]).
      rewrite (date_ok_key _ _ _ K12) in Hd. rewrite <- Hd.
      destruct r as [[|] | e]; try reflexivity.
      rewrite Hh3, (check_amount_range_key self _ _ K12).
      now destruct (_check_amount_range self (heap s item)). }
  split; [apply H |].
  intros st2 Hk Hs Ht. rewrite !H, Hs, Ht. now apply verdict_key.
Qed.

Variable replayable :
  date_range self <= 0 \/ (forall n, now n = now 0%nat).

Lemma verdict_replay (b : BidInfo) (seen : gset str) (t t' : nat) :
  verdict lower self b seen (now t) = verdict lower self b seen (now t').
Proof.
  destruct replayable as [Hr | Hc].
  - unfold verdict, date_ok. apply Z.leb_le in Hr. now rewrite Hr.
  - now rewrite (Hc t), (Hc t').
Qed.

Lemma loop_replay (items : list loc) :
  forall result stats st st2,
    (forall l, same_key (heap st2 l) (heap st l)) ->
    seen_hashes st2 = seen_hashes st ->
    fst (loop items result stats st2) = fst (loop items result stats st).
Proof.
  induction items as [|item rest IH]; intros result stats st st2 Hk Hs;
    cbn [filter_loop]; [reflexivity |].
  destruct (verdict_depends_on_key item st) as [H1 _].
  destruct (verdict_depends_on_key item st2) as [H2 _].
  rewrite (verdict_key _ _ _ _ (Hk item)), Hs,
          (verdict_replay _ _ (ticks st2) (ticks st)), <- H1 in H2.
  pose proof (filter_item_spec lower now self item st)
    as ((K1 & _ & _) & Hinv1 & Hval1).
  pose proof (filter_item_spec lower now self item st2)
    as ((K2 & _ & _) & Hinv2 & Hval2).
  cbn zeta in Hinv1, Hval1, Hinv2, Hval2.
  rewrite (same_key_valid _ _ (Hk item)) in Hinv2, Hval2.
  rewrite (same_key_fingerprint _ _ (Hk item)), Hs in Hval2.
  destruct (item_step item st) as [r1 st1], (item_step item st2) as [r2 st1'].
  cbn [fst snd] in *. subst r2.
  destruct r1 as [o | e]; [| reflexivity].
  apply IH.
  - intros l. eapply same_key_trans; [apply K2 |].
    eapply same_key_trans; [apply Hk |].
    destruct (K1 l) as (? & ? & ? & ? & ? & ?).
    unfold same_key. intuition congruence.
  - destruct (is_valid (heap st item)).
    + destruct (Hval1 eq_refl) as [-> _], (Hval2 eq_refl) as [-> _].
      reflexivity.
    + specialize (Hinv1 eq_refl). specialize (Hinv2 eq_refl).
      inversion Hinv1; inversion Hinv2; subst. exact Hs.
Qed.

(** With the date window switched off, or at a standstill of the
    clock: once [reset] has been called, [filter] returns for a list
    what it would have returned before the earlier call, had the set
    been empty then.  The marks the earlier call left on the records
    do not matter. *)
Theorem reset_replays (items : list loc) (st0 : state) :
  fst (Filter.filter lower now self items
         (reset (snd (Filter.filter lower now self items st0))))
  = fst (Filter.filter lower now self items (reset st0)).
Proof.
  set (s0 := mk_stats (len items) 0 0 0 0 0 0).
  pose proof (loop_invariant lower now self items [] s0 st0) as (K & _).
  cbn zeta in K. rewrite <- (filter_state lower now self items st0 [] s0) in K.
  assert (E : forall st,
             fst (Filter.filter lower now self items st)
             = match fst (loop items [] s0 st) with
               | Ok (r, _) => Ok r
               | Raise e => Raise e
               end).
  { intros st. rewrite filter_as_loop. fold s0.
    now destruct (loop items [] s0 st) as [[[r s] | e] st']. }
  rewrite (E (reset st0)), E.
  rewrite (loop_replay items [] s0 (reset st0)
             (reset (snd (Filter.filter lower now self items st0))));
    [reflexivity | exact K | reflexivity].
Qed.

End Verdict.

Lemma reset_replays_witness :
  let self := Filter.init SampleMore.cfg_no_window in
  let st0 := Sample.fresh Sample.store4 in
  let run1 := Filter.filter Model.ascii_lower SampleMore.ticking self
                            [0; 1; 2; 3]%nat st0 in
  fst run1 = Ok [0; 3]%nat
  /\ fst (Filter.filter Model.ascii_lower SampleMore.ticking self
                        [0; 1; 2; 3]%nat (snd run1)) = Ok []
  /\ fst (Filter.filter Model.ascii_lower SampleMore.ticking self
                        [0; 1; 2; 3]%nat (Filter.reset (snd run1)))
     = Ok [0; 3]%nat.
Proof.
  intros self st0 run1.
  split; [vm_compute; reflexivity |]. split; [vm_compute; reflexivity |].
  assert (Hoff : Filter.date_range self <= 0) by (vm_compute; discriminate).
  etransitivity.
  - exact (reset_replays Model.ascii_lower SampleMore.ticking self
                         (or_introl Hoff) [0; 1; 2; 3]%nat st0).
  - vm_compute. reflexivity.
Defined.

Lemma verdict_depends_on_key_witness :
  let self := Sample.filter4 in
  let st := Sample.fresh Sample.store4 in
  let st2 := Filter.reset
               (snd (Filter.filter Model.ascii_lower Sample.clock self
                                   [0; 1; 2; 3]%nat st)) in
  Model.matched_keywords (Filter.heap st2 3%nat)
  <> Model.matched_keywords (Filter.heap st 3%nat)
  /\ fst (Filter.filter_item Model.ascii_lower Sample.clock self 3%nat st2)
     = fst (Filter.filter_item Model.ascii_lower Sample.clock self 3%nat st).
Proof.
  intros self st st2.
  destruct (verdict_depends_on_key Model.ascii_lower Sample.clock self
                                   3%nat st) as [_ H].
  split; [vm_compute; discriminate |].
  apply H; [| reflexivity | reflexivity].
  vm_compute. repeat split.
Defined.

(* ===================================================================== *)
(** * helpers: clean_text, truncate_text, extract_keywords_from_text     *)
(* ===================================================================== *)

Section TextHelpers.

Import Py Text.

Lemma is_space_32 : Re.is_space 32 = true.
Proof. reflexivity. Qed.

Lemma collapse_from_single_spaced (s : str) :
  forall b, single_spaced b (collapse_from b s) = true.
Proof.
  induction s as [|c s IH]; intros b; [reflexivity |].
  cbn [collapse_from]. destruct (Re.is_space c) eqn:Hc.
  - destruct b; [apply IH |].
    cbn [single_spaced]. rewrite is_space_32. cbn. apply IH.
  - cbn [single_spaced]. rewrite Hc. apply IH.
Qed.

Lemma single_spaced_weaken (s : str) (b : bool) :
  single_spaced b s = true -> single_spaced false s = true.
Proof.
  destruct s as [|c s]; [reflexivity |]. cbn [single_spaced].
  destruct (Re.is_space c); [| tauto].
  destruct b; cbn; [| tauto]. rewrite andb_false_r. discriminate.
Qed.

Lemma lstrip_single_spaced (s : str) :
  forall b, single_spaced b s = true -> single_spaced true (lstrip s) = true.
Proof.
  induction s as [|c s IH]; intros b H; [reflexivity |].
  cbn [lstrip]. destruct (Re.is_space c) eqn:Hc.
  - cbn [single_spaced] in H. rewrite Hc in H.
    apply andb_prop in H as [_ H]. now apply (IH true).
  - cbn [single_spaced] in *. now rewrite Hc in *.
Qed.

Lemma rstrip_nil_iff (s : str) :
  rstrip s = [] <-> List.forallb Re.is_space s = true.
Proof.
  induction s as [|c s IH]; [now split |].
  cbn [rstrip List.forallb]. destruct (rstrip s) as [|r rs].
  - destruct (Re.is_space c); cbn [andb].
    + split; [intros _; now apply IH | reflexivity].
    + split; discriminate.
  - split; [discriminate |]. intros H. apply andb_prop in H as [_ H].
    apply IH in H. discriminate H.
Qed.

Lemma single_spaced_all_space (s : str) :
  single_spaced true s = true -> List.forallb Re.is_space s = true ->
  s = [].
Proof.
  destruct s as [|c s]; [reflexivity |].
  cbn [single_spaced List.forallb]. destruct (Re.is_space c); cbn.
  - rewrite andb_false_r. discriminate.
  - discriminate.
Qed.

Lemma rstrip_single_spaced (s : str) :
  forall b, single_spaced b s = true -> single_spaced b (rstrip s) = true.
Proof.
  induction s as [|c s IH]; intros b H; [reflexivity |].
  cbn [rstrip]. cbn [single_spaced] in H.
  destruct (rstrip s) as [|r rs] eqn:E.
  - destruct (Re.is_space c) eqn:Hc; [reflexivity |].
    cbn [single_spaced]. now rewrite Hc.
  - cbn [single_spaced]. destruct (Re.is_space c).
    + apply andb_prop in H as [H1 H2]. rewrite H1. cbn [andb].
      now apply IH.
    + now apply IH.
Qed.

Lemma rstrip_no_trailing_space (s : str) :
  ends_with_space (rstrip s) = false.
Proof.
  induction s as [|c s IH]; [reflexivity |].
  cbn [rstrip]. destruct (rstrip s) as [|r rs] eqn:E.
  - destruct (Re.is_space c) eqn:Hc; [reflexivity |]. cbn. exact Hc.
  - exact IH.
Qed.

Lemma collapse_from_fixed (s : str) :
  forall p r, single_spaced p s = true -> (r = true -> p = true) ->
              collapse_from r s = s.
Proof.
  induction s as [|c s IH]; intros p r H Hr; [reflexivity |].
  cbn [collapse_from]. cbn [single_spaced] in H.
  destruct (Re.is_space c).
  - apply andb_prop in H as [H1 H2]. apply andb_prop in H1 as [Hc Hp].
    destruct p; [discriminate Hp |].
    destruct r; [now specialize (Hr eq_refl) |].
    apply Z.eqb_eq in Hc. subst c. f_equal. now apply (IH true true).
  - f_equal. now apply (IH false false).
Qed.

Lemma lstrip_fixed (s : str) : single_spaced true s = true -> lstrip s = s.
Proof.
  destruct s as [|c s]; [reflexivity |]. cbn [single_spaced lstrip].
  destruct (Re.is_space c); [| reflexivity].
  cbn. rewrite andb_false_r. discriminate.
Qed.

Lemma rstrip_fixed (s : str) : ends_with_space s = false -> rstrip s = s.
Proof.
  induction s as [|c s IH]; [reflexivity |].
  cbn [rstrip]. intros H. destruct s as [|c' s'].
  - cbn in *. now rewrite H.
  - rewrite IH by exact H. reflexivity.
Qed.

(** Words survive: the characters that are not whitespace are the same
    before and after, in the same order. *)
Lemma collapse_from_words (s : str) :
  forall b,
    List.filter (fun c => negb (Re.is_space c)) (collapse_from b s)
    = List.filter (fun c => negb (Re.is_space c)) s.
Proof.
  induction s as [|c s IH]; intros b; [reflexivity |].
  cbn [collapse_from List.filter]. destruct (Re.is_space c) eqn:Hc; cbn [negb].
  - destruct b; [apply IH |]. cbn [List.filter]. rewrite is_space_32.
    cbn [negb]. apply IH.
  - cbn [List.filter]. rewrite Hc. cbn [negb]. f_equal. apply IH.
Qed.

Lemma lstrip_words (s : str) :
  List.filter (fun c => negb (Re.is_space c)) (lstrip s)
  = List.filter (fun c => negb (Re.is_space c)) s.
Proof.
  induction s as [|c s IH]; [reflexivity |].
  cbn [lstrip]. destruct (Re.is_space c) eqn:Hc; [| reflexivity].
  cbn [List.filter]. now rewrite Hc.
Qed.

Lemma rstrip_words (s : str) :
  List.filter (fun c => negb (Re.is_space c)) (rstrip s)
  = List.filter (fun c => negb (Re.is_space c)) s.
Proof.
  induction s as [|c s IH]; [reflexivity |].
  cbn [rstrip]. destruct (rstrip s) as [|r rs] eqn:E.
  - cbn [List.filter]. rewrite <- IH.
    destruct (Re.is_space c) eqn:Hc; cbn [negb List.filter];
      [reflexivity |]. now rewrite Hc.
  - cbn [List.filter]. now rewrite <- IH.
Qed.

(** [clean_text] returns words separated by single spaces with no
    whitespace at either end, keeps every non-whitespace character in
    place, leaves such a text unchanged, and is therefore idempotent. *)
Theorem clean_text_tidy (text : str) :
  tidy (clean_text text) = true
  /\ List.filter (fun c => negb (Re.is_space c)) (clean_text text)
     = List.filter (fun c => negb (Re.is_space c)) text
  /\ (tidy text = true -> clean_text text = text)
  /\ clean_text (clean_text text) = clean_text text.
Proof.
  assert (Htidy : forall t, tidy (clean_text t) = true).
  { intros t. unfold clean_text, tidy.
    destruct t as [|c t]; [reflexivity |]. cbn [truthy_str negb].
    unfold strip, collapse. rewrite rstrip_no_trailing_space.
    rewrite rstrip_single_spaced; [reflexivity |].
    apply (lstrip_single_spaced _ false), collapse_from_single_spaced. }
  assert (Hfix : forall t, tidy t = true -> clean_text t = t).
  { intros t H. unfold tidy in H. apply andb_prop in H as [H1 H2].
    apply negb_true_iff in H2. unfold clean_text.
    destruct t as [|c t]; [reflexivity |]. cbn [truthy_str negb].
    unfold strip, collapse.
    rewrite (collapse_from_fixed _ true false H1) by discriminate.
    now rewrite (lstrip_fixed _ H1), (rstrip_fixed _ H2). }
  split; [apply Htidy |]. split; [| split; [apply Hfix |]].
  - unfold clean_text. destruct text as [|c t]; [reflexivity |].
    cbn [truthy_str negb]. unfold strip, collapse.
    now rewrite rstrip_words, lstrip_words, collapse_from_words.
  - apply Hfix, Htidy.
Qed.

Lemma clean_text_tidy_witness :
  clean_text (u "  hello   world  ") = u "hello world"
  /\ clean_text (u "hello world") = u "hello world".
Proof.
  destruct (clean_text_tidy (u "hello world")) as (_ & _ & H & _).
  split; [vm_compute; reflexivity | apply H; reflexivity].
Defined.

(** [truncate_text] returns the text itself when it is empty or has at
    most [max_length] characters.  A longer text is cut to its first
    [max_length] characters and the suffix is appended, so the result
    has [max_length + len(suffix)] characters, which can be more than
    the text had.  With a negative [max_length] the cut removes that
    many characters from the end instead. *)
Theorem truncate_text_length (text : str) (max_length : Z) (suffix : str) :
  (len text <= max_length -> truncate_text text max_length suffix = text)
  /\ (0 <= max_length < len text ->
      truncate_text text max_length suffix
      = List.firstn (Z.to_nat max_length) text ++ suffix
      /\ len (truncate_text text max_length suffix)
         = max_length + len suffix)
  /\ (max_length < 0 -> - max_length <= len text -> text <> [] ->
      truncate_text text max_length suffix
      = List.firstn (List.length text - Z.to_nat (- max_length)) text
        ++ suffix).
Proof.
  unfold truncate_text, slice_to, len. split; [| split].
  - intros H. apply Z.leb_le in H. rewrite H. now rewrite orb_true_r.
  - intros [H0 H1].
    destruct text as [|c t]; [cbn in H1; lia |]. cbn [truthy_str negb orb].
    apply Z.leb_gt in H1 as H1'. rewrite H1'.
    apply Z.leb_le in H0 as H0'. rewrite H0'. split; [reflexivity |].
    rewrite length_app, List.length_firstn. lia.
  - intros H0 H1 Hne.
    destruct text as [|c t]; [contradiction |]. cbn [truthy_str negb orb].
    assert (H2 : (Z.of_nat (List.length (c :: t)) <=? max_length) = false)
      by (apply Z.leb_gt; lia).
    assert (H3 : (0 <=? max_length) = false) by (apply Z.leb_gt; lia).
    rewrite H2, H3. do 2 f_equal. lia.
Qed.

Lemma truncate_text_length_witness :
  truncate_text (u "abcd") 3 (u "...") = u "abc..."
  /\ truncate_text (u "abcd") 4 (u "...") = u "abcd"
  /\ truncate_text (u "abcd") (-1) (u "...") = u "abc...".
Proof.
  destruct (truncate_text_length (u "abcd") 3 (u "...")) as (_ & H1 & _).
  destruct (truncate_text_length (u "abcd") 4 (u "...")) as (H2 & _).
  destruct (truncate_text_length (u "abcd") (-1) (u "...")) as (_ & _ & H3).
  split; [apply H1; vm_compute; split; [discriminate | reflexivity] |].
  split; [apply H2; vm_compute; discriminate |].
  rewrite H3; [reflexivity | reflexivity | vm_compute; discriminate |
               discriminate].
Defined.

(** On a non-empty title the record's [match_keywords] finds exactly
    what [extract_keywords_from_text] finds in the title: it succeeds
    when that list is non-empty and stores it.  On an empty title the
    helper finds nothing. *)
Theorem match_keywords_extracts (lower : str -> str) (self : Model.BidInfo)
        (keywords : list str) :
  (Model.title self <> [] ->
   Model.match_keywords lower self keywords
   = match extract_keywords_from_text lower (Model.title self) keywords with
     | [] => (false, self)
     | m :: ms => (true, Model.set_matched_keywords self (m :: ms))
     end)
  /\ (Model.title self = [] ->
      extract_keywords_from_text lower (Model.title self) keywords = []).
Proof.
  split.
  - intros Ht. unfold Model.match_keywords, extract_keywords_from_text.
    destruct (Model.title self) as [|c t] eqn:E; [contradiction |].
    cbn [truthy_str negb]. destruct keywords as [|k ks]; [reflexivity |].
    unfold Model.matching. now destruct (List.filter _ (k :: ks)).
  - intros ->. reflexivity.
Qed.

Lemma match_keywords_extracts_witness :
  let b := Sample.bid "市政道路养护采购公告" "市政局" None in
  extract_keywords_from_text Model.ascii_lower (Model.title b)
                             [u "养护"; u "绿化"; u "采购"]
  = [u "养护"; u "采购"]
  /\ Model.match_keywords Model.ascii_lower b [u "养护"; u "绿化"; u "采购"]
     = (true, Model.set_matched_keywords b [u "养护"; u "采购"]).
Proof.
  intros b.
  destruct (match_keywords_extracts Model.ascii_lower b
              [u "养护"; u "绿化"; u "采购"]) as [H _].
  assert (E : extract_keywords_from_text Model.ascii_lower (Model.title b)
                [u "养护"; u "绿化"; u "采购"] = [u "养护"; u "采购"])
    by (vm_compute; reflexivity).
  split; [exact E |]. rewrite H by discriminate. now rewrite E.
Defined.

(** Separators do not matter to [parse_amount]: commas, full-width
    commas and whitespace may be added or removed anywhere. *)
Theorem parse_amount_ignores_separators (s : str) :
  Helpers.parse_amount s = Helpers.parse_amount (Helpers.strip_separators s).
Proof.
  unfold Helpers.parse_amount.
  assert (Hidem : Helpers.strip_separators (Helpers.strip_separators s)
                  = Helpers.strip_separators s).
  { unfold Helpers.strip_separators. induction s as [|c s IH];
      [reflexivity |]. cbn [List.filter].
    destruct (negb _) eqn:Hc; [| exact IH].
    cbn [List.filter]. rewrite Hc. now rewrite IH. }
  rewrite Hidem.
  destruct s as [|c s]; [reflexivity |]. cbn [truthy_str negb].
  destruct (Helpers.strip_separators (c :: s)) as [|c' s'] eqn:E;
    reflexivity.
Qed.

End TextHelpers.

(* ===================================================================== *)
(** * The records a page yields, and the parser registry                  *)
(* ===================================================================== *)

Section PageRecords.

Import Py DateTime Model Config Crawler.

Variable http : list str -> str -> res str.
Variable now : nat -> datetime.
Variable site : Site.

(** A record as [fetch_list] builds it. *)
Local Abbreviation stamped :=
  (fun b : BidInfo => source b = name site /\ title b <> [] /\ url b <> []).

Lemma convert_items_stamped (items : list RawItem) :
  forall bid_infos w,
    (forall b, List.In b bid_infos -> stamped b) ->
    (forall b, List.In b (fst (convert_items now site items bid_infos w)) ->
               stamped b)
    /\ (List.length (fst (convert_items now site items bid_infos w))
        <= List.length bid_infos + List.length items)%nat.
Proof.
  induction items as [|item rest IH]; intros bid_infos w Hacc;
    cbn [convert_items].
  - split; [exact Hacc | cbn; lia].
  - destruct (truthy_ostr (r_title item)) eqn:Ht; cbn [negb orb].
    2:{ destruct (IH bid_infos w Hacc) as [H1 H2].
        split; [exact H1 | cbn [List.length]; lia]. }
    destruct (truthy_ostr (r_url item)) eqn:Hu; cbn [negb].
    2:{ destruct (IH bid_infos w Hacc) as [H1 H2].
        split; [exact H1 | cbn [List.length]; lia]. }
    unfold make_bid_info. destruct (r_other_keys item).
    + assert (Hnew : forall ct, stamped
                {| title := default [] (r_title item);
                   url := default [] (r_url item);
                   source := name site;
                   bid_no := r_bid_no item; purchaser := r_purchaser item;
                   agency := r_agency item;
                   publish_date := r_publish_date item;
                   deadline := r_deadline item; budget := r_budget item;
                   contact := r_contact item; address := r_address item;
                   industry := r_industry item;
                   matched_keywords := default [] (r_matched_keywords item);
                   crawl_time := ct; content_hash := r_content_hash item |}).
      { intros ct. cbn [source title url].
        destruct (r_title item) as [[|c t] |], (r_url item) as [[|c' t'] |];
          try discriminate. repeat split; discriminate. }
      destruct (r_crawl_time item) as [t |];
        match goal with
        | |- context [convert_items now site rest (bid_infos ++ [?b]) ?w'] =>
          destruct (IH (bid_infos ++ [b]) w') as [H1 H2];
            [intros b' Hb; apply List.in_app_iff in Hb as [Hb | [<- | []]];
             [now apply Hacc | apply Hnew] |];
            split; [exact H1 |];
            rewrite length_app in H2; cbn [List.length] in *; lia
        end.
    + destruct (IH bid_infos (emit WARNING (CreateFailed (Exn "TypeError")) w)
                   Hacc) as [H1 H2].
      split; [exact H1 | cbn [List.length]; lia].
Qed.

(** Every record [fetch_list] returns carries the name of the site as
    its source and has a non-empty title and a non-empty URL; a page
    yields at most as many records as its parser found items. *)
Theorem fetch_list_records (page : Z) (keywords : list str) (w : world) :
  (forall b,
      List.In b (accepted_items (fst (fetch_list http now site page keywords w)))
      -> source b = name site /\ title b <> [] /\ url b <> [])
  /\ (forall url html items,
        get_list_url site page keywords = Ok url ->
        http (requests w) url = Ok html -> parse_list site html = Ok items ->
        (List.length
           (accepted_items (fst (fetch_list http now site page keywords w)))
         <= List.length items)%nat).
Proof.
  split.
  - intros b. unfold fetch_list.
    destruct (get_list_url site page keywords) as [url | e]; [| intros []].
    unfold http_get. cbn [emit requests log clock].
    destruct (http (requests w) url) as [html | e]; [| intros []].
    destruct (truthy_str html); cbn [negb]; [| intros []].
    destruct (parse_list site html) as [items | e]; [| intros []].
    match goal with
    | |- context [convert_items now site items [] ?w'] =>
      pose proof (convert_items_stamped items [] w') as [H _];
        [intros ? [] |];
        destruct (convert_items now site items [] w') as [bid_infos w4]
    end.
    cbn [fst snd accepted_items] in *. apply H.
  - intros url html items Hu Hh Hp. unfold fetch_list. rewrite Hu.
    unfold http_get. cbn [emit requests log clock]. rewrite Hh.
    destruct (truthy_str html); cbn [negb]; [| cbn; lia].
    rewrite Hp.
    match goal with
    | |- context [convert_items now site items [] ?w'] =>
      pose proof (convert_items_stamped items [] w') as [_ H];
        [intros ? [] |];
        destruct (convert_items now site items [] w') as [bid_infos w4]
    end.
    cbn [fst snd accepted_items List.length] in *. lia.
Qed.

End PageRecords.

Lemma fetch_list_records_witness :
  List.map Model.source
    (Crawler.accepted_items
       (fst (Crawler.fetch_list Sample.http_page2_empty Sample.clock
                                Sample.site_b 1 [Py.u "招标"] Sample.world0)))
  = [Py.u "B"].
Proof.
  destruct (fetch_list_records Sample.http_page2_empty Sample.clock
              Sample.site_b 1 [Py.u "招标"] Sample.world0) as [H _].
  destruct (Crawler.accepted_items _) as [|b [|b' rest]] eqn:E;
    try (vm_compute in E; discriminate E).
  destruct (H b (or_introl eq_refl)) as (Hs & _).
  cbn [List.map]. now rewrite Hs.
Defined.

Section Registry.

Import Py Model Config Crawler Engine.

Variable parser_classes : gmap str (Website -> res Parser).

Lemma register_loop_sound (websites : list Website) :
  forall (registered : gmap str Parser) (w : world),
    let r := register_loop parser_classes websites registered w in
    (forall n p, fst r !! n = Some p ->
       registered !! n = Some p
       \/ (n <> []
           /\ exists cls website,
               parser_classes !! n = Some cls /\ List.In website websites
               /\ default [] (w_parser website) = n /\ cls website = Ok p))
    /\ requests (snd r) = requests w.
Proof.
  induction websites as [|website rest IH]; intros registered w; cbn zeta.
  - cbn [register_loop fst snd]. split; [now left | reflexivity].
  - cbn [register_loop].
    destruct (default [] (w_parser website)) as [|c n0] eqn:En;
      cbn [truthy_str negb].
    { destruct (IH registered
                  (emit WARNING (NoParserConfigured
                                   (default [] (w_name website))) w))
        as [H1 H2].
      split; [| exact H2]. intros n p Hn.
      destruct (H1 n p Hn) as [Hr | (Hne & cls & ws & Hc & Hin & Hp & Hok)];
        [now left |].
      right. split; [exact Hne |]. exists cls, ws.
        split; [exact Hc |]. split; [now right |]. now split. }
    destruct (parser_classes !! (c :: n0)) as [cls |] eqn:Ec.
    2:{ destruct (IH registered
                    (emit WARNING (ParserClassMissing (c :: n0)) w))
          as [H1 H2].
        split; [| exact H2]. intros n p Hn.
        destruct (H1 n p Hn) as [Hr | (Hne & cls & ws & Hc & Hin & Hp & Hok)];
          [now left |].
        right. split; [exact Hne |]. exists cls, ws.
        split; [exact Hc |]. split; [now right |]. now split. }
    destruct (cls website) as [parser | e] eqn:Eo.
    + destruct (IH (<[c :: n0 := parser]> registered)
                   (emit INFO (Registered (c :: n0)
                                          (default [] (w_name website))) w))
        as [H1 H2].
      split; [| exact H2]. intros n p Hn.
      destruct (H1 n p Hn) as [Hr | (Hne & cls' & ws & Hc & Hin & Hp & Hok)].
      * destruct (decide (c :: n0 = n)) as [<- | Hd].
        -- rewrite lookup_insert_eq in Hr. inversion Hr; subst p.
           right. split; [discriminate |]. exists cls, website.
           split; [exact Ec |]. split; [now left |]. now split.
        -- rewrite lookup_insert_ne in Hr by exact Hd. now left.
      * right. split; [exact Hne |]. exists cls', ws.
        split; [exact Hc |]. split; [now right |]. now split.
    + destruct (IH registered (emit ERROR (RegisterFailed (c :: n0) e) w))
        as [H1 H2].
      split; [| exact H2]. intros n p Hn.
      destruct (H1 n p Hn) as [Hr | (Hne & cls' & ws & Hc & Hin & Hp & Hok)];
        [now left |].
      right. split; [exact Hne |]. exists cls', ws.
        split; [exact Hc |]. split; [now right |]. now split.
Qed.

(** Building the engine issues no request.  Every registered parser
    was made by the class its non-empty name selects, for an enabled
    website configured with that name.  A website whose parser name is
    empty, or for which no class exists, is therefore not crawled:
    [crawl_website] returns no record for it and logs the error,
    leaving the network alone. *)
Theorem registry_is_sound (cfg : ConfigManager) (w : world) :
  let engine := fst (init parser_classes cfg w) in
  requests (snd (init parser_classes cfg w)) = requests w
  /\ (forall n p, parsers engine !! n = Some p ->
        n <> []
        /\ exists cls website,
            parser_classes !! n = Some cls
            /\ List.In website (get_websites cfg)
            /\ default [] (w_parser website) = n /\ cls website = Ok p)
  /\ (forall website keywords max_pages w2,
        default [] (w_parser website) = []
        \/ parser_classes !! default [] (w_parser website) = None ->
        crawl_website engine website keywords max_pages w2
        = (Ok [], emit ERROR (ParserNotFound (default [] (w_parser website)))
                       w2)).
Proof.
  cbn zeta. unfold init.
  pose proof (register_loop_sound (get_websites cfg) ∅
                (emit INFO (RegisterStart (len (get_websites cfg))) w))
    as [H1 H2].
  cbn zeta in H1, H2.
  destruct (register_loop parser_classes (get_websites cfg) ∅ _)
    as [registered w'].
  cbn [fst snd parsers config] in *.
  assert (Hreg : forall n p, registered !! n = Some p ->
            n <> []
            /\ exists cls website,
                parser_classes !! n = Some cls
                /\ List.In website (get_websites cfg)
                /\ default [] (w_parser website) = n /\ cls website = Ok p).
  { intros n p Hn. destruct (H1 n p Hn) as [Hr | Hr]; [| exact Hr].
    rewrite lookup_empty in Hr. discriminate Hr. }
  split; [exact H2 |]. split; [exact Hreg |].
  intros website keywords max_pages w2 Hno. unfold crawl_website.
  cbn [parsers].
  destruct (registered !! default [] (w_parser website)) as [p |] eqn:E;
    [| reflexivity].
  exfalso. destruct (Hreg _ _ E) as (Hne & cls & ws & Hc & _).
  destruct Hno as [Hno | Hno]; congruence.
Qed.

End Registry.

Lemma registry_is_sound_witness :
  let engine :=
    fst (Engine.init SampleMore.parser_classes (Sample.cfg_sites [Py.u "招标"])
                     Sample.world0) in
  Engine.crawl_website engine (Sample.website "B" "b") [Py.u "招标"] None
                       Sample.world0
  = (Ok [],
     Crawler.emit Crawler.ERROR (Crawler.ParserNotFound (Py.u "b"))
                  Sample.world0).
Proof.
  intros engine.
  destruct (registry_is_sound SampleMore.parser_classes
              (Sample.cfg_sites [Py.u "招标"]) Sample.world0) as (_ & _ & H).
  apply (H (Sample.website "B" "b")). right. vm_compute. reflexivity.
Defined.

(* ===================================================================== *)
(** * Statistics                                                          *)
(* ===================================================================== *)

Section StatisticsFacts.

Import Py DateTime Model Statistics.

Lemma incr_sum (d : dict Z) (k : str) : dict_sum (incr d k) = dict_sum d + 1.
Proof.
  unfold incr, dict_sum. induction d as [|[k' v] d IH]; [reflexivity |].
  cbn [dict_get dict_set]. destruct (decide (k' = k)).
  - cbn [List.fold_right snd]. lia.
  - cbn [List.fold_right snd]. rewrite IH. lia.
Qed.

Lemma dict_set_keys_old {V : Type} (d : dict V) (k : str) (v : V) :
  List.In k (List.map fst d) ->
  List.map fst (dict_set d k v) = List.map fst d.
Proof.
  induction d as [|[k' v'] d IH]; [intros [] |].
  cbn [dict_set List.map fst]. intros Hin.
  destruct (decide (k' = k)) as [-> | Hne]; [reflexivity |].
  cbn [List.map fst]. f_equal. apply IH.
  destruct Hin as [Hk | Hin]; [contradiction | exact Hin].
Qed.

Lemma dict_set_keys_new {V : Type} (d : dict V) (k : str) (v : V) :
  ~ List.In k (List.map fst d) ->
  List.map fst (dict_set d k v) = List.map fst d ++ [k].
Proof.
  induction d as [|[k' v'] d IH]; [reflexivity |].
  cbn [dict_set List.map fst]. intros Hnin.
  destruct (decide (k' = k)) as [-> | Hne];
    [exfalso; apply Hnin; now left |].
  cbn [List.map fst app]. f_equal. apply IH.
  intros Hin. apply Hnin. now right.
Qed.

Lemma incr_nodup (d : dict Z) (k : str) :
  List.NoDup (List.map fst d) -> List.NoDup (List.map fst (incr d k)).
Proof.
  intros H. unfold incr.
  destruct (decide (k ∈ List.map fst d)) as [Hin | Hnin].
  - apply list_elem_of_In in Hin. now rewrite dict_set_keys_old.
  - assert (Hn : ~ List.In k (List.map fst d))
      by (intros Hin; apply Hnin; now apply list_elem_of_In).
    rewrite dict_set_keys_new by exact Hn.
    apply NoDup_ListNoDup, NoDup_app. split; [now apply NoDup_ListNoDup |].
    split; [| apply NoDup_singleton].
    intros x Hx Hk. apply list_elem_of_singleton in Hk. subst x.
    apply Hnin, Hx.
Qed.

Lemma fold_incr_sum (ks : list str) :
  forall d, dict_sum (List.fold_left incr ks d) = dict_sum d + len ks.
Proof.
  unfold len. induction ks as [|k ks IH]; intros d; cbn [List.fold_left].
  - cbn. lia.
  - rewrite IH, incr_sum. cbn [List.length]. lia.
Qed.

Lemma fold_incr_nodup (ks : list str) :
  forall d, List.NoDup (List.map fst d) ->
            List.NoDup (List.map fst (List.fold_left incr ks d)).
Proof.
  induction ks as [|k ks IH]; intros d H; cbn [List.fold_left];
    [exact H |].
  now apply IH, incr_nodup.
Qed.

(** The loop of [get_statistics] runs four independent counts. *)
Lemma get_statistics_components (items : list BidInfo) :
  forall s,
    List.fold_left count_item items s
    = mk_stats
        (total s)
        (List.fold_left (fun d item => incr d (source_or_unknown item))
                        items (by_source s))
        (List.fold_left (fun d item => incr d (industry_or_other item))
                        items (by_industry s))
        (List.fold_left (fun d item => match publish_date item with
                                       | Some t => incr d (strftime_Y_m_d t)
                                       | None => d
                                       end) items (by_date s))
        (List.fold_left (fun d item =>
                           List.fold_left incr (matched_keywords item) d)
                        items (keywords s)).
Proof.
  induction items as [|item rest IH]; intros s; cbn [List.fold_left].
  - now destruct s.
  - rewrite IH. reflexivity.
Qed.

Lemma fold_count_one (key : BidInfo -> str) (items : list BidInfo) :
  forall d,
    dict_sum (List.fold_left (fun d item => incr d (key item)) items d)
    = dict_sum d + len items
    /\ (List.NoDup (List.map fst d) ->
        List.NoDup (List.map fst
          (List.fold_left (fun d item => incr d (key item)) items d))).
Proof.
  unfold len. induction items as [|item rest IH]; intros d;
    cbn [List.fold_left].
  - split; [cbn; lia | auto].
  - destruct (IH (incr d (key item))) as [H1 H2]. rewrite H1, incr_sum.
    split; [cbn [List.length]; lia |].
    intros H. now apply H2, incr_nodup.
Qed.

Lemma fold_count_dated (items : list BidInfo) :
  forall d,
    dict_sum (List.fold_left (fun d item => match publish_date item with
                                            | Some t => incr d (strftime_Y_m_d t)
                                            | None => d
                                            end) items d)
    = dict_sum d
      + len (List.filter (fun b => match publish_date b with
                                   | Some _ => true | None => false end)
                         items)
    /\ (List.NoDup (List.map fst d) ->
        List.NoDup (List.map fst
          (List.fold_left (fun d item => match publish_date item with
                                         | Some t => incr d (strftime_Y_m_d t)
                                         | None => d
                                         end) items d))).
Proof.
  unfold len. induction items as [|item rest IH]; intros d;
    cbn [List.fold_left List.filter].
  - split; [cbn; lia | auto].
  - destruct (publish_date item) as [t |].
    + destruct (IH (incr d (strftime_Y_m_d t))) as [H1 H2].
      rewrite H1, incr_sum. split; [cbn [List.length]; lia |].
      intros H. now apply H2, incr_nodup.
    + apply IH.
Qed.

Lemma fold_count_keywords (items : list BidInfo) :
  forall d,
    dict_sum (List.fold_left
                (fun d item => List.fold_left incr (matched_keywords item) d)
                items d)
    = dict_sum d + len (List.concat (List.map matched_keywords items))
    /\ (List.NoDup (List.map fst d) ->
        List.NoDup (List.map fst
          (List.fold_left
             (fun d item => List.fold_left incr (matched_keywords item) d)
             items d))).
Proof.
  unfold len. induction items as [|item rest IH]; intros d;
    cbn [List.fold_left List.map List.concat].
  - split; [cbn; lia | auto].
  - destruct (IH (List.fold_left incr (matched_keywords item) d)) as [H1 H2].
    rewrite H1, fold_incr_sum, length_app. unfold len.
    split; [lia |]. intros H. now apply H2, fold_incr_nodup.
Qed.

(** The statistics add up: [total] is the number of items and so is
    the sum of the counts by source and by industry; the counts by date
    sum to the number of items that have a publication date and the
    keyword counts to the number of matched keywords; no key occurs
    twice; and the counts by source are those of the report's
    [_group_by_source]. *)
Theorem get_statistics_adds_up (items : list BidInfo) :
  let s := get_statistics items in
  total s = len items
  /\ dict_sum (by_source s) = len items
  /\ dict_sum (by_industry s) = len items
  /\ dict_sum (by_date s)
     = len (List.filter (fun b => match publish_date b with
                                  | Some _ => true | None => false end) items)
  /\ dict_sum (keywords s)
     = len (List.concat (List.map matched_keywords items))
  /\ List.NoDup (List.map fst (by_source s))
  /\ List.NoDup (List.map fst (by_industry s))
  /\ List.NoDup (List.map fst (by_date s))
  /\ List.NoDup (List.map fst (keywords s))
  /\ _group_by_source items = by_source s.
Proof.
  cbn zeta. unfold get_statistics, _group_by_source.
  rewrite get_statistics_components.
  cbn [total by_source by_industry by_date keywords].
  destruct (fold_count_one source_or_unknown items []) as [Hs Ns].
  destruct (fold_count_one industry_or_other items []) as [Hi Ni].
  destruct (fold_count_dated items []) as [Hd Nd].
  destruct (fold_count_keywords items []) as [Hk Nk].
  rewrite Hs, Hi, Hd, Hk. cbn [dict_sum List.fold_right].
  repeat split; try lia; try reflexivity;
    first [apply Ns | apply Ni | apply Nd | apply Nk]; constructor.
Qed.

End StatisticsFacts.
